(** * EduAdvisor server: the two request handlers

    A shallow embedding of the Express handlers of the EduAdvisor backend,
    [POST /api/recommendations] and [POST /api/chat], in the two revisions
    the repository holds:

    - [src/server.js]            (module [ServerJs]),
    - [src/unnamed/part_000]     (module [Part000]).

    JavaScript values are an inductive type, strings are sequences of
    UTF-16 code units, and the handlers run in a small monad that threads
    the observable world (outbound calls, responses sent, console output)
    and carries thrown exceptions.  The upstream is a function from the
    call made to the reply axios reports; [JSON.parse] and the printing
    of numbers belong to the runtime and are an interface ([JsRuntime]),
    with one implementation ([reference_runtime]) to run examples on.

    Contents: strings and values; the monad; the runtime interface; the
    handlers of the two revisions; the reference parser; the vocabulary
    of the properties; then the properties, the statements of the
    specification last. *)

From Stdlib Require Import List NArith ZArith Bool String Ascii Lia.
From Stdlib Require Import Floats.SpecFloat DecimalString.
Import ListNotations.

Set Warnings "-register-all".

(* ===================================================================== *)
(** ** Strings *)
(* ===================================================================== *)

(** A JavaScript string is a sequence of 16-bit code units. *)
Abbreviation code_unit := N (only parsing).
Abbreviation jsstr := (list N) (only parsing).

(** An ASCII literal of the source as a sequence of code units. *)
Definition lit (s : string) : jsstr :=
  List.map N_of_ascii (list_ascii_of_string s).

Fixpoint jsstr_eqb (a b : jsstr) : bool :=
  match a, b with
  | [], [] => true
  | x :: a', y :: b' => N.eqb x y && jsstr_eqb a' b'
  | _, _ => false
  end.

(** [WhiteSpace] and [LineTerminator] of ECMA-262, the code units that
    [String.prototype.trim] strips. *)
Definition is_js_space (c : code_unit) : bool :=
  existsb (N.eqb c)
    [9; 10; 11; 12; 13; 32; 160; 5760; 8232; 8233; 8239; 8287; 12288; 65279]%N
  || (N.leb 8192 c && N.leb c 8202).

Fixpoint trim_start (s : jsstr) : jsstr :=
  match s with
  | [] => []
  | c :: s' => if is_js_space c then trim_start s' else s
  end.

Fixpoint trim_end (s : jsstr) : jsstr :=
  match s with
  | [] => []
  | c :: s' =>
      match trim_end s' with
      | [] => if is_js_space c then [] else [c]
      | r => c :: r
      end
  end.

(** [s.trim()] *)
Definition trim (s : jsstr) : jsstr := trim_start (trim_end s).

(** [starts_with p s]: the literal [p] matches at the head of [s]. *)
Fixpoint starts_with (p s : jsstr) : bool :=
  match p, s with
  | [], _ => true
  | _ :: _, [] => false
  | x :: p', y :: s' => N.eqb x y && starts_with p' s'
  end.

(** [s.replace(/p/g, '')] for a literal pattern [p]: scanning from the
    left, every match is dropped and the scan resumes after it.  [skip]
    counts the code units of the current match still to be dropped. *)
Fixpoint remove_from (p : jsstr) (skip : nat) (s : jsstr) : jsstr :=
  match s with
  | [] => []
  | c :: s' =>
      match skip with
      | S k => remove_from p k s'
      | O =>
          if starts_with p s then remove_from p (Nat.pred (List.length p)) s'
          else c :: remove_from p 0 s'
      end
  end.

Definition remove_all (p s : jsstr) : jsstr :=
  match p with
  | [] => s
  | _ :: _ => remove_from p 0 s
  end.

(* ===================================================================== *)
(** ** Values *)
(* ===================================================================== *)

(** The values that travel through the handlers: what [express.json()] and
    axios hand over (parsed JSON), [undefined], and the object literals the
    handlers build.  Numbers are IEEE-754 doubles. *)
Inductive JsValue : Type :=
| JUndefined
| JNull
| JBool (b : bool)
| JNumber (x : spec_float)
| JString (s : jsstr)
| JArray (items : list JsValue)
| JObject (fields : list (jsstr * JsValue)).

(** Own properties of an object literal, in insertion order. *)
Fixpoint own (fields : list (jsstr * JsValue)) (k : jsstr) : option JsValue :=
  match fields with
  | [] => None
  | (k', v) :: rest => if jsstr_eqb k' k then Some v else own rest k
  end.

(** [!!v] *)
Definition truthy (v : JsValue) : bool :=
  match v with
  | JUndefined | JNull => false
  | JBool b => b
  | JNumber x =>
      match x with
      | S754_zero _ | S754_nan => false
      | _ => true
      end
  | JString s => negb (jsstr_eqb s [])
  | JArray _ | JObject _ => true
  end.

Definition nullish (v : JsValue) : bool :=
  match v with
  | JUndefined | JNull => true
  | _ => false
  end.

(** [typeof v === 'string'] *)
Definition is_string (v : JsValue) : bool :=
  match v with JString _ => true | _ => false end.

(** [Array.isArray(v)] *)
Definition isArray (v : JsValue) : bool :=
  match v with JArray _ => true | _ => false end.

(** Decimal digits of an array index, as a property name. *)
Definition digit_value (c : code_unit) : option nat :=
  if (N.leb 48 c && N.leb c 57)%N then Some (N.to_nat (c - 48)) else None.

Fixpoint digits_value (acc : nat) (s : jsstr) : option nat :=
  match s with
  | [] => Some acc
  | c :: s' =>
      match digit_value c with
      | Some d => digits_value (10 * acc + d) s'
      | None => None
      end
  end.

(** A canonical numeric property name ("0", "7", "12"; not "01"). *)
Definition index_of_name (k : jsstr) : option nat :=
  match k with
  | [] => None
  | [c] => digit_value c
  | c :: _ => if N.eqb c 48 then None else digits_value 0 k
  end.

(** A member read [v.k] / [v[k]] on a value that is neither [undefined]
    nor [null]: the own data property, or [undefined].  Inherited members
    (methods, [length]) are not data the handlers read by name. *)
Definition member (v : JsValue) (k : jsstr) : JsValue :=
  match v with
  | JObject fields =>
      match own fields k with Some x => x | None => JUndefined end
  | JArray items =>
      match index_of_name k with
      | Some i => nth i items JUndefined
      | None => JUndefined
      end
  | JString s =>
      match index_of_name k with
      | Some i =>
          match nth_error s i with
          | Some c => JString [c]
          | None => JUndefined
          end
      | None => JUndefined
      end
  | _ => JUndefined
  end.

(** [v?.k]: [undefined] when [v] is nullish. *)
Definition opt_member (v : JsValue) (k : jsstr) : JsValue :=
  if nullish v then JUndefined else member v k.

(* ===================================================================== *)
(** ** Exceptions and the handler monad *)
(* ===================================================================== *)

(** How an axios request fails: the upstream answered with a status
    outside 2xx ([error.response] is set), no answer arrived
    ([error.request] is set: timeout, connection reset), or the request
    could not be set up. *)
Inductive AxiosFailure : Type :=
| BadStatus (status : Z) (data : JsValue)
| NoResponse
| SetupFailed (message : jsstr).

(** What can be thrown inside a handler. *)
Inductive JsError : Type :=
| TypeError
| SyntaxError
| Error (message : jsstr)
| AxiosError (failure : AxiosFailure).

Inductive result (A : Type) : Type :=
| Ok (a : A)
| Throw (e : JsError).
Arguments Ok {A} a.
Arguments Throw {A} e.

(** One outbound [axios.post(url, payload, config)]; [timeout] is the
    [timeout] field of [config], [None] when no config is passed. *)
Record UpstreamCall : Type := mkCall {
  url : jsstr;
  payload : JsValue;
  timeout : option Z
}.

(** One [res.status(s).json(b)]; a bare [res.json(b)] has status 200. *)
Record Response : Type := mkResponse {
  status : Z;
  body : JsValue
}.

(** An argument of a [console.error] call: a text, a value, or a part of
    the caught error ([error.message], [error.request], a status, and
    [JSON.stringify(data, null, 2)]). *)
Inductive LogArg : Type :=
| LText (s : string)
| LValue (v : JsValue)
| LMessage (e : JsError)
| LRequest
| LStatus (status : Z)
| LJson (v : JsValue).

(** The observable effects of a handler run. *)
Record World : Type := mkWorld {
  calls : list UpstreamCall;
  sent : list Response;
  console : list (list LogArg)
}.

Definition fresh : World := mkWorld [] [] [].

(** Computations of a handler: they change the world and either yield a
    value or throw.  Effects done before a throw stay done. *)
Definition Js (A : Type) : Type := World -> result A * World.

Definition ret {A} (a : A) : Js A := fun w => (Ok a, w).

Definition throw {A} (e : JsError) : Js A := fun w => (Throw e, w).

Definition bind {A B} (m : Js A) (k : A -> Js B) : Js B :=
  fun w =>
    match m w with
    | (Ok a, w') => k a w'
    | (Throw e, w') => (Throw e, w')
    end.

(** [try { m } catch (error) { h error }] *)
Definition try_catch {A} (m : Js A) (h : JsError -> Js A) : Js A :=
  fun w =>
    match m w with
    | (Ok a, w') => (Ok a, w')
    | (Throw e, w') => h e w'
    end.

Definition lift {A} (r : result A) : Js A := fun w => (r, w).

Declare Scope js_scope.
Delimit Scope js_scope with js.
Notation "x <- m ;; k" := (bind m (fun x => k))
  (at level 100, m at next level, right associativity) : js_scope.
Notation "m ;; k" := (bind m (fun _ => k))
  (at level 100, right associativity) : js_scope.
Local Open Scope js_scope.

(** [v.k]: a [TypeError] on [undefined] and [null]. *)
Definition prop (v : JsValue) (k : jsstr) : result JsValue :=
  if nullish v then Throw TypeError else Ok (member v k).

(** [console.error(...)] *)
Definition console_error (args : list LogArg) : Js unit :=
  fun w => (Ok tt, mkWorld (calls w) (sent w) (console w ++ [args])).

(** [res.status(s).json(b)] *)
Definition res_status_json (s : Z) (b : JsValue) : Js unit :=
  fun w => (Ok tt, mkWorld (calls w) (sent w ++ [mkResponse s b]) (console w)).

(** [res.json(b)] *)
Definition res_json (b : JsValue) : Js unit := res_status_json 200 b.

(** [{ error: msg }] *)
Definition error_body (msg : string) : JsValue :=
  JObject [(lit "error", JString (lit msg))].

(* ===================================================================== *)
(** ** The runtime and the libraries the handlers call *)
(* ===================================================================== *)

(** The parts of the JavaScript runtime the handlers rely on and the
    source does not contain: the JSON parser ([None] stands for the
    [SyntaxError] it throws) and the printing of numbers, with the facts
    about [JSON.parse] the proofs use.  [reference_runtime] below is an
    implementation. *)
Class JsRuntime : Type := {
  JSON_parse_text : jsstr -> option JsValue;
  Number_toString : spec_float -> jsstr;
  JSON_parse_empty : JSON_parse_text [] = None;
  (** no JSON text starts with a backtick *)
  JSON_parse_backtick : forall s, JSON_parse_text (96%N :: s) = None;
  (** white space around a JSON text is ignored: a text that parses has
      only JSON white space at its ends, which [trim] removes *)
  JSON_parse_trim :
    forall s v, JSON_parse_text s = Some v -> JSON_parse_text (trim s) = Some v
}.

Definition rbind {A B} (r : result A) (k : A -> result B) : result B :=
  match r with
  | Ok a => k a
  | Throw e => Throw e
  end.

Section Runtime.
Context {rt : JsRuntime}.

(** [String(v)] / [`${v}`]: the abstract operation [ToString].  An
    object holding an own property [toString] (data, hence not
    callable) has no primitive value; any other plain object prints as
    [[object Object]]; an array joins its elements with commas. *)
Fixpoint to_string (v : JsValue) : result jsstr :=
  match v with
  | JUndefined => Ok (lit "undefined")
  | JNull => Ok (lit "null")
  | JBool true => Ok (lit "true")
  | JBool false => Ok (lit "false")
  | JNumber x => Ok (Number_toString x)
  | JString s => Ok s
  | JArray items =>
      (fix join (first : bool) (l : list JsValue) : result jsstr :=
         match l with
         | [] => Ok []
         | x :: l' =>
             rbind (if nullish x then Ok [] else to_string x) (fun sx =>
             rbind (join false l') (fun sl =>
             Ok ((if first then [] else lit ",") ++ sx ++ sl)))
         end) true items
  | JObject fields =>
      match own fields (lit "toString") with
      | Some _ => Throw TypeError
      | None => Ok (lit "[object Object]")
      end
  end.

(** [JSON.parse(v)] *)
Definition JSON_parse (v : JsValue) : result JsValue :=
  rbind (to_string v) (fun text =>
  match JSON_parse_text text with
  | Some x => Ok x
  | None => Throw SyntaxError
  end).

End Runtime.

(** A method call [v.trim()]. *)
Definition call_trim (v : JsValue) : result jsstr :=
  match v with
  | JString s => Ok (trim s)
  | _ => Throw TypeError
  end.

(** A method call [v.replace(/p/g, '')]. *)
Definition call_replace (v : JsValue) (p : string) : result jsstr :=
  match v with
  | JString s => Ok (remove_all (lit p) s)
  | _ => Throw TypeError
  end.

Fixpoint map_result {A B} (f : A -> result B) (l : list A) : result (list B) :=
  match l with
  | [] => Ok []
  | x :: l' =>
      rbind (f x) (fun y => rbind (map_result f l') (fun ys => Ok (y :: ys)))
  end.

(** A method call [v.map(f)]: only arrays have a [map]. *)
Definition call_map (v : JsValue) (f : JsValue -> result JsValue)
  : result (list JsValue) :=
  match v with
  | JArray items => map_result f items
  | _ => Throw TypeError
  end.

(** What the upstream does with one request, as axios reports it: the
    promise resolves with a response whose [data] is given, or rejects. *)
Inductive AxiosReply : Type :=
| Resolved (data : JsValue)
| Rejected (failure : AxiosFailure).

(** [(await axios.post(url, payload, config)).data] *)
Definition axios_post (upstream : UpstreamCall -> AxiosReply)
    (u : jsstr) (p : JsValue) (t : option Z) : Js JsValue :=
  fun w =>
    let c := mkCall u p t in
    let w' := mkWorld (calls w ++ [c]) (sent w) (console w) in
    match upstream c with
    | Resolved data => (Ok data, w')
    | Rejected f => (Throw (AxiosError f), w')
    end.

(** An incoming request, after the [express.json()] middleware: the body
    is the parsed JSON text of the request, an object or an array, and
    the empty object when the request carried none.  The properties
    below are stated for bodies that are not [undefined] or [null]; on
    such a body the destructuring [const { interests } = req.body]
    itself throws. *)
Record Request : Type := mkRequest {
  req_body : JsValue
}.

(** An environment variable as a value: [undefined] when unset. *)
Definition env_value (x : option jsstr) : JsValue :=
  match x with
  | Some s => JString s
  | None => JUndefined
  end.

(** The double quote cannot be written inside a literal here: the
    prompts below carry a tilde wherever the source has a double quote. *)
Definition quoted (s : string) : jsstr :=
  List.map (fun c => if N.eqb c 126 then 34%N else c) (lit s).

Definition endpoint : string :=
  "https://generativelanguage.googleapis.com/v1beta/models/gemini-2.5-flash-preview-05-20:generateContent?key=".

(* ===================================================================== *)
(** ** src/server.js *)
(* ===================================================================== *)

Module ServerJs.

(** The instruction block of the recommendation handler (lines 37-76). *)
Definition recommendationPrompt : jsstr := quoted "
    You are an expert career and education advisor. Your goal is to provide personalized recommendations based on a user's interests.
    You MUST respond with a valid JSON object. Do not include any text, explanation, or markdown formatting before or after the JSON object.
    The JSON object should have two keys: ~careers~ and ~hobbies~.
    - ~careers~ should be an array of 2-4 career objects.
    - ~hobbies~ should be an array of 2-3 hobby objects.

    Each career object must have these keys:
    - ~career~: The name of the career (string).
    - ~studies~: An array of 3 specific subjects or fields to study for this career (array of strings).
    - ~icon~: A string containing only the Font Awesome 6 FREE icon classes (e.g., ~fas fa-code~).

    Each hobby object must have these keys:
    - ~hobby~: The name of the hobby (string).
    - ~description~: A short, encouraging description (string).
    - ~icon~: A string containing only the Font Awesome 6 FREE icon classes (e.g., ~fas fa-camera-retro~).

    Example of a valid JSON response:
    {
      ~careers~: [
        {
          ~career~: ~Software Engineer~,
          ~studies~: [~Computer Science~, ~Data Structures and Algorithms~, ~Software Engineering~],
          ~icon~: ~fas fa-code~
        },
        {
          ~career~: ~Web Developer~,
          ~studies~: [~Web Development~, ~User Interface/Experience (UI/UX) Design~, ~Front-end and Back-end Technologies~],
          ~icon~: ~fas fa-laptop-code~
        }
      ],
      ~hobbies~: [
        {
          ~hobby~: ~Photography~,
          ~description~: ~Capture and edit photos to enhance your creativity and attention to detail.~,
          ~icon~: ~fas fa-camera-retro~
        }
      ]
    }
    ".

(** The persona instruction of the chat handler (line 136). *)
Definition chatPrompt : jsstr := lit
  "You are Eva, a friendly and encouraging AI career counselor for the EduAdvisor.Ai website. Keep your responses concise, helpful, and supportive. Do not use markdown formatting.".

Section Handlers.
Context {rt : JsRuntime}.
(** [process.env.GEMINI_API_KEY] *)
Variable GEMINI_API_KEY : option jsstr.
(** the generative API behind axios *)
Variable upstream : UpstreamCall -> AxiosReply.

(** The payload of the recommendation request (lines 78-88). *)
Definition recommendationPayload (userText : jsstr) : JsValue :=
  JObject
    [ (lit "contents",
        JArray [JObject [(lit "parts",
          JArray [JObject [(lit "text", JString userText)]])]]);
      (lit "systemInstruction",
        JObject [(lit "parts",
          JArray [JObject [(lit "text", JString recommendationPrompt)]])]);
      (lit "generationConfig",
        JObject [(lit "responseMimeType", JString (lit "application/json"))]) ].

(** [app.post('/api/recommendations', ...)], lines 21-120. *)
Definition recommendations (req : Request) : Js unit :=
  interests <- lift (prop (req_body req) (lit "interests")) ;;
  let apiKey := env_value GEMINI_API_KEY in
  if negb (truthy apiKey) then
    console_error [LText "GEMINI_API_KEY is not set in the .env file."] ;;
    res_status_json 500
      (error_body "Server configuration error: Missing API key for the AI service.")
  else
  rejected <-
    (if negb (truthy interests) then ret true
     else if negb (is_string interests) then ret true
     else t <- lift (call_trim interests) ;; ret (jsstr_eqb t [])) ;;
  if (rejected : bool) then
    res_status_json 400 (error_body "Interests are required.")
  else
  key <- lift (to_string apiKey) ;;
  let apiUrl := lit endpoint ++ key in
  shown <- lift (to_string interests) ;;
  let payload := recommendationPayload (lit "User interests: " ++ shown) in
  try_catch
    (data <- axios_post upstream apiUrl payload (Some 15000%Z) ;;
     candidates <- lift (prop data (lit "candidates")) ;;
     let candidate := opt_member candidates (lit "0") in
     let rawText :=
       opt_member
         (opt_member
            (opt_member (opt_member candidate (lit "content")) (lit "parts"))
            (lit "0"))
         (lit "text") in
     if negb (truthy rawText) then
       console_error
         [LText "Gemini API returned an empty or invalid response structure:";
          LValue data] ;;
       throw (Error (lit "The AI returned an empty response."))
     else
       recommendations <- lift (JSON_parse rawText) ;;
       res_json recommendations)
    (fun error =>
       console_error [LText "Error calling Gemini API or parsing response:"] ;;
       match error with
       | AxiosError (BadStatus st d) =>
           console_error [LText "Status:"; LStatus st] ;;
           console_error [LText "Data:"; LJson d]
       | AxiosError NoResponse =>
           console_error [LText "Request Error:"; LRequest]
       | _ =>
           console_error [LText "General Error:"; LMessage error]
       end ;;
       res_status_json 500
         (error_body
            "Failed to get recommendations from the AI. Please try again later.")).

(** [item => ({ role: item.role, parts: item.parts })] *)
Definition turn_of (item : JsValue) : result JsValue :=
  rbind (prop item (lit "role")) (fun role =>
  rbind (prop item (lit "parts")) (fun parts =>
  Ok (JObject [(lit "role", role); (lit "parts", parts)]))).

(** The payload of the chat request (lines 146-151). *)
Definition chatPayload (contents : JsValue) : JsValue :=
  JObject
    [ (lit "contents", contents);
      (lit "systemInstruction",
        JObject [(lit "parts",
          JArray [JObject [(lit "text", JString chatPrompt)]])]) ].

(** [app.post('/api/chat', ...)], lines 123-161. *)
Definition chat (req : Request) : Js unit :=
  history <- lift (prop (req_body req) (lit "history")) ;;
  let apiKey := env_value GEMINI_API_KEY in
  if negb (truthy apiKey) then
    res_status_json 500 (error_body "Server configuration error.")
  else if negb (truthy history) then
    res_status_json 400 (error_body "Chat history is required.")
  else
  key <- lift (to_string apiKey) ;;
  let apiUrl := lit endpoint ++ key in
  turns <- lift (call_map history turn_of) ;;
  let contents := JArray turns in
  let payload := chatPayload contents in
  try_catch
    (data <- axios_post upstream apiUrl payload None ;;
     candidates <- lift (prop data (lit "candidates")) ;;
     candidate <- lift (prop candidates (lit "0")) ;;
     content <- lift (prop candidate (lit "content")) ;;
     parts <- lift (prop content (lit "parts")) ;;
     part <- lift (prop parts (lit "0")) ;;
     message <- lift (prop part (lit "text")) ;;
     res_json (JObject [(lit "message", message)]))
    (fun error =>
       console_error
         [LText "Error in chat API:";
          match error with
          | AxiosError (BadStatus _ d) => LValue d
          | _ => LMessage error
          end] ;;
       res_status_json 500
         (error_body "Failed to get a response from the AI counselor.")).

End Handlers.
End ServerJs.

(* ===================================================================== *)
(** ** src/unnamed/part_000 *)
(* ===================================================================== *)

Module Part000.

(** The instruction block of the recommendation handler (lines 35-79). *)
Definition recommendationPrompt : jsstr := quoted "
        You are an expert career and education advisor. Your goal is to provide personalized recommendations based on a user's interests.
        You MUST respond with a valid JSON object. Do not include any text, explanation, or markdown formatting before or after the JSON object.
        The JSON object must have two properties: ~careers~ and ~hobbies~.

        1. ~careers~: This must be an array of exactly 2 career objects.
           Each career object must have the following properties:
           - ~career~: (string) The name of the career.
           - ~icon~: (string) The Font Awesome icon name for this career (e.g., ~fas fa-code~, ~fas fa-paint-brush~).
           - ~studies~: (array of strings) A list of 3-4 recommended subjects or fields of study for this career.

        2. ~hobbies~: This must be an array of exactly 2 hobby objects.
           Each hobby object must have the following properties:
           - ~hobby~: (string) The name of the hobby.
           - ~icon~: (string) The Font Awesome icon name for this hobby (e.g., ~fas fa-book~, ~fas fa-music~).
           - ~description~: (string) A brief description of the hobby.

        Example of a valid response format:
        {
          ~careers~: [
            {
              ~career~: ~Software Engineer~,
              ~icon~: ~fas fa-code~,
              ~studies~: [~Computer Science~, ~Software Engineering~, ~Data Structures and Algorithms~]
            },
            {
              ~career~: ~Graphic Designer~,
              ~icon~: ~fas fa-paint-brush~,
              ~studies~: [~Visual Arts~, ~Digital Media~, ~Typography~, ~UI/UX Design~]
            }
          ],
          ~hobbies~: [
            {
              ~hobby~: ~Creative Writing~,
              ~icon~: ~fas fa-pen-nib~,
              ~description~: ~Explore storytelling and express your ideas through writing.~
            },
            {
              ~hobby~: ~Play a Musical Instrument~,
              ~icon~: ~fas fa-guitar~,
              ~description~: ~Learn to play an instrument to enhance creativity and discipline.~
            }
          ]
        }
    ".

(** The persona instruction of the chat handler (lines 131-138). *)
Definition chatPrompt : jsstr := lit "
        You are Eva, a friendly and knowledgeable AI career counselor for a website called EduAdvisor.Ai.
        Your tone should be encouraging, helpful, and professional, but not overly robotic.
        Keep your answers concise and easy to read, ideally in 2-4 sentences.
        Your primary goal is to answer user questions about careers, skills, education paths, and job searching.
        If a user asks something outside of this scope, gently guide them back to career-related topics.
        Do not answer questions about your own nature as an AI or about programming.
    ".

Section Handlers.
Context {rt : JsRuntime}.
(** [process.env.GEMINI_API_KEY] *)
Variable GEMINI_API_KEY : option jsstr.
(** the generative API behind axios *)
Variable upstream : UpstreamCall -> AxiosReply.

(** The payload of the recommendation request (lines 81-91). *)
Definition recommendationPayload (userText : jsstr) : JsValue :=
  JObject
    [ (lit "contents",
        JArray [JObject [(lit "parts",
          JArray [JObject [(lit "text", JString userText)]])]]);
      (lit "systemInstruction",
        JObject [(lit "parts",
          JArray [JObject [(lit "text", JString recommendationPrompt)]])]);
      (lit "generationConfig",
        JObject [(lit "responseMimeType", JString (lit "application/json"))]) ].

(** [responseData.replace(/```json/g, '').replace(/```/g, '').trim()],
    line 100. *)
Definition clean (responseData : JsValue) : result jsstr :=
  rbind (call_replace responseData "```json") (fun s1 =>
  rbind (call_replace (JString s1) "```") (fun s2 =>
  call_trim (JString s2))).

(** [app.post('/api/recommendations', ...)], lines 19-115. *)
Definition recommendations (req : Request) : Js unit :=
  let apiKey := env_value GEMINI_API_KEY in
  interests <- lift (prop (req_body req) (lit "interests")) ;;
  if negb (truthy apiKey) then
    console_error [LText "GEMINI_API_KEY is not set in the .env file."] ;;
    res_status_json 500
      (error_body "Server configuration error: Missing API key for the AI service.")
  else
  rejected <-
    (if negb (truthy interests) then ret true
     else if negb (is_string interests) then ret true
     else t <- lift (call_trim interests) ;; ret (jsstr_eqb t [])) ;;
  if (rejected : bool) then
    res_status_json 400 (error_body "Interests are required.")
  else
  key <- lift (to_string apiKey) ;;
  let apiUrl := lit endpoint ++ key in
  shown <- lift (to_string interests) ;;
  let payload := recommendationPayload (lit "User's interests: " ++ shown) in
  try_catch
    (data <- axios_post upstream apiUrl payload None ;;
     candidates <- lift (prop data (lit "candidates")) ;;
     candidate <- lift (prop candidates (lit "0")) ;;
     content <- lift (prop candidate (lit "content")) ;;
     parts <- lift (prop content (lit "parts")) ;;
     part <- lift (prop parts (lit "0")) ;;
     responseData <- lift (prop part (lit "text")) ;;
     cleanedData <- lift (clean responseData) ;;
     jsonData <- lift (JSON_parse (JString cleanedData)) ;;
     invalid <-
       (if negb (truthy jsonData) then ret true
        else
          careers <- lift (prop jsonData (lit "careers")) ;;
          if negb (isArray careers) then ret true
          else
            hobbies <- lift (prop jsonData (lit "hobbies")) ;;
            ret (negb (isArray hobbies))) ;;
     if (invalid : bool) then
       throw (Error (lit "Invalid JSON structure received from AI."))
     else
       res_json jsonData)
    (fun error =>
       console_error
         [LText "Error calling Gemini API:";
          match error with
          | AxiosError (BadStatus _ d) => LValue d
          | _ => LMessage error
          end] ;;
       res_status_json 500
         (error_body
            "Failed to get recommendations from the AI. Please try again later.")).

(** The payload of the chat request (lines 140-145). *)
Definition chatPayload (history : JsValue) : JsValue :=
  JObject
    [ (lit "contents", history);
      (lit "systemInstruction",
        JObject [(lit "parts",
          JArray [JObject [(lit "text", JString chatPrompt)]])]) ].

(** [app.post('/api/chat', ...)], lines 118-155. *)
Definition chat (req : Request) : Js unit :=
  let apiKey := env_value GEMINI_API_KEY in
  history <- lift (prop (req_body req) (lit "history")) ;;
  if negb (truthy apiKey) then
    res_status_json 500 (error_body "Server configuration error.")
  else if negb (truthy history) then
    res_status_json 400 (error_body "Chat history is required.")
  else
  key <- lift (to_string apiKey) ;;
  let apiUrl := lit endpoint ++ key in
  let payload := chatPayload history in
  try_catch
    (data <- axios_post upstream apiUrl payload None ;;
     candidates <- lift (prop data (lit "candidates")) ;;
     candidate <- lift (prop candidates (lit "0")) ;;
     content <- lift (prop candidate (lit "content")) ;;
     parts <- lift (prop content (lit "parts")) ;;
     part <- lift (prop parts (lit "0")) ;;
     message <- lift (prop part (lit "text")) ;;
     res_json (JObject [(lit "message", message)]))
    (fun error =>
       console_error
         [LText "Error calling Gemini Chat API:";
          match error with
          | AxiosError (BadStatus _ d) => LValue d
          | _ => LMessage error
          end] ;;
       res_status_json 500 (error_body "Failed to get a response from the AI.")).

End Handlers.
End Part000.

(* ===================================================================== *)
(** ** A runtime to run the handlers on *)
(* ===================================================================== *)

(** An implementation of [JsRuntime] for running the handlers on concrete
    replies.  Its parser reads JSON texts (RFC 8259) whose numbers are
    integers written without fraction and exponent, and rejects every
    other text; its number printing writes the integers. *)
Module Reference.

Inductive Token : Type :=
| TLBrace | TRBrace | TLBracket | TRBracket | TColon | TComma
| TString (s : jsstr)
| TNumber (x : spec_float)
| TTrue | TFalse | TNull.

Inductive CharClass : Type :=
| CSpace | CPunct (t : Token) | CQuote | CBackslash | CBare | COther.

Definition in_range (lo hi c : N) : bool := N.leb lo c && N.leb c hi.

Definition ascii_class (c : code_unit) : CharClass :=
  if existsb (N.eqb c) [32; 9; 10; 13]%N then CSpace
  else if N.eqb c 123 then CPunct TLBrace
  else if N.eqb c 125 then CPunct TRBrace
  else if N.eqb c 91 then CPunct TLBracket
  else if N.eqb c 93 then CPunct TRBracket
  else if N.eqb c 58 then CPunct TColon
  else if N.eqb c 44 then CPunct TComma
  else if N.eqb c 34 then CQuote
  else if N.eqb c 92 then CBackslash
  else if in_range 48 57 c || in_range 97 122 c
          || existsb (N.eqb c) [43; 45; 46; 69]%N then CBare
  else COther.

Definition char_class (c : code_unit) : CharClass :=
  if N.ltb c 128 then ascii_class c else COther.

(** The double nearest to an integer. *)
Definition number_of_Z (negative : bool) (z : Z) : spec_float :=
  binary_normalize 53 1024 (if negative then Z.opp z else z) 0 negative.

Fixpoint digits_Z (acc : Z) (s : jsstr) : option Z :=
  match s with
  | [] => Some acc
  | c :: s' =>
      if in_range 48 57 c
      then digits_Z (10 * acc + Z.of_N (c - 48)) s'
      else None
  end.

(** [0] or a digit sequence that does not start with [0]. *)
Definition natural (s : jsstr) : option Z :=
  match s with
  | [] => None
  | [c] => digits_Z 0 [c]
  | c :: _ => if N.eqb c 48 then None else digits_Z 0 s
  end.

(** The token a maximal run of letters, digits and signs stands for. *)
Definition bare_token (w : jsstr) : option Token :=
  if jsstr_eqb w (lit "true") then Some TTrue
  else if jsstr_eqb w (lit "false") then Some TFalse
  else if jsstr_eqb w (lit "null") then Some TNull
  else
    match w with
    | 45%N :: digits =>
        option_map (fun z => TNumber (number_of_Z true z)) (natural digits)
    | _ => option_map (fun z => TNumber (number_of_Z false z)) (natural w)
    end.

(** The scanner reads one code unit at a time; [out] and [acc] are kept
    in reverse. *)
Inductive LexState : Type :=
| LIdle (out : list Token)
| LBare (out : list Token) (acc : jsstr)
| LString (out : list Token) (acc : jsstr)
| LEscape (out : list Token) (acc : jsstr)
| LUnicode (out : list Token) (acc : jsstr) (hex : list N)
| LError.

Definition idle_step (out : list Token) (c : code_unit) : LexState :=
  match char_class c with
  | CSpace => LIdle out
  | CPunct t => LIdle (t :: out)
  | CQuote => LString out []
  | CBare => LBare out [c]
  | CBackslash | COther => LError
  end.

Definition hex_value (c : code_unit) : option N :=
  if in_range 48 57 c then Some (c - 48)%N
  else if in_range 97 102 c then Some (c - 87)%N
  else if in_range 65 70 c then Some (c - 55)%N
  else None.

Definition escape_char (c : code_unit) : option code_unit :=
  if N.eqb c 34 then Some 34%N
  else if N.eqb c 92 then Some 92%N
  else if N.eqb c 47 then Some 47%N
  else if N.eqb c 98 then Some 8%N
  else if N.eqb c 102 then Some 12%N
  else if N.eqb c 110 then Some 10%N
  else if N.eqb c 114 then Some 13%N
  else if N.eqb c 116 then Some 9%N
  else None.

Definition lex_step (st : LexState) (c : code_unit) : LexState :=
  match st with
  | LIdle out => idle_step out c
  | LBare out acc =>
      match char_class c with
      | CBare => LBare out (c :: acc)
      | _ =>
          match bare_token (rev acc) with
          | Some t => idle_step (t :: out) c
          | None => LError
          end
      end
  | LString out acc =>
      if N.eqb c 34 then LIdle (TString (rev acc) :: out)
      else if N.eqb c 92 then LEscape out acc
      else if N.ltb c 32 then LError
      else LString out (c :: acc)
  | LEscape out acc =>
      if N.eqb c 117 then LUnicode out acc []
      else
        match escape_char c with
        | Some e => LString out (e :: acc)
        | None => LError
        end
  | LUnicode out acc hex =>
      match hex_value c with
      | Some d =>
          match hex with
          | [a; b; e] =>
              LString out ((((a * 16 + b) * 16 + e) * 16 + d)%N :: acc)
          | _ => LUnicode out acc (hex ++ [d])
          end
      | None => LError
      end
  | LError => LError
  end.

Definition lex_finish (st : LexState) : option (list Token) :=
  match st with
  | LIdle out => Some (rev out)
  | LBare out acc =>
      match bare_token (rev acc) with
      | Some t => Some (rev (t :: out))
      | None => None
      end
  | _ => None
  end.

Definition lex (s : jsstr) : option (list Token) :=
  lex_finish (fold_left lex_step s (LIdle [])).

(** [JSON.parse] keeps the last value of a repeated key, at the place of
    the first. *)
Fixpoint put (fields : list (jsstr * JsValue)) (k : jsstr) (v : JsValue)
  : list (jsstr * JsValue) :=
  match fields with
  | [] => [(k, v)]
  | (k', v') :: rest =>
      if jsstr_eqb k' k then (k', v) :: rest else (k', v') :: put rest k v
  end.

(** Recursive descent over the tokens; [n] bounds the nesting of calls. *)
Fixpoint parse_value (n : nat) (ts : list Token)
  : option (JsValue * list Token) :=
  match n with
  | O => None
  | S n' =>
      match ts with
      | TString s :: r => Some (JString s, r)
      | TNumber x :: r => Some (JNumber x, r)
      | TTrue :: r => Some (JBool true, r)
      | TFalse :: r => Some (JBool false, r)
      | TNull :: r => Some (JNull, r)
      | TLBracket :: TRBracket :: r => Some (JArray [], r)
      | TLBracket :: r => parse_items n' r []
      | TLBrace :: TRBrace :: r => Some (JObject [], r)
      | TLBrace :: r => parse_fields n' r []
      | _ => None
      end
  end
with parse_items (n : nat) (ts : list Token) (acc : list JsValue)
  : option (JsValue * list Token) :=
  match n with
  | O => None
  | S n' =>
      match parse_value n' ts with
      | Some (v, TComma :: r) => parse_items n' r (v :: acc)
      | Some (v, TRBracket :: r) => Some (JArray (rev (v :: acc)), r)
      | _ => None
      end
  end
with parse_fields (n : nat) (ts : list Token) (acc : list (jsstr * JsValue))
  : option (JsValue * list Token) :=
  match n with
  | O => None
  | S n' =>
      match ts with
      | TString k :: TColon :: r =>
          match parse_value n' r with
          | Some (v, TComma :: r') => parse_fields n' r' (put acc k v)
          | Some (v, TRBrace :: r') => Some (JObject (put acc k v), r')
          | _ => None
          end
      | _ => None
      end
  end.

Definition parse_text (s : jsstr) : option JsValue :=
  match lex s with
  | Some ts =>
      match parse_value (2 * List.length ts + 2) ts with
      | Some (v, []) => Some v
      | _ => None
      end
  | None => None
  end.

End Reference.

Module ReferencePrint.

(** [Number.prototype.toString] on the integers below [10^21]; the other
    numbers, which the texts [Reference.parse_text] reads do not produce,
    print as [NaN]. *)
Definition print_Z (z : Z) : jsstr :=
  match z with
  | Z0 => lit "0"
  | Zpos p => lit (DecimalString.NilZero.string_of_uint (Pos.to_uint p))
  | Zneg p =>
      lit "-" ++ lit (DecimalString.NilZero.string_of_uint (Pos.to_uint p))
  end.

Definition print_number (x : spec_float) : jsstr :=
  match x with
  | S754_zero _ => lit "0"
  | S754_infinity false => lit "Infinity"
  | S754_infinity true => lit "-Infinity"
  | S754_nan => lit "NaN"
  | S754_finite s m e =>
      let z := if s then Zneg m else Zpos m in
      let whole :=
        match e with
        | Z0 => Some z
        | Zpos k => Some (z * 2 ^ Zpos k)%Z
        | Zneg k =>
            if Z.eqb (Z.modulo z (2 ^ Zpos k)) 0
            then Some (z / 2 ^ Zpos k)%Z else None
        end in
      match whole with
      | Some w =>
          if Z.ltb (Z.abs w) (10 ^ 21) then print_Z w else lit "NaN"
      | None => lit "NaN"
      end
  end.

End ReferencePrint.

(* ===================================================================== *)
(** ** Observing a handler run *)
(* ===================================================================== *)

(** A handler runs from the world in which nothing has happened yet. *)
Definition run (h : Js unit) : result unit * World := h fresh.

(** The responses sent to the caller, in order. *)
Definition responses (h : Js unit) : list Response := sent (snd (run h)).

(** The calls made to the upstream, in order. *)
Definition outbound (h : Js unit) : list UpstreamCall := calls (snd (run h)).

(** The handler returned normally: nothing was thrown past it. *)
Definition returns (h : Js unit) : Prop := fst (run h) = Ok tt.

(** [response.candidates[0].content.parts[0].text] of an upstream reply,
    [undefined] when a step of the path is missing. *)
Definition first_candidate_text (data : JsValue) : JsValue :=
  opt_member
    (opt_member
       (opt_member
          (opt_member
             (opt_member (opt_member data (lit "candidates")) (lit "0"))
             (lit "content"))
          (lit "parts"))
       (lit "0"))
    (lit "text").

(** The reply of the upstream that carries [text] as its first
    candidate's first text part and nothing else. *)
Definition reply_with (text : JsValue) : JsValue :=
  JObject [(lit "candidates",
    JArray [JObject [(lit "content",
      JObject [(lit "parts", JArray [JObject [(lit "text", text)]])])]])].

(** A text between markdown code fences, each on a line of its own. *)
Definition fenced (s : jsstr) : jsstr :=
  lit "```json" ++ 10%N :: s ++ 10%N :: lit "```".

(** [p] occurs somewhere in [s]. *)
Fixpoint occurs (p s : jsstr) : bool :=
  starts_with p s ||
  match s with
  | [] => false
  | _ :: s' => occurs p s'
  end.

(** The uniform failure response of the recommendation handler, and the
    two responses to a request without input. *)
Definition recommendation_failure : Response :=
  mkResponse 500
    (error_body "Failed to get recommendations from the AI. Please try again later.").

Definition interests_required : Response :=
  mkResponse 400 (error_body "Interests are required.").

Definition history_required : Response :=
  mkResponse 400 (error_body "Chat history is required.").

(** The parsed value has array-typed [careers] and [hobbies]. *)
Definition has_both_arrays (v : JsValue) : bool :=
  negb (nullish v)
  && isArray (member v (lit "careers"))
  && isArray (member v (lit "hobbies")).

(** The data model of the specification (section 3). *)
Definition all_strings (l : list JsValue) : bool := forallb is_string l.

Definition is_career_entry (v : JsValue) : bool :=
  match v with
  | JObject _ =>
      is_string (member v (lit "career"))
      && match member v (lit "studies") with
         | JArray l => Nat.eqb (List.length l) 3 && all_strings l
         | _ => false
         end
      && is_string (member v (lit "icon"))
  | _ => false
  end.

Definition is_hobby_entry (v : JsValue) : bool :=
  match v with
  | JObject _ =>
      is_string (member v (lit "hobby"))
      && is_string (member v (lit "description"))
      && is_string (member v (lit "icon"))
  | _ => false
  end.

Definition is_recommendation_result (v : JsValue) : bool :=
  match v with
  | JObject _ =>
      match member v (lit "careers"), member v (lit "hobbies") with
      | JArray cs, JArray hs =>
          Nat.leb 2 (List.length cs) && Nat.leb (List.length cs) 4
          && forallb is_career_entry cs
          && Nat.leb 2 (List.length hs) && Nat.leb (List.length hs) 3
          && forallb is_hobby_entry hs
      | _, _ => false
      end
  | _ => false
  end.

Definition is_text_part (v : JsValue) : bool :=
  match v with
  | JObject _ => is_string (member v (lit "text"))
  | _ => false
  end.

Definition is_turn (v : JsValue) : bool :=
  match v with
  | JObject _ =>
      is_string (member v (lit "role"))
      && match member v (lit "parts") with
         | JArray l => forallb is_text_part l
         | _ => false
         end
  | _ => false
  end.

(** What a run shows from outside: whether it returned, the calls it
    made and the responses it sent. *)
Definition observe (h : Js unit)
  : result unit * list UpstreamCall * list Response :=
  (fst (run h), outbound h, responses h).

(** The strict path [data.candidates[0].content.parts[0].text], which
    throws at the first step taken on [undefined] or [null]. *)
Definition strict_text (data : JsValue) : result JsValue :=
  rbind (prop data (lit "candidates")) (fun candidates =>
  rbind (prop candidates (lit "0")) (fun candidate =>
  rbind (prop candidate (lit "content")) (fun content =>
  rbind (prop content (lit "parts")) (fun parts =>
  rbind (prop parts (lit "0")) (fun part =>
  prop part (lit "text")))))).

(** The test [!interests || typeof interests !== 'string' ||
    interests.trim() === ''] as a function of the value. *)
Definition accepted (interests : JsValue) : bool :=
  match interests with
  | JString s => negb (jsstr_eqb (trim s) [])
  | _ => false
  end.

(** An upstream that answers every call with the same reply. *)
Definition replying (data : JsValue) : UpstreamCall -> AxiosReply :=
  fun _ => Resolved data.

(** A request whose body is [{ interests: v }]. *)
Definition interest_request (v : JsValue) : Request :=
  mkRequest (JObject [(lit "interests", v)]).

(** A request whose body is [{ history: v }]. *)
Definition chat_request (v : JsValue) : Request :=
  mkRequest (JObject [(lit "history", v)]).

(** Entries of a recommendation result, to write sample replies with. *)
Definition career_entry (name study1 study2 study3 icon : string) : JsValue :=
  JObject
    [ (lit "career", JString (lit name));
      (lit "studies",
        JArray [JString (lit study1); JString (lit study2); JString (lit study3)]);
      (lit "icon", JString (lit icon)) ].

Definition hobby_entry (name description icon : string) : JsValue :=
  JObject
    [ (lit "hobby", JString (lit name));
      (lit "description", JString (lit description));
      (lit "icon", JString (lit icon)) ].

(** A reply text that meets the schema and whose first hobby description
    mentions a code fence. *)
Definition blogging_text : jsstr := quoted
  "{~careers~:[{~career~:~Technical Writer~,~studies~:[~English~,~Markdown~,~Editing~],~icon~:~fas fa-pen~},{~career~:~Web Developer~,~studies~:[~HTML~,~CSS~,~JavaScript~],~icon~:~fas fa-code~}],~hobbies~:[{~hobby~:~Blogging~,~description~:~Write posts in Markdown; ``` opens a code block.~,~icon~:~fas fa-blog~},{~hobby~:~Chess~,~description~:~Train your planning.~,~icon~:~fas fa-chess~}]}".

(** The object [blogging_text] parses to, given the description of the
    first hobby. *)
Definition blogging_result (description : string) : JsValue :=
  JObject
    [ (lit "careers",
        JArray
          [ career_entry "Technical Writer" "English" "Markdown" "Editing"
              "fas fa-pen";
            career_entry "Web Developer" "HTML" "CSS" "JavaScript"
              "fas fa-code" ]);
      (lit "hobbies",
        JArray
          [ hobby_entry "Blogging" description "fas fa-blog";
            hobby_entry "Chess" "Train your planning." "fas fa-chess" ]) ].

(** A forwarded turn carries the [role] and the [parts] of the turn the
    caller gave. *)
Definition same_turn (given forwarded : JsValue) : Prop :=
  member forwarded (lit "role") = member given (lit "role")
  /\ member forwarded (lit "parts") = member given (lit "parts").

(** [{ role: "user", parts: [{ text }] }] *)
Definition user_turn (text : string) : JsValue :=
  JObject
    [ (lit "role", JString (lit "user"));
      (lit "parts", JArray [JObject [(lit "text", JString (lit text))]]) ].

(* ===================================================================== *)
(** ** The runs of the handlers, in closed form *)
(* ===================================================================== *)

(** The cleaning of part_000 (line 100) on a string. *)
Definition cleaned (s : jsstr) : jsstr :=
  trim (remove_all (lit "```") (remove_all (lit "```json") s)).

(** What the callback of [history.map] makes of a turn. *)
Definition forwarded_turn (item : JsValue) : JsValue :=
  JObject
    [ (lit "role", member item (lit "role"));
      (lit "parts", member item (lit "parts")) ].

(** src/server.js: the responses and calls of its handlers. *)
Module ServerJsRuns.
Section Runs.
Context {rt : JsRuntime}.

Definition config_error : Response :=
  mkResponse 500
    (error_body "Server configuration error: Missing API key for the AI service.").

Definition chat_config_error : Response :=
  mkResponse 500 (error_body "Server configuration error.").

Definition chat_failure : Response :=
  mkResponse 500 (error_body "Failed to get a response from the AI counselor.").

(** The one call the recommendation handler makes. *)
Definition call_for (k s : jsstr) : UpstreamCall :=
  mkCall (lit endpoint ++ k)
    (ServerJs.recommendationPayload (lit "User interests: " ++ s))
    (Some 15000%Z).

(** The response the recommendation handler sends for an upstream reply. *)
Definition answer (reply : AxiosReply) : Response :=
  match reply with
  | Rejected _ => recommendation_failure
  | Resolved data =>
      if nullish data then recommendation_failure
      else
        let t := first_candidate_text data in
        if truthy t then
          match JSON_parse t with
          | Ok v => mkResponse 200 v
          | Throw _ => recommendation_failure
          end
        else recommendation_failure
  end.

(** The one call the chat handler makes. *)
Definition chat_call (k : jsstr) (turns : list JsValue) : UpstreamCall :=
  mkCall (lit endpoint ++ k) (ServerJs.chatPayload (JArray turns)) None.

(** The response the chat handler sends for an upstream reply. *)
Definition chat_answer (reply : AxiosReply) : Response :=
  match reply with
  | Rejected _ => chat_failure
  | Resolved data =>
      match strict_text data with
      | Ok t => mkResponse 200 (JObject [(lit "message", t)])
      | Throw _ => chat_failure
      end
  end.

End Runs.
End ServerJsRuns.

(** src/unnamed/part_000: the responses and calls of its handlers. *)
Module Part000Runs.
Section Runs.
Context {rt : JsRuntime}.

Definition config_error : Response :=
  mkResponse 500
    (error_body "Server configuration error: Missing API key for the AI service.").

Definition chat_config_error : Response :=
  mkResponse 500 (error_body "Server configuration error.").

Definition chat_failure : Response :=
  mkResponse 500 (error_body "Failed to get a response from the AI.").

(** The one call the recommendation handler makes. *)
Definition call_for (k s : jsstr) : UpstreamCall :=
  mkCall (lit endpoint ++ k)
    (Part000.recommendationPayload (lit "User's interests: " ++ s))
    None.

(** The response the recommendation handler sends for an upstream reply. *)
Definition answer (reply : AxiosReply) : Response :=
  match reply with
  | Rejected _ => recommendation_failure
  | Resolved data =>
      match strict_text data with
      | Throw _ => recommendation_failure
      | Ok t =>
          match Part000.clean t with
          | Throw _ => recommendation_failure
          | Ok cleaned =>
              match JSON_parse_text cleaned with
              | None => recommendation_failure
              | Some v =>
                  if has_both_arrays v then mkResponse 200 v
                  else recommendation_failure
              end
          end
      end
  end.

(** The one call the chat handler makes. *)
Definition chat_call (k : jsstr) (history : JsValue) : UpstreamCall :=
  mkCall (lit endpoint ++ k) (Part000.chatPayload history) None.

(** The response the chat handler sends for an upstream reply. *)
Definition chat_answer (reply : AxiosReply) : Response :=
  match reply with
  | Rejected _ => chat_failure
  | Resolved data =>
      match strict_text data with
      | Ok t => mkResponse 200 (JObject [(lit "message", t)])
      | Throw _ => chat_failure
      end
  end.

End Runs.
End Part000Runs.

(** The failure responses: fixed texts, with nothing of the upstream's
    reply or of the error in them. *)
Definition fixed_errors : list Response :=
  [ ServerJsRuns.config_error; ServerJsRuns.chat_config_error;
    interests_required; history_required; recommendation_failure;
    ServerJsRuns.chat_failure; Part000Runs.chat_failure ].

(** A run that kept every failure inside: it returned normally and sent
    one response, a success or one of the fixed failures. *)
Definition answered_once (h : Js unit) : Prop :=
  returns h
  /\ exists r, responses h = [r] /\ (status r = 200%Z \/ In r fixed_errors).

(* ===================================================================== *)
(** ** Startup, and more vocabulary *)
(* ===================================================================== *)

(** What the two revisions print when the server starts (line 16 of
    each): [console.log("GEMINI_API_KEY loaded:", x)], where [x] is
    [process.env.GEMINI_API_KEY ? "Found" : "Not Found"] in src/server.js
    and the variable itself in src/unnamed/part_000. *)
Definition server_startup_line (key : option jsstr) : list LogArg :=
  [ LText "GEMINI_API_KEY loaded:";
    LText (if truthy (env_value key) then "Found" else "Not Found") ].

Definition part_startup_line (key : option jsstr) : list LogArg :=
  [ LText "GEMINI_API_KEY loaded:"; LValue (env_value key) ].

(** A run makes at most one call; it returns having sent one response, or
    throws having done nothing. *)
Definition single_shot (h : Js unit) : Prop :=
  List.length (outbound h) <= 1
  /\ ((returns h /\ List.length (responses h) = 1)
      \/ run h = (Throw TypeError, fresh)).

(** A response is a success or one of the fixed failures. *)
Definition plain_response (r : Response) : Prop :=
  status r = 200%Z \/ In r fixed_errors.

(** The value is a string with a code unit that is not white space. *)
Definition visible (v : JsValue) : bool :=
  match v with
  | JString s => existsb (fun c => negb (is_js_space c)) s
  | _ => false
  end.

(** The text of the user part of a recommendation payload,
    [payload.contents[0].parts[0].text]. *)
Definition user_text (p : JsValue) : JsValue :=
  member (member (member (member (member p (lit "contents")) (lit "0"))
                    (lit "parts")) (lit "0")) (lit "text").

(** The text of the system instruction of a payload,
    [payload.systemInstruction.parts[0].text]. *)
Definition instruction_text (p : JsValue) : JsValue :=
  member (member (member (member p (lit "systemInstruction")) (lit "parts"))
            (lit "0")) (lit "text").

(** A history that [history.map(item => ({ role: item.role, ... }))]
    throws on: not an array, or an array with an [undefined] or [null]
    entry. *)
Definition unmappable (history : JsValue) : bool :=
  match history with
  | JArray items => existsb nullish items
  | _ => true
  end.

(** A code unit that occurs in neither fence marker. *)
Definition outside_fence (c : code_unit) : bool :=
  negb (existsb (N.eqb c) (lit "```json")).

(** The number of backticks a string starts with. *)
Fixpoint backticks_ahead (s : jsstr) : nat :=
  match s with
  | c :: s' => if N.eqb c 96 then S (backticks_ahead s') else 0
  | [] => 0
  end.

(** A text between fence markers on the same line, with and without the
    language tag. *)
Definition fenced_inline (s : jsstr) : jsstr := lit "```json" ++ s ++ lit "```".

Definition fenced_plain (s : jsstr) : jsstr := lit "```" ++ s ++ lit "```".

(** The console output of a run, in order. *)
Definition logged (h : Js unit) : list (list LogArg) := console (snd (run h)).

(** What the [catch] block of the recommendation handler of src/server.js
    prints for a rejected call (lines 106-117). *)
Definition server_failure_log (f : AxiosFailure) : list (list LogArg) :=
  [LText "Error calling Gemini API or parsing response:"]
  :: match f with
     | BadStatus st d =>
         [ [LText "Status:"; LStatus st]; [LText "Data:"; LJson d] ]
     | NoResponse => [ [LText "Request Error:"; LRequest] ]
     | SetupFailed _ => [ [LText "General Error:"; LMessage (AxiosError f)] ]
     end.

(** What the [catch] block of the recommendation handler of
    src/unnamed/part_000 prints for a rejected call (line 112). *)
Definition part_failure_log (f : AxiosFailure) : list (list LogArg) :=
  [ [ LText "Error calling Gemini API:";
      match f with
      | BadStatus _ d => LValue d
      | _ => LMessage (AxiosError f)
      end ] ].

(* ===================================================================== *)
(** * Properties *)
(* ===================================================================== *)

(** ** Strings *)

Lemma jsstr_eqb_eq (a b : jsstr) : jsstr_eqb a b = true <-> a = b.
Proof.
  revert b; induction a as [|x a IH]; intros [|y b]; simpl;
    try (split; [discriminate | congruence]); try tauto.
  rewrite andb_true_iff, N.eqb_eq, IH. split.
  - intros [-> ->]; reflexivity.
  - intros E; injection E; auto.
Qed.

Lemma jsstr_eqb_refl (a : jsstr) : jsstr_eqb a a = true.
Proof. apply jsstr_eqb_eq; reflexivity. Qed.

Lemma trim_end_snoc_space (s : jsstr) (c : code_unit) :
  is_js_space c = true -> trim_end (s ++ [c]) = trim_end s.
Proof.
  intros Hc. induction s as [|x s IH]; simpl.
  - rewrite Hc; reflexivity.
  - rewrite IH; reflexivity.
Qed.

Lemma trim_end_snoc_other (s : jsstr) (c : code_unit) :
  is_js_space c = false -> trim_end (s ++ [c]) = s ++ [c].
Proof.
  intros Hc. induction s as [|x s IH]; simpl.
  - rewrite Hc; reflexivity.
  - rewrite IH. destruct s; reflexivity.
Qed.

Lemma trim_start_space (s : jsstr) (c : code_unit) :
  is_js_space c = true -> trim_start (c :: s) = trim_start s.
Proof. intros Hc; simpl; rewrite Hc; reflexivity. Qed.

(** Every code unit [trim] strips is one of the listed ones. *)
Lemma is_js_space_cases (c : code_unit) :
  is_js_space c = true ->
  In c [9; 10; 11; 12; 13; 32; 160; 5760; 8232; 8233; 8239; 8287; 12288; 65279]%N
  \/ (8192 <= c <= 8202)%N.
Proof.
  unfold is_js_space. intros H. apply orb_prop in H as [H|H].
  - left. apply existsb_exists in H as (x & Hx & E).
    apply N.eqb_eq in E; subst; assumption.
  - right. apply andb_prop in H as [H1 H2].
    apply N.leb_le in H1, H2. split; assumption.
Qed.

(** ** The reference parser meets the runtime interface *)

Module ReferenceFacts.
Import Reference.

Lemma lex_error_stays (s : jsstr) : fold_left lex_step s LError = LError.
Proof. induction s; simpl; auto. Qed.

Lemma space_class (c : code_unit) :
  is_js_space c = true -> char_class c = CSpace \/ char_class c = COther.
Proof.
  intros H. apply is_js_space_cases in H as [H|[H1 H2]].
  - simpl in H.
    repeat (destruct H as [<-|H]; [vm_compute; auto|]). contradiction.
  - right. unfold char_class.
    replace (N.ltb c 128) with false; [reflexivity|].
    symmetry; apply N.ltb_ge; lia.
Qed.

Lemma space_not_quote (c : code_unit) : is_js_space c = true -> N.eqb c 34 = false.
Proof.
  intros H. destruct (N.eqb_spec c 34) as [->|]; [discriminate H | reflexivity].
Qed.

Lemma idle_step_space (out : list Token) (c : code_unit) :
  is_js_space c = true ->
  idle_step out c = LIdle out \/ idle_step out c = LError.
Proof.
  intros H. unfold idle_step.
  destruct (space_class c H) as [-> | ->]; auto.
Qed.

(** A trailing code unit that [trim] strips does not change the tokens. *)
Lemma lex_step_space (st : LexState) (c : code_unit) (ts : list Token) :
  is_js_space c = true ->
  lex_finish (lex_step st c) = Some ts -> lex_finish st = Some ts.
Proof.
  intros Hc. destruct st as [out|out acc|out acc|out acc|out acc hex|]; simpl.
  - destruct (idle_step_space out c Hc) as [-> | ->]; simpl; [auto|discriminate].
  - destruct (space_class c Hc) as [-> | ->];
      (destruct (bare_token (rev acc)) as [t|]; [|discriminate]);
      (destruct (idle_step_space (t :: out) c Hc) as [-> | ->]);
      simpl; auto; discriminate.
  - rewrite (space_not_quote c Hc).
    destruct (N.eqb c 92); [discriminate|].
    destruct (N.ltb c 32); discriminate.
  - destruct (N.eqb c 117); [discriminate|].
    destruct (escape_char c); discriminate.
  - destruct (hex_value c); [|discriminate].
    destruct hex as [|a [|b [|e [|? ?]]]]; discriminate.
  - discriminate.
Qed.

Lemma lex_snoc_space (s : jsstr) (c : code_unit) (ts : list Token) :
  is_js_space c = true -> lex (s ++ [c]) = Some ts -> lex s = Some ts.
Proof.
  unfold lex. rewrite fold_left_app. simpl. apply lex_step_space.
Qed.

Lemma lex_cons_space (s : jsstr) (c : code_unit) (ts : list Token) :
  is_js_space c = true -> lex (c :: s) = Some ts -> lex s = Some ts.
Proof.
  intros Hc. unfold lex. simpl.
  destruct (idle_step_space [] c Hc) as [-> | ->]; [auto|].
  rewrite lex_error_stays. discriminate.
Qed.

Lemma lex_trim_end (s : jsstr) (ts : list Token) :
  lex s = Some ts -> lex (trim_end s) = Some ts.
Proof.
  induction s as [|c s IH] using rev_ind; [auto|].
  intros H. destruct (is_js_space c) eqn:Hc.
  - rewrite trim_end_snoc_space by assumption.
    apply IH. eapply lex_snoc_space; eassumption.
  - rewrite trim_end_snoc_other by assumption. assumption.
Qed.

Lemma lex_trim_start (s : jsstr) (ts : list Token) :
  lex s = Some ts -> lex (trim_start s) = Some ts.
Proof.
  induction s as [|c s IH]; [auto|].
  intros H. simpl. destruct (is_js_space c) eqn:Hc; [|assumption].
  apply IH. eapply lex_cons_space; eassumption.
Qed.

Lemma lex_trim (s : jsstr) (ts : list Token) :
  lex s = Some ts -> lex (trim s) = Some ts.
Proof. intros H. apply lex_trim_start, lex_trim_end, H. Qed.

Lemma parse_text_trim (s : jsstr) (v : JsValue) :
  parse_text s = Some v -> parse_text (trim s) = Some v.
Proof.
  unfold parse_text. destruct (lex s) as [ts|] eqn:E; [|discriminate].
  rewrite (lex_trim s ts E). auto.
Qed.

Lemma parse_text_backtick (s : jsstr) : parse_text (96%N :: s) = None.
Proof.
  unfold parse_text, lex. simpl.
  replace (idle_step [] 96%N) with LError by reflexivity.
  rewrite lex_error_stays. reflexivity.
Qed.

End ReferenceFacts.

Definition reference_runtime : JsRuntime := {|
  JSON_parse_text := Reference.parse_text;
  Number_toString := ReferencePrint.print_number;
  JSON_parse_empty := eq_refl;
  JSON_parse_backtick := ReferenceFacts.parse_text_backtick;
  JSON_parse_trim := ReferenceFacts.parse_text_trim
|}.

(* ===================================================================== *)
(** ** The handler monad *)
(* ===================================================================== *)

Lemma bind_lift {A B} (r : result A) (k : A -> Js B) (w : World) :
  bind (lift r) k w = match r with Ok a => k a w | Throw e => (Throw e, w) end.
Proof. unfold bind, lift. destruct r; reflexivity. Qed.

Lemma bind_ret {A B} (a : A) (k : A -> Js B) (w : World) :
  bind (ret a) k w = k a w.
Proof. reflexivity. Qed.

Lemma trim_nil_of_empty (s : jsstr) : jsstr_eqb s [] = true -> trim s = [].
Proof. intros H. apply jsstr_eqb_eq in H. subst. reflexivity. Qed.

(** The three-way test on [interests] computes [negb (accepted _)]. *)
Lemma rejected_spec (interests : JsValue) (w : World) :
  (if negb (truthy interests) then ret true
   else if negb (is_string interests) then ret true
   else t <- lift (call_trim interests) ;; ret (jsstr_eqb t [])) w
  = (Ok (negb (accepted interests)), w).
Proof.
  destruct interests as [| |b|x|s|l|f]; simpl; try reflexivity.
  - destruct b; reflexivity.
  - destruct x; reflexivity.
  - destruct (jsstr_eqb s []) eqn:E; simpl.
    + rewrite (trim_nil_of_empty s E). reflexivity.
    + unfold bind, lift, ret. simpl. rewrite negb_involutive. reflexivity.
Qed.

Lemma accepted_is_string (v : JsValue) :
  accepted v = true -> exists s, v = JString s /\ trim s <> [].
Proof.
  destruct v; simpl; try discriminate. intros H. eexists; split; [reflexivity|].
  intros E. rewrite E in H. discriminate.
Qed.

(** ** The path to the candidate text *)

Lemma strict_text_first (data v : JsValue) :
  strict_text data = Ok v -> first_candidate_text data = v.
Proof.
  unfold strict_text, first_candidate_text, prop, opt_member.
  destruct (nullish data); simpl; [discriminate|].
  destruct (nullish (member data _)); simpl; [discriminate|].
  destruct (nullish (member (member data _) _)); simpl; [discriminate|].
  destruct (nullish (member (member (member data _) _) _)); simpl; [discriminate|].
  destruct (nullish (member (member (member (member data _) _) _) _));
    simpl; [discriminate|].
  destruct (nullish (member (member (member (member (member data _) _) _) _) _));
    simpl; [discriminate|].
  congruence.
Qed.

Lemma strict_text_throws (data : JsValue) (e : JsError) :
  strict_text data = Throw e -> e = TypeError.
Proof.
  unfold strict_text, prop.
  repeat match goal with
         | |- context [nullish ?v] => destruct (nullish v); simpl
         end; congruence.
Qed.

Lemma first_strict_text (data v : JsValue) :
  first_candidate_text data = v -> nullish v = false -> strict_text data = Ok v.
Proof.
  unfold strict_text, first_candidate_text, prop, opt_member.
  intros H Hv.
  destruct (nullish data) eqn:E0; simpl in *; [subst; discriminate|].
  destruct (nullish (member data _)) eqn:E1; simpl in *; [subst; discriminate|].
  destruct (nullish (member (member data _) _)) eqn:E2; simpl in *;
    [subst; discriminate|].
  destruct (nullish (member (member (member data _) _) _)) eqn:E3; simpl in *;
    [subst; discriminate|].
  destruct (nullish (member (member (member (member data _) _) _) _)) eqn:E4;
    simpl in *; [subst; discriminate|].
  destruct (nullish (member (member (member (member (member data _) _) _) _) _))
    eqn:E5; simpl in *; [subst; discriminate|].
  congruence.
Qed.

Lemma first_text_reply_with (t : JsValue) : first_candidate_text (reply_with t) = t.
Proof. reflexivity. Qed.

Lemma bind_run {A B} (m : Js A) (k : A -> Js B) (w : World) :
  bind m k w
  = match m w with
    | (Ok a, w') => k a w'
    | (Throw e, w') => (Throw e, w')
    end.
Proof. reflexivity. Qed.

Lemma jsstr_nonempty (k : jsstr) : k <> [] -> jsstr_eqb k [] = false.
Proof. destruct k; [congruence | reflexivity]. Qed.

Lemma truthy_key (k : jsstr) : k <> [] -> truthy (env_value (Some k)) = true.
Proof. intros H. simpl. rewrite (jsstr_nonempty k H). reflexivity. Qed.

Lemma opt_member_present (v : JsValue) (k : jsstr) :
  nullish v = false -> opt_member v k = member v k.
Proof. intros H. unfold opt_member. rewrite H. reflexivity. Qed.

(** The six reads of the strict path, as the handlers write them. *)
Lemma strict_chain {B} (data : JsValue) (k : JsValue -> Js B) (w : World) :
  (candidates <- lift (prop data (lit "candidates")) ;;
   candidate <- lift (prop candidates (lit "0")) ;;
   content <- lift (prop candidate (lit "content")) ;;
   parts <- lift (prop content (lit "parts")) ;;
   part <- lift (prop parts (lit "0")) ;;
   message <- lift (prop part (lit "text")) ;;
   k message) w
  = match strict_text data with
    | Ok t => k t w
    | Throw e => (Throw e, w)
    end.
Proof.
  unfold strict_text.
  repeat (rewrite bind_lift;
          match goal with
          | |- context [prop ?v ?n] =>
              destruct (prop v n); cbn [rbind]; [|reflexivity]
          end).
  reflexivity.
Qed.

(** The shape test of part_000 (line 106) computes
    [negb (has_both_arrays _)]. *)
Lemma invalid_spec (jsonData : JsValue) (w : World) :
  (if negb (truthy jsonData) then ret true
   else
     careers <- lift (prop jsonData (lit "careers")) ;;
     if negb (isArray careers) then ret true
     else
       hobbies <- lift (prop jsonData (lit "hobbies")) ;;
       ret (negb (isArray hobbies))) w
  = (Ok (negb (has_both_arrays jsonData)), w).
Proof.
  destruct (truthy jsonData) eqn:T; cbn [negb].
  - assert (N : nullish jsonData = false) by (destruct jsonData; auto; discriminate).
    rewrite bind_lift. unfold prop, has_both_arrays. rewrite N. cbn [negb andb].
    destruct (isArray (member jsonData (lit "careers"))); cbn [negb andb];
      [|reflexivity].
    rewrite bind_lift. reflexivity.
  - destruct jsonData as [| |b|x|s|l|f]; try discriminate T; reflexivity.
Qed.

Lemma JSON_parse_string {rt : JsRuntime} (s : jsstr) :
  JSON_parse (JString s)
  = match JSON_parse_text s with
    | Some v => Ok v
    | None => Throw SyntaxError
    end.
Proof. reflexivity. Qed.

Lemma observe_run (h : Js unit) (r : result unit)
    (c : list UpstreamCall) (s : list Response) (l : list (list LogArg)) :
  run h = (r, mkWorld c s l) -> observe h = (r, c, s).
Proof.
  intros H. unfold observe, outbound, responses. rewrite H. reflexivity.
Qed.

(* ===================================================================== *)
(** ** What the handlers of src/server.js do *)
(* ===================================================================== *)

Module ServerJsFacts.
Import ServerJsRuns.
Section Facts.
Context {rt : JsRuntime}.
Variable key : option jsstr.
Variable up : UpstreamCall -> AxiosReply.

Lemma server_recommendations_no_key (req : Request) :
  nullish (req_body req) = false ->
  truthy (env_value key) = false ->
  exists log,
    run (ServerJs.recommendations key up req)
    = (Ok tt, mkWorld [] [config_error] log).
Proof.
  intros Hb Hk. unfold run, ServerJs.recommendations.
  rewrite bind_lift. unfold prop. rewrite Hb, Hk. cbn [negb].
  eexists; reflexivity.
Qed.

Lemma server_recommendations_rejected (req : Request) (k : jsstr) :
  nullish (req_body req) = false ->
  key = Some k -> k <> [] ->
  accepted (member (req_body req) (lit "interests")) = false ->
  run (ServerJs.recommendations key up req)
  = (Ok tt, mkWorld [] [interests_required] []).
Proof.
  intros Hb -> Hk Hi. unfold run, ServerJs.recommendations.
  rewrite bind_lift. unfold prop. rewrite Hb, (truthy_key k Hk). cbn [negb].
  rewrite bind_run, rejected_spec, Hi. reflexivity.
Qed.

Lemma server_recommendations_accepted (req : Request) (k s : jsstr) :
  nullish (req_body req) = false ->
  key = Some k -> k <> [] ->
  member (req_body req) (lit "interests") = JString s ->
  trim s <> [] ->
  exists log,
    run (ServerJs.recommendations key up req)
    = (Ok tt, mkWorld [call_for k s] [answer (up (call_for k s))] log).
Proof.
  intros Hb -> Hk Hi Hs.
  unfold run, ServerJs.recommendations.
  rewrite bind_lift. unfold prop. rewrite Hb, (truthy_key k Hk). cbn [negb].
  rewrite bind_run, rejected_spec, Hi. cbn [accepted].
  rewrite (jsstr_nonempty (trim s) Hs). cbn [negb env_value to_string].
  rewrite !bind_lift. fold (call_for k s).
  unfold try_catch. rewrite bind_run. unfold axios_post at 1.
  fold (call_for k s). cbn [calls sent console fresh app].
  unfold answer.
  destruct (up (call_for k s)) as [data|f].
  - rewrite bind_lift. destruct (nullish data) eqn:Hd.
    + eexists; reflexivity.
    + unfold first_candidate_text.
      rewrite (opt_member_present data _ Hd).
      match goal with
      | |- context [truthy ?t] => destruct (truthy t) eqn:Ht
      end; cbn [negb].
      * rewrite bind_lift.
        match goal with
        | |- context [JSON_parse ?t] => destruct (JSON_parse t) as [v|e]
        end; cbn iota.
        -- eexists; reflexivity.
        -- destruct e as [| | |[]]; eexists; reflexivity.
      * eexists; reflexivity.
  - destruct f; eexists; reflexivity.
Qed.

Lemma server_chat_no_key (req : Request) :
  nullish (req_body req) = false ->
  truthy (env_value key) = false ->
  run (ServerJs.chat key up req) = (Ok tt, mkWorld [] [chat_config_error] []).
Proof.
  intros Hb Hk. unfold run, ServerJs.chat.
  rewrite bind_lift. unfold prop. rewrite Hb, Hk. reflexivity.
Qed.

Lemma server_chat_no_history (req : Request) (k : jsstr) :
  nullish (req_body req) = false ->
  key = Some k -> k <> [] ->
  truthy (member (req_body req) (lit "history")) = false ->
  run (ServerJs.chat key up req) = (Ok tt, mkWorld [] [history_required] []).
Proof.
  intros Hb -> Hk Hh. unfold run, ServerJs.chat.
  rewrite bind_lift. unfold prop. rewrite Hb, (truthy_key k Hk), Hh. reflexivity.
Qed.

(** What [history.map] throws is thrown by the handler: the call stands
    before the [try] block. *)
Lemma server_chat_map_throws (req : Request) (k : jsstr) (e : JsError) :
  nullish (req_body req) = false ->
  key = Some k -> k <> [] ->
  truthy (member (req_body req) (lit "history")) = true ->
  call_map (member (req_body req) (lit "history")) ServerJs.turn_of = Throw e ->
  run (ServerJs.chat key up req) = (Throw e, fresh).
Proof.
  intros Hb -> Hk Hh Hm. unfold run, ServerJs.chat.
  rewrite bind_lift. unfold prop. rewrite Hb, (truthy_key k Hk), Hh.
  cbn [negb env_value to_string]. rewrite !bind_lift, Hm. reflexivity.
Qed.

Lemma server_chat_forwarded (req : Request) (k : jsstr) (turns : list JsValue) :
  nullish (req_body req) = false ->
  key = Some k -> k <> [] ->
  truthy (member (req_body req) (lit "history")) = true ->
  call_map (member (req_body req) (lit "history")) ServerJs.turn_of = Ok turns ->
  exists log,
    run (ServerJs.chat key up req)
    = (Ok tt,
       mkWorld [chat_call k turns] [chat_answer (up (chat_call k turns))] log).
Proof.
  intros Hb -> Hk Hh Hm. unfold run, ServerJs.chat.
  rewrite bind_lift. unfold prop at 1. rewrite Hb, (truthy_key k Hk), Hh.
  cbn [negb env_value to_string]. rewrite !bind_lift, Hm.
  fold (chat_call k turns).
  unfold try_catch. rewrite bind_run. unfold axios_post at 1.
  fold (chat_call k turns). cbn [calls sent console fresh app].
  unfold chat_answer.
  destruct (up (chat_call k turns)) as [data|f].
  - rewrite strict_chain.
    destruct (strict_text data) as [t|e] eqn:Ht.
    + eexists; reflexivity.
    + rewrite (strict_text_throws data e Ht). eexists; reflexivity.
  - destruct f; eexists; reflexivity.
Qed.

End Facts.
End ServerJsFacts.

(* ===================================================================== *)
(** ** What the handlers of src/unnamed/part_000 do *)
(* ===================================================================== *)

Module Part000Facts.
Import Part000Runs.
Section Facts.
Context {rt : JsRuntime}.
Variable key : option jsstr.
Variable up : UpstreamCall -> AxiosReply.

Lemma clean_throws (t : JsValue) (e : JsError) :
  Part000.clean t = Throw e -> e = TypeError.
Proof.
  destruct t; cbv [Part000.clean call_replace call_trim rbind]; congruence.
Qed.

Lemma clean_string (s : jsstr) :
  Part000.clean (JString s)
  = Ok (trim (remove_all (lit "```") (remove_all (lit "```json") s))).
Proof. reflexivity. Qed.

Lemma part_recommendations_no_key (req : Request) :
  nullish (req_body req) = false ->
  truthy (env_value key) = false ->
  exists log,
    run (Part000.recommendations key up req)
    = (Ok tt, mkWorld [] [config_error] log).
Proof.
  intros Hb Hk. unfold run, Part000.recommendations.
  rewrite bind_lift. unfold prop. rewrite Hb, Hk. cbn [negb].
  eexists; reflexivity.
Qed.

Lemma part_recommendations_rejected (req : Request) (k : jsstr) :
  nullish (req_body req) = false ->
  key = Some k -> k <> [] ->
  accepted (member (req_body req) (lit "interests")) = false ->
  run (Part000.recommendations key up req)
  = (Ok tt, mkWorld [] [interests_required] []).
Proof.
  intros Hb -> Hk Hi. unfold run, Part000.recommendations.
  rewrite bind_lift. unfold prop. rewrite Hb, (truthy_key k Hk). cbn [negb].
  rewrite bind_run, rejected_spec, Hi. reflexivity.
Qed.

Lemma part_recommendations_accepted (req : Request) (k s : jsstr) :
  nullish (req_body req) = false ->
  key = Some k -> k <> [] ->
  member (req_body req) (lit "interests") = JString s ->
  trim s <> [] ->
  exists log,
    run (Part000.recommendations key up req)
    = (Ok tt, mkWorld [call_for k s] [answer (up (call_for k s))] log).
Proof.
  intros Hb -> Hk Hi Hs.
  unfold run, Part000.recommendations.
  rewrite bind_lift. unfold prop at 1. rewrite Hb, (truthy_key k Hk). cbn [negb].
  rewrite bind_run, rejected_spec, Hi. cbn [accepted].
  rewrite (jsstr_nonempty (trim s) Hs). cbn [negb env_value to_string].
  rewrite !bind_lift. fold (call_for k s).
  unfold try_catch. rewrite bind_run. unfold axios_post at 1.
  fold (call_for k s). cbn [calls sent console fresh app].
  unfold answer.
  destruct (up (call_for k s)) as [data|f].
  - rewrite strict_chain.
    destruct (strict_text data) as [t|e] eqn:Ht.
    + rewrite bind_lift.
      destruct (Part000.clean t) as [cleaned|e] eqn:Hc.
      * rewrite bind_lift, JSON_parse_string.
        destruct (JSON_parse_text cleaned) as [v|].
        -- rewrite bind_run, invalid_spec.
           destruct (has_both_arrays v); eexists; reflexivity.
        -- eexists; reflexivity.
      * rewrite (clean_throws t e Hc). eexists; reflexivity.
    + rewrite (strict_text_throws data e Ht). eexists; reflexivity.
  - destruct f; eexists; reflexivity.
Qed.

Lemma part_chat_no_key (req : Request) :
  nullish (req_body req) = false ->
  truthy (env_value key) = false ->
  run (Part000.chat key up req) = (Ok tt, mkWorld [] [chat_config_error] []).
Proof.
  intros Hb Hk. unfold run, Part000.chat.
  rewrite bind_lift. unfold prop. rewrite Hb, Hk. reflexivity.
Qed.

Lemma part_chat_no_history (req : Request) (k : jsstr) :
  nullish (req_body req) = false ->
  key = Some k -> k <> [] ->
  truthy (member (req_body req) (lit "history")) = false ->
  run (Part000.chat key up req) = (Ok tt, mkWorld [] [history_required] []).
Proof.
  intros Hb -> Hk Hh. unfold run, Part000.chat.
  rewrite bind_lift. unfold prop. rewrite Hb, (truthy_key k Hk), Hh. reflexivity.
Qed.

Lemma part_chat_forwarded (req : Request) (k : jsstr) :
  nullish (req_body req) = false ->
  key = Some k -> k <> [] ->
  truthy (member (req_body req) (lit "history")) = true ->
  let history := member (req_body req) (lit "history") in
  exists log,
    run (Part000.chat key up req)
    = (Ok tt,
       mkWorld [chat_call k history] [chat_answer (up (chat_call k history))]
         log).
Proof.
  intros Hb -> Hk Hh history. unfold run, Part000.chat.
  rewrite bind_lift. unfold prop at 1. rewrite Hb, (truthy_key k Hk), Hh.
  cbn [negb env_value to_string]. rewrite !bind_lift.
  fold history. fold (chat_call k history).
  unfold try_catch. rewrite bind_run. unfold axios_post at 1.
  fold (chat_call k history). cbn [calls sent console fresh app].
  unfold chat_answer.
  destruct (up (chat_call k history)) as [data|f].
  - rewrite strict_chain.
    destruct (strict_text data) as [t|e] eqn:Ht.
    + eexists; reflexivity.
    + rewrite (strict_text_throws data e Ht). eexists; reflexivity.
  - destruct f; eexists; reflexivity.
Qed.

End Facts.
End Part000Facts.

(* ===================================================================== *)
(** ** Removing the code fences *)
(* ===================================================================== *)

Section Removal.
Variable p : jsstr.

Lemma starts_with_length (s : jsstr) :
  starts_with p s = true -> List.length p <= List.length s.
Proof.
  revert s. induction p as [|x q IH]; intros s H; simpl; [lia|].
  destruct s as [|y s]; simpl in H; [discriminate|].
  apply andb_prop in H as [_ H]. apply IH in H. simpl. lia.
Qed.

(** A code unit that is not in the pattern ends every match attempt. *)
Lemma starts_with_barrier (s r : jsstr) (c : code_unit) :
  ~ In c p -> p <> [] ->
  starts_with p (s ++ c :: r) = starts_with p s.
Proof.
  revert s. induction p as [|x q IH]; intros s Hc Hp; [congruence|].
  destruct s as [|y s]; simpl.
  - destruct (N.eqb_spec x c) as [->|]; [|reflexivity].
    exfalso. apply Hc. left. reflexivity.
  - destruct q as [|x' q'].
    + destruct s; reflexivity.
    + rewrite IH; [reflexivity| |discriminate].
      intros Hin. apply Hc. right. exact Hin.
Qed.

Lemma remove_from_skip (q r : jsstr) :
  remove_from p (List.length q) (q ++ r) = remove_from p 0 r.
Proof. induction q as [|y q IH]; simpl; auto. Qed.

(** The scan of [s] is not affected by what follows a barrier. *)
Lemma remove_from_barrier (s r : jsstr) (c : code_unit) (k : nat) :
  ~ In c p -> p <> [] -> k <= List.length s ->
  remove_from p k (s ++ c :: r) = remove_from p k s ++ remove_from p 0 (c :: r).
Proof.
  intros Hc Hp. revert k.
  induction s as [|y s IH]; intros k Hk.
  - simpl in Hk. replace k with 0 by lia. reflexivity.
  - change ((y :: s) ++ c :: r) with (y :: (s ++ c :: r)).
    destruct k as [|k]; cbn [remove_from].
    + change (y :: s ++ c :: r) with ((y :: s) ++ c :: r).
      rewrite (@starts_with_barrier (y :: s) r c Hc Hp).
      destruct (starts_with p (y :: s)) eqn:E.
      * apply starts_with_length in E. simpl in E.
        rewrite IH by lia. reflexivity.
      * rewrite IH by lia. reflexivity.
    + apply IH. simpl in Hk. lia.
Qed.

Lemma remove_from_barrier_head (r : jsstr) (c : code_unit) :
  ~ In c p -> p <> [] ->
  remove_from p 0 (c :: r) = c :: remove_from p 0 r.
Proof.
  intros Hc Hp. cbn [remove_from].
  pose proof (@starts_with_barrier [] r c Hc Hp) as E.
  cbn [app] in E. rewrite E.
  destruct p; [congruence | reflexivity].
Qed.

(** Where the pattern does not occur nothing is removed. *)
Lemma remove_from_absent (s : jsstr) :
  occurs p s = false -> remove_from p 0 s = s.
Proof.
  induction s as [|y s IH]; [reflexivity|].
  intros H. simpl in H. apply orb_false_elim in H as [H1 H2].
  cbn [remove_from]. rewrite H1, IH by assumption. reflexivity.
Qed.

Lemma starts_with_app (q s : jsstr) :
  starts_with (p ++ q) s = true -> starts_with p s = true.
Proof.
  revert s. induction p as [|x l IH]; intros s H; [reflexivity|].
  destruct s as [|y s]; simpl in *; [discriminate|].
  apply andb_prop in H as [H1 H2]. rewrite H1. simpl. apply IH. exact H2.
Qed.

Lemma occurs_app (q s : jsstr) :
  occurs p s = false -> occurs (p ++ q) s = false.
Proof.
  induction s as [|y s IH]; intros H.
  - simpl in *. apply orb_false_elim in H as [H _].
    rewrite orb_false_r.
    destruct (starts_with (p ++ q) []) eqn:E; [|reflexivity].
    apply starts_with_app in E. congruence.
  - simpl in H. apply orb_false_elim in H as [H1 H2].
    cbn [occurs]. rewrite (IH H2), orb_false_r.
    destruct (starts_with (p ++ q) (y :: s)) eqn:E; [|reflexivity].
    apply starts_with_app in E. congruence.
Qed.

End Removal.

Lemma starts_with_self (l r : jsstr) : starts_with l (l ++ r) = true.
Proof.
  induction l as [|a l IH]; simpl; [reflexivity|].
  rewrite N.eqb_refl. exact IH.
Qed.

(** A match at the head is dropped. *)
Lemma remove_from_match (p r : jsstr) :
  p <> [] -> remove_from p 0 (p ++ r) = remove_from p 0 r.
Proof.
  intros Hp. destruct p as [|x q]; [congruence|].
  change ((x :: q) ++ r) with (x :: (q ++ r)).
  cbn [remove_from].
  change (x :: q ++ r) with ((x :: q) ++ r).
  rewrite starts_with_self. cbn [List.length Nat.pred].
  apply remove_from_skip.
Qed.

Lemma remove_all_absent (p s : jsstr) : occurs p s = false -> remove_all p s = s.
Proof.
  intros H. unfold remove_all. destruct p; [reflexivity|].
  apply remove_from_absent. exact H.
Qed.

Lemma trim_between_newlines (y : jsstr) : trim (10%N :: y ++ [10%N]) = trim y.
Proof.
  unfold trim.
  change (10%N :: y ++ [10%N]) with ((10%N :: y) ++ [10%N]).
  rewrite trim_end_snoc_space by reflexivity.
  cbn [trim_end]. destruct (trim_end y) as [|c r]; reflexivity.
Qed.

(** The cleaning maps a fenced text to what it maps the text to. *)
Lemma cleaned_fenced (s : jsstr) : cleaned (fenced s) = cleaned s.
Proof.
  assert (NA : ~ In 10%N (lit "```json")).
  { vm_compute. intuition discriminate. }
  assert (NB : ~ In 10%N (lit "```")).
  { vm_compute. intuition discriminate. }
  assert (PA : lit "```json" <> []) by discriminate.
  assert (PB : lit "```" <> []) by discriminate.
  unfold cleaned, fenced.
  change (remove_all (lit "```json")) with (remove_from (lit "```json") 0).
  change (remove_all (lit "```")) with (remove_from (lit "```") 0).
  rewrite (@remove_from_match _ _ PA).
  rewrite (@remove_from_barrier_head _ _ _ NA PA).
  rewrite (@remove_from_barrier _ _ _ _ 0 NA PA) by lia.
  assert (EA : remove_from (lit "```json") 0 (10%N :: lit "```")
               = 10%N :: lit "```") by reflexivity.
  assert (EB : remove_from (lit "```") 0 (10%N :: lit "```") = [10%N])
    by reflexivity.
  rewrite EA.
  set (x := remove_from (lit "```json") 0 s).
  rewrite (@remove_from_barrier_head _ _ _ NB PB).
  rewrite (@remove_from_barrier _ _ _ _ 0 NB PB) by lia.
  rewrite EB.
  apply trim_between_newlines.
Qed.

(** Where no fence occurs the cleaning is [trim]. *)
Lemma cleaned_fence_free (s : jsstr) :
  occurs (lit "```") s = false -> cleaned s = trim s.
Proof.
  intros H. unfold cleaned.
  assert (HA : occurs (lit "```json") s = false).
  { change (lit "```json") with (lit "```" ++ lit "json").
    apply occurs_app. exact H. }
  rewrite (@remove_all_absent _ _ HA), (@remove_all_absent _ _ H). reflexivity.
Qed.

(* ===================================================================== *)
(** * The claims of the specification *)
(* ===================================================================== *)

Lemma trim_blank (s : jsstr) : forallb is_js_space s = true -> trim s = [].
Proof.
  intros H. unfold trim.
  assert (E : trim_end s = []).
  { induction s as [|c s IH]; [reflexivity|].
    simpl in H. apply andb_prop in H as [Hc Hs].
    simpl. rewrite (IH Hs), Hc. reflexivity. }
  rewrite E. reflexivity.
Qed.

Lemma accepted_not_string (v : JsValue) : is_string v = false -> accepted v = false.
Proof. destruct v; simpl; congruence. Qed.




(** C5. With the credential configured, an [interests] that is the empty
    string or consists of white space only is answered with
    400 [{ error: 'Interests are required.' }], and no call is made to the
    upstream. *)
Theorem C5_blank_interests {rt : JsRuntime} (key : option jsstr)
    (up : UpstreamCall -> AxiosReply) (req : Request) (k s : jsstr) :
  nullish (req_body req) = false ->
  key = Some k -> k <> [] ->
  member (req_body req) (lit "interests") = JString s ->
  forallb is_js_space s = true ->
  observe (ServerJs.recommendations key up req)
    = (Ok tt, [], [interests_required])
  /\ observe (Part000.recommendations key up req)
    = (Ok tt, [], [interests_required]).
Proof.
  intros Hb Hkey Hk Hi Hs.
  assert (Ha : accepted (member (req_body req) (lit "interests")) = false).
  { rewrite Hi. simpl. rewrite (trim_blank s Hs). reflexivity. }
  split.
  - eapply observe_run, ServerJsFacts.server_recommendations_rejected; eassumption.
  - eapply observe_run, Part000Facts.part_recommendations_rejected; eassumption.
Qed.

Lemma C5_witness :
  observe (ServerJs.recommendations (rt := reference_runtime)
             (Some (lit "secret")) (replying JNull)
             (interest_request (JString (lit "   "))))
    = (Ok tt, [], [interests_required])
  /\ observe (Part000.recommendations (rt := reference_runtime)
             (Some (lit "secret")) (replying JNull)
             (interest_request (JString (lit "   "))))
    = (Ok tt, [], [interests_required]).
Proof.
  apply (@C5_blank_interests reference_runtime (Some (lit "secret"))
           (replying JNull) (interest_request (JString (lit "   ")))
           (lit "secret") (lit "   "));
    try reflexivity; discriminate.
Defined.

(** The empty string, the other input the specification names. *)
Example empty_interests :
  observe (ServerJs.recommendations (rt := reference_runtime)
             (Some (lit "secret")) (replying JNull)
             (interest_request (JString [])))
    = (Ok tt, [], [interests_required])
  /\ observe (Part000.recommendations (rt := reference_runtime)
             (Some (lit "secret")) (replying JNull)
             (interest_request (JString [])))
    = (Ok tt, [], [interests_required]).
Proof. split; reflexivity. Qed.

(** C10. With the credential configured, an [interests] that is not a
    string (absent, a number, an array, an object, ...) is answered with
    400 and no call is made to the upstream. *)
Theorem C10_non_string_interests {rt : JsRuntime} (key : option jsstr)
    (up : UpstreamCall -> AxiosReply) (req : Request) (k : jsstr) :
  nullish (req_body req) = false ->
  key = Some k -> k <> [] ->
  is_string (member (req_body req) (lit "interests")) = false ->
  observe (ServerJs.recommendations key up req)
    = (Ok tt, [], [interests_required])
  /\ observe (Part000.recommendations key up req)
    = (Ok tt, [], [interests_required]).
Proof.
  intros Hb Hkey Hk Hi.
  pose proof (accepted_not_string _ Hi) as Ha.
  split.
  - eapply observe_run, ServerJsFacts.server_recommendations_rejected; eassumption.
  - eapply observe_run, Part000Facts.part_recommendations_rejected; eassumption.
Qed.

(** [interests: ["music", "chess"]], an array that is not empty. *)
Lemma C10_witness :
  observe (ServerJs.recommendations (rt := reference_runtime)
             (Some (lit "secret")) (replying JNull)
             (interest_request
                (JArray [JString (lit "music"); JString (lit "chess")])))
    = (Ok tt, [], [interests_required])
  /\ observe (Part000.recommendations (rt := reference_runtime)
             (Some (lit "secret")) (replying JNull)
             (interest_request
                (JArray [JString (lit "music"); JString (lit "chess")])))
    = (Ok tt, [], [interests_required]).
Proof.
  apply (@C10_non_string_interests reference_runtime (Some (lit "secret"))
           (replying JNull)
           (interest_request
              (JArray [JString (lit "music"); JString (lit "chess")]))
           (lit "secret"));
    try reflexivity; discriminate.
Defined.

(** [interests: 42], and a request without [interests]. *)
Example number_and_absent_interests :
  observe (ServerJs.recommendations (rt := reference_runtime)
             (Some (lit "secret")) (replying JNull)
             (interest_request (JNumber (Reference.number_of_Z false 42))))
    = (Ok tt, [], [interests_required])
  /\ observe (Part000.recommendations (rt := reference_runtime)
             (Some (lit "secret")) (replying JNull)
             (mkRequest (JObject [])))
    = (Ok tt, [], [interests_required]).
Proof. split; reflexivity. Qed.

(* ===================================================================== *)
(** ** The answer to an upstream reply, by the reply's text *)
(* ===================================================================== *)

Lemma first_text_of_nullish (data : JsValue) :
  nullish data = true -> first_candidate_text data = JUndefined.
Proof.
  intros H. unfold first_candidate_text.
  unfold opt_member at 6. rewrite H. reflexivity.
Qed.

Lemma has_arrays_of_result (v : JsValue) :
  is_recommendation_result v = true -> has_both_arrays v = true.
Proof.
  unfold is_recommendation_result, has_both_arrays.
  destruct v; try discriminate. cbn [nullish negb andb].
  destruct (member _ (lit "careers")); try discriminate.
  destruct (member _ (lit "hobbies")); try discriminate.
  reflexivity.
Qed.

Lemma fenced_head (s : jsstr) : exists r, fenced s = 96%N :: r.
Proof. eexists. reflexivity. Qed.

Section Answers.
Context {rt : JsRuntime}.

(** server.js: a reply without a text is a failure. *)
Lemma server_answer_empty (data : JsValue) :
  truthy (first_candidate_text data) = false ->
  ServerJsRuns.answer (Resolved data) = recommendation_failure.
Proof.
  intros H. unfold ServerJsRuns.answer.
  destruct (nullish data); [reflexivity|].
  cbv zeta. rewrite H. reflexivity.
Qed.

(** server.js: a reply with a text is answered by what the text parses
    to, as it is. *)
Lemma server_answer_text (data : JsValue) (text : jsstr) :
  first_candidate_text data = JString text ->
  ServerJsRuns.answer (Resolved data)
  = match JSON_parse_text text with
    | Some v => mkResponse 200 v
    | None => recommendation_failure
    end.
Proof.
  intros H. unfold ServerJsRuns.answer.
  destruct (nullish data) eqn:Hd.
  - rewrite (first_text_of_nullish data Hd) in H. discriminate.
  - cbv zeta. rewrite H, JSON_parse_string.
    destruct text as [|c text].
    + rewrite JSON_parse_empty. reflexivity.
    + cbn [truthy jsstr_eqb negb].
      destruct (JSON_parse_text (c :: text)); reflexivity.
Qed.

(** part_000: a reply with a text is answered by what the cleaned text
    parses to, if that has both arrays. *)
Lemma part_answer_text (data : JsValue) (text : jsstr) :
  first_candidate_text data = JString text ->
  Part000Runs.answer (Resolved data)
  = match JSON_parse_text (cleaned text) with
    | Some v =>
        if has_both_arrays v then mkResponse 200 v else recommendation_failure
    | None => recommendation_failure
    end.
Proof.
  intros H. unfold Part000Runs.answer.
  rewrite (first_strict_text data (JString text) H eq_refl).
  rewrite Part000Facts.clean_string. reflexivity.
Qed.

(** part_000: a reply without a text is a failure. *)
Lemma part_answer_empty (data : JsValue) :
  truthy (first_candidate_text data) = false ->
  Part000Runs.answer (Resolved data) = recommendation_failure.
Proof.
  intros H. unfold Part000Runs.answer.
  destruct (strict_text data) as [t|e] eqn:Ht; [|reflexivity].
  apply strict_text_first in Ht. rewrite Ht in H.
  destruct (Part000.clean t) as [c|e] eqn:Hc; [|reflexivity].
  destruct t as [| |b|x|text|l|f]; try discriminate Hc.
  destruct text as [|c0 text]; [|discriminate H].
  rewrite Part000Facts.clean_string in Hc. injection Hc as <-.
  change (cleaned []) with (@nil N). rewrite JSON_parse_empty. reflexivity.
Qed.

(** part_000: what is answered with status 200 has both arrays. *)
Lemma part_answer_shape (reply : AxiosReply) :
  Part000Runs.answer reply = recommendation_failure
  \/ (status (Part000Runs.answer reply) = 200%Z
      /\ has_both_arrays (body (Part000Runs.answer reply)) = true).
Proof.
  unfold Part000Runs.answer.
  destruct reply as [data|f]; [|left; reflexivity].
  destruct (strict_text data) as [t|e]; [|left; reflexivity].
  destruct (Part000.clean t) as [c|e]; [|left; reflexivity].
  destruct (JSON_parse_text c) as [v|]; [|left; reflexivity].
  destruct (has_both_arrays v) eqn:E; [|left; reflexivity].
  right. split; [reflexivity | exact E].
Qed.

End Answers.

Lemma responses_run (h : Js unit) (r : result unit)
    (c : list UpstreamCall) (s : list Response) (l : list (list LogArg)) :
  run h = (r, mkWorld c s l) -> responses h = s.
Proof. intros H. unfold responses. rewrite H. reflexivity. Qed.

(** C9. When the upstream answers 2xx and the first candidate's first
    text part is missing, [null] or empty, the recommendation handler, in
    both revisions, sends the uniform 500 response and no other. *)
Theorem C9_empty_candidate {rt : JsRuntime} (key : option jsstr)
    (up : UpstreamCall -> AxiosReply) (req : Request) (k s : jsstr)
    (data : JsValue) :
  nullish (req_body req) = false ->
  key = Some k -> k <> [] ->
  member (req_body req) (lit "interests") = JString s ->
  trim s <> [] ->
  (forall c, up c = Resolved data) ->
  first_candidate_text data = JUndefined
  \/ first_candidate_text data = JNull
  \/ first_candidate_text data = JString [] ->
  observe (ServerJs.recommendations key up req)
    = (Ok tt, [ServerJsRuns.call_for k s], [recommendation_failure])
  /\ observe (Part000.recommendations key up req)
    = (Ok tt, [Part000Runs.call_for k s], [recommendation_failure]).
Proof.
  intros Hb Hkey Hk Hi Hs Hup Ht.
  assert (Hf : truthy (first_candidate_text data) = false).
  { destruct Ht as [-> | [-> | ->]]; reflexivity. }
  split.
  - destruct (ServerJsFacts.server_recommendations_accepted key up req k s
                Hb Hkey Hk Hi Hs) as [l E].
    rewrite Hup, (server_answer_empty data Hf) in E.
    eapply observe_run, E.
  - destruct (Part000Facts.part_recommendations_accepted key up req k s
                Hb Hkey Hk Hi Hs) as [l E].
    rewrite Hup, (part_answer_empty data Hf) in E.
    eapply observe_run, E.
Qed.

(** A 2xx reply whose only candidate has an empty list of parts. *)
Lemma C9_witness :
  let data :=
    JObject [(lit "candidates",
      JArray [JObject [(lit "content", JObject [(lit "parts", JArray [])])]])] in
  observe (ServerJs.recommendations (rt := reference_runtime)
             (Some (lit "secret")) (replying data)
             (interest_request (JString (lit "music"))))
    = (Ok tt, [ServerJsRuns.call_for (lit "secret") (lit "music")],
       [recommendation_failure])
  /\ observe (Part000.recommendations (rt := reference_runtime)
             (Some (lit "secret")) (replying data)
             (interest_request (JString (lit "music"))))
    = (Ok tt, [Part000Runs.call_for (lit "secret") (lit "music")],
       [recommendation_failure]).
Proof.
  intros data.
  apply (@C9_empty_candidate reference_runtime (Some (lit "secret"))
           (replying data) (interest_request (JString (lit "music")))
           (lit "secret") (lit "music") data);
    try reflexivity; try discriminate.
  left. reflexivity.
Defined.

(** C1, as stated, fails on src/server.js: a reply whose text parses to
    an object without [hobbies] is returned as it is, with status 200. *)
Lemma C1_counterexample :
  let text := quoted "{~careers~:[]}" in
  let parsed := JObject [(lit "careers", JArray [])] in
  let h := ServerJs.recommendations (rt := reference_runtime)
             (Some (lit "secret")) (replying (reply_with (JString text)))
             (interest_request (JString (lit "music"))) in
  JSON_parse_text (JsRuntime := reference_runtime) text = Some parsed
  /\ has_both_arrays parsed = false
  /\ responses h = [mkResponse 200 parsed]
  /\ responses h <> [recommendation_failure].
Proof.
  cbv zeta. repeat split; try reflexivity.
  vm_compute. discriminate.
Qed.

(** C1, amended.  In src/unnamed/part_000 the recommendation handler
    sends one response, which is the uniform 500 failure or carries a
    value with array-typed [careers] and [hobbies]: a reply whose cleaned
    text parses to a value without them is answered with the failure.
    In src/server.js the handler has no such check: a reply text that
    parses is answered with status 200 and the parsed value, whatever
    its shape. *)
Theorem C1_shape_check {rt : JsRuntime} (key : option jsstr)
    (up : UpstreamCall -> AxiosReply) (req : Request) (k s : jsstr) :
  nullish (req_body req) = false ->
  key = Some k -> k <> [] ->
  member (req_body req) (lit "interests") = JString s ->
  trim s <> [] ->
  (exists r,
      observe (Part000.recommendations key up req)
      = (Ok tt, [Part000Runs.call_for k s], [r])
      /\ (r = recommendation_failure
          \/ (status r = 200%Z /\ has_both_arrays (body r) = true)))
  /\ (forall data text v,
        up (Part000Runs.call_for k s) = Resolved data ->
        first_candidate_text data = JString text ->
        JSON_parse_text (cleaned text) = Some v ->
        has_both_arrays v = false ->
        responses (Part000.recommendations key up req)
        = [recommendation_failure])
  /\ (forall data text v,
        up (ServerJsRuns.call_for k s) = Resolved data ->
        first_candidate_text data = JString text ->
        JSON_parse_text text = Some v ->
        responses (ServerJs.recommendations key up req) = [mkResponse 200 v]).
Proof.
  intros Hb Hkey Hk Hi Hs.
  destruct (Part000Facts.part_recommendations_accepted key up req k s
              Hb Hkey Hk Hi Hs) as [lp Ep].
  destruct (ServerJsFacts.server_recommendations_accepted key up req k s
              Hb Hkey Hk Hi Hs) as [ls Es].
  split; [|split].
  - eexists. split; [eapply observe_run, Ep|].
    apply part_answer_shape.
  - intros data text v Hup Ht Hp Hv.
    rewrite (responses_run _ _ _ _ _ Ep), Hup, (part_answer_text data text Ht).
    rewrite Hp, Hv. reflexivity.
  - intros data text v Hup Ht Hp.
    rewrite (responses_run _ _ _ _ _ Es), Hup, (server_answer_text data text Ht).
    rewrite Hp. reflexivity.
Qed.

Lemma C1_witness :
  let key := Some (lit "secret") in
  let up := replying (reply_with (JString (quoted "{~careers~:[]}"))) in
  let req := interest_request (JString (lit "music")) in
  (exists r,
      observe (Part000.recommendations (rt := reference_runtime) key up req)
      = (Ok tt, [Part000Runs.call_for (lit "secret") (lit "music")], [r])
      /\ (r = recommendation_failure
          \/ (status r = 200%Z /\ has_both_arrays (body r) = true)))
  /\ (forall data text v,
        up (Part000Runs.call_for (lit "secret") (lit "music")) = Resolved data ->
        first_candidate_text data = JString text ->
        JSON_parse_text (JsRuntime := reference_runtime) (cleaned text) = Some v ->
        has_both_arrays v = false ->
        responses (Part000.recommendations (rt := reference_runtime) key up req)
        = [recommendation_failure])
  /\ (forall data text v,
        up (ServerJsRuns.call_for (lit "secret") (lit "music")) = Resolved data ->
        first_candidate_text data = JString text ->
        JSON_parse_text (JsRuntime := reference_runtime) text = Some v ->
        responses (ServerJs.recommendations (rt := reference_runtime) key up req)
        = [mkResponse 200 v]).
Proof.
  intros key up req.
  apply (@C1_shape_check reference_runtime key up req (lit "secret") (lit "music"));
    try reflexivity; discriminate.
Defined.

(** C2, as stated, fails on src/server.js: the fenced text is answered
    with the 500 failure, the same text without fences with status
    200. *)
Lemma C2_counterexample :
  let text := quoted "{~careers~:[],~hobbies~:[]}" in
  let parsed := JObject [(lit "careers", JArray []); (lit "hobbies", JArray [])] in
  let h (t : jsstr) :=
    ServerJs.recommendations (rt := reference_runtime)
      (Some (lit "secret")) (replying (reply_with (JString t)))
      (interest_request (JString (lit "music"))) in
  responses (h text) = [mkResponse 200 parsed]
  /\ responses (h (fenced text)) = [recommendation_failure]
  /\ responses (h (fenced text)) <> responses (h text).
Proof.
  cbv zeta. repeat split; try reflexivity.
  vm_compute. discriminate.
Qed.

(** C2, amended.  In src/unnamed/part_000 a reply whose text stands
    between code fences is answered as the reply with the bare text is:
    with status 200 and the parsed value when the bare text, cleaned,
    parses to a value with both arrays.  In src/server.js the text is
    parsed as it comes ("no need to strip markdown", line 100), and a
    fenced text is answered with the 500 failure. *)
Theorem C2_fences {rt : JsRuntime} (key : option jsstr)
    (up up' : UpstreamCall -> AxiosReply) (req : Request) (k s : jsstr)
    (data data' : JsValue) (text : jsstr) :
  nullish (req_body req) = false ->
  key = Some k -> k <> [] ->
  member (req_body req) (lit "interests") = JString s ->
  trim s <> [] ->
  (forall c, up c = Resolved data) ->
  (forall c, up' c = Resolved data') ->
  first_candidate_text data = JString (fenced text) ->
  first_candidate_text data' = JString text ->
  responses (Part000.recommendations key up req)
    = responses (Part000.recommendations key up' req)
  /\ (forall v,
        JSON_parse_text (cleaned text) = Some v ->
        has_both_arrays v = true ->
        responses (Part000.recommendations key up req) = [mkResponse 200 v])
  /\ responses (ServerJs.recommendations key up req) = [recommendation_failure].
Proof.
  intros Hb Hkey Hk Hi Hs Hup Hup' Ht Ht'.
  destruct (Part000Facts.part_recommendations_accepted key up req k s
              Hb Hkey Hk Hi Hs) as [l E].
  destruct (Part000Facts.part_recommendations_accepted key up' req k s
              Hb Hkey Hk Hi Hs) as [l' E'].
  destruct (ServerJsFacts.server_recommendations_accepted key up req k s
              Hb Hkey Hk Hi Hs) as [ls Es].
  rewrite (responses_run _ _ _ _ _ E), (responses_run _ _ _ _ _ E'),
    (responses_run _ _ _ _ _ Es), !Hup, Hup'.
  rewrite (part_answer_text data (fenced text) Ht),
    (part_answer_text data' text Ht'),
    (server_answer_text data (fenced text) Ht), cleaned_fenced.
  split; [reflexivity|]. split.
  - intros v Hp Hv. rewrite Hp, Hv. reflexivity.
  - destruct (fenced_head text) as [r ->].
    rewrite JSON_parse_backtick. reflexivity.
Qed.

Lemma C2_witness :
  let key := Some (lit "secret") in
  let text := quoted "{~careers~:[],~hobbies~:[]}" in
  let up := replying (reply_with (JString (fenced text))) in
  let up' := replying (reply_with (JString text)) in
  let req := interest_request (JString (lit "music")) in
  responses (Part000.recommendations (rt := reference_runtime) key up req)
    = responses (Part000.recommendations (rt := reference_runtime) key up' req)
  /\ (forall v,
        JSON_parse_text (JsRuntime := reference_runtime) (cleaned text) = Some v ->
        has_both_arrays v = true ->
        responses (Part000.recommendations (rt := reference_runtime) key up req)
        = [mkResponse 200 v])
  /\ responses (ServerJs.recommendations (rt := reference_runtime) key up req)
     = [recommendation_failure].
Proof.
  intros key text up up' req.
  apply (@C2_fences reference_runtime key up up' req (lit "secret") (lit "music")
           (reply_with (JString (fenced text))) (reply_with (JString text)) text);
    try reflexivity; discriminate.
Defined.

(** C7, as stated, fails on src/unnamed/part_000: the reply text meets
    the schema, and the object returned differs from the one it parses
    to, because the fence inside a description is removed too. *)
Lemma C7_counterexample :
  let parsed :=
    blogging_result "Write posts in Markdown; ``` opens a code block." in
  let returned :=
    blogging_result "Write posts in Markdown;  opens a code block." in
  let h := Part000.recommendations (rt := reference_runtime)
             (Some (lit "secret")) (replying (reply_with (JString blogging_text)))
             (interest_request (JString (lit "writing"))) in
  JSON_parse_text (JsRuntime := reference_runtime) blogging_text = Some parsed
  /\ is_recommendation_result parsed = true
  /\ responses h = [mkResponse 200 returned]
  /\ responses h <> [mkResponse 200 parsed].
Proof.
  cbv zeta. repeat split; try reflexivity.
  vm_compute. discriminate.
Qed.

(** C7, amended.  When the reply text parses to a recommendation result
    (2-4 careers, 2-3 hobbies, the required fields), src/server.js
    answers with status 200 and exactly that object; src/unnamed/part_000
    does so when the text holds no code fence. *)
Theorem C7_pass_through {rt : JsRuntime} (key : option jsstr)
    (up : UpstreamCall -> AxiosReply) (req : Request) (k s : jsstr)
    (data : JsValue) (text : jsstr) (v : JsValue) :
  nullish (req_body req) = false ->
  key = Some k -> k <> [] ->
  member (req_body req) (lit "interests") = JString s ->
  trim s <> [] ->
  (forall c, up c = Resolved data) ->
  first_candidate_text data = JString text ->
  JSON_parse_text text = Some v ->
  is_recommendation_result v = true ->
  responses (ServerJs.recommendations key up req) = [mkResponse 200 v]
  /\ (occurs (lit "```") text = false ->
      responses (Part000.recommendations key up req) = [mkResponse 200 v]).
Proof.
  intros Hb Hkey Hk Hi Hs Hup Ht Hp Hv.
  destruct (Part000Facts.part_recommendations_accepted key up req k s
              Hb Hkey Hk Hi Hs) as [l E].
  destruct (ServerJsFacts.server_recommendations_accepted key up req k s
              Hb Hkey Hk Hi Hs) as [ls Es].
  rewrite (responses_run _ _ _ _ _ E), (responses_run _ _ _ _ _ Es), !Hup.
  rewrite (part_answer_text data text Ht), (server_answer_text data text Ht).
  split.
  - rewrite Hp. reflexivity.
  - intros Hfree. rewrite (cleaned_fence_free text Hfree).
    rewrite (JSON_parse_trim text v Hp), (has_arrays_of_result v Hv).
    reflexivity.
Qed.

Lemma C7_witness :
  let key := Some (lit "secret") in
  let text := quoted
    "{~careers~:[{~career~:~Web Developer~,~studies~:[~HTML~,~CSS~,~JavaScript~],~icon~:~fas fa-code~},{~career~:~Technical Writer~,~studies~:[~English~,~Markdown~,~Editing~],~icon~:~fas fa-pen~}],~hobbies~:[{~hobby~:~Chess~,~description~:~Train your planning.~,~icon~:~fas fa-chess~},{~hobby~:~Blogging~,~description~:~Write about what you learn.~,~icon~:~fas fa-blog~}]}" in
  let v :=
    JObject
      [ (lit "careers",
          JArray
            [ career_entry "Web Developer" "HTML" "CSS" "JavaScript" "fas fa-code";
              career_entry "Technical Writer" "English" "Markdown" "Editing"
                "fas fa-pen" ]);
        (lit "hobbies",
          JArray
            [ hobby_entry "Chess" "Train your planning." "fas fa-chess";
              hobby_entry "Blogging" "Write about what you learn." "fas fa-blog" ]) ] in
  let up := replying (reply_with (JString text)) in
  let req := interest_request (JString (lit "  games and writing ")) in
  responses (ServerJs.recommendations (rt := reference_runtime) key up req)
    = [mkResponse 200 v]
  /\ (occurs (lit "```") text = false ->
      responses (Part000.recommendations (rt := reference_runtime) key up req)
      = [mkResponse 200 v]).
Proof.
  intros key text v up req.
  apply (@C7_pass_through reference_runtime key up req (lit "secret")
           (lit "  games and writing ") (reply_with (JString text)) text v);
    try reflexivity; discriminate.
Defined.

(* ===================================================================== *)
(** ** Every run of a handler *)
(* ===================================================================== *)

Lemma truthy_env_key (key : option jsstr) :
  truthy (env_value key) = true -> exists k, key = Some k /\ k <> [].
Proof.
  destruct key as [k|]; [|discriminate].
  intros H. exists k. split; [reflexivity|].
  intros ->. discriminate H.
Qed.

Section EveryRun.
Context {rt : JsRuntime}.
Variable key : option jsstr.
Variable up : UpstreamCall -> AxiosReply.

(** The runs of the recommendation handler of server.js: the body is
    missing and the read of [interests] throws; or one response is sent,
    an input error without a call, or the answer to the one call. *)
Lemma server_recommendations_runs (req : Request) :
  (nullish (req_body req) = true
   /\ run (ServerJs.recommendations key up req) = (Throw TypeError, fresh))
  \/ exists cs r log,
       run (ServerJs.recommendations key up req) = (Ok tt, mkWorld cs [r] log)
       /\ ((cs = []
            /\ (r = ServerJsRuns.config_error \/ r = interests_required))
           \/ exists k s,
               cs = [ServerJsRuns.call_for k s]
               /\ r = ServerJsRuns.answer (up (ServerJsRuns.call_for k s))).
Proof.
  destruct (nullish (req_body req)) eqn:Hb.
  { left. split; [reflexivity|]. unfold run, ServerJs.recommendations.
    rewrite bind_lift. unfold prop. rewrite Hb. reflexivity. }
  right. destruct (truthy (env_value key)) eqn:Hkey.
  - apply truthy_env_key in Hkey as (k & Hkey & Hk).
    destruct (accepted (member (req_body req) (lit "interests"))) eqn:Ha.
    + apply accepted_is_string in Ha as (s & Hi & Hs).
      destruct (ServerJsFacts.server_recommendations_accepted key up req k s
                  Hb Hkey Hk Hi Hs) as [l E].
      do 3 eexists. split; [exact E|]. right. do 2 eexists. split; reflexivity.
    + do 3 eexists. split; [|left; split; [reflexivity | right; reflexivity]].
      apply (ServerJsFacts.server_recommendations_rejected
               key up req k Hb Hkey Hk Ha).
  - destruct (ServerJsFacts.server_recommendations_no_key key up req Hb Hkey)
      as [l E].
    do 3 eexists. split; [exact E|]. left. split; [|left]; reflexivity.
Qed.

Lemma part_recommendations_runs (req : Request) :
  (nullish (req_body req) = true
   /\ run (Part000.recommendations key up req) = (Throw TypeError, fresh))
  \/ exists cs r log,
       run (Part000.recommendations key up req) = (Ok tt, mkWorld cs [r] log)
       /\ ((cs = []
            /\ (r = Part000Runs.config_error \/ r = interests_required))
           \/ exists k s,
               cs = [Part000Runs.call_for k s]
               /\ r = Part000Runs.answer (up (Part000Runs.call_for k s))).
Proof.
  destruct (nullish (req_body req)) eqn:Hb.
  { left. split; [reflexivity|]. unfold run, Part000.recommendations.
    rewrite bind_lift. unfold prop. rewrite Hb. reflexivity. }
  right. destruct (truthy (env_value key)) eqn:Hkey.
  - apply truthy_env_key in Hkey as (k & Hkey & Hk).
    destruct (accepted (member (req_body req) (lit "interests"))) eqn:Ha.
    + apply accepted_is_string in Ha as (s & Hi & Hs).
      destruct (Part000Facts.part_recommendations_accepted key up req k s
                  Hb Hkey Hk Hi Hs) as [l E].
      do 3 eexists. split; [exact E|]. right. do 2 eexists. split; reflexivity.
    + do 3 eexists. split; [|left; split; [reflexivity | right; reflexivity]].
      apply (Part000Facts.part_recommendations_rejected
               key up req k Hb Hkey Hk Ha).
  - destruct (Part000Facts.part_recommendations_no_key key up req Hb Hkey)
      as [l E].
    do 3 eexists. split; [exact E|]. left. split; [|left]; reflexivity.
Qed.

Lemma part_chat_runs (req : Request) :
  (nullish (req_body req) = true
   /\ run (Part000.chat key up req) = (Throw TypeError, fresh))
  \/ exists cs r log,
       run (Part000.chat key up req) = (Ok tt, mkWorld cs [r] log)
       /\ ((cs = []
            /\ (r = Part000Runs.chat_config_error \/ r = history_required))
           \/ exists k h,
               cs = [Part000Runs.chat_call k h]
               /\ r = Part000Runs.chat_answer (up (Part000Runs.chat_call k h))).
Proof.
  destruct (nullish (req_body req)) eqn:Hb.
  { left. split; [reflexivity|]. unfold run, Part000.chat.
    rewrite bind_lift. unfold prop. rewrite Hb. reflexivity. }
  right. destruct (truthy (env_value key)) eqn:Hkey.
  - apply truthy_env_key in Hkey as (k & Hkey & Hk).
    destruct (truthy (member (req_body req) (lit "history"))) eqn:Hh.
    + destruct (Part000Facts.part_chat_forwarded key up req k Hb Hkey Hk Hh)
        as [l E].
      do 3 eexists. split; [exact E|]. right. do 2 eexists. split; reflexivity.
    + do 3 eexists. split; [|left; split; [reflexivity | right; reflexivity]].
      apply (Part000Facts.part_chat_no_history key up req k Hb Hkey Hk Hh).
  - do 3 eexists. split; [|left; split; [|left]; reflexivity].
    apply (Part000Facts.part_chat_no_key key up req Hb Hkey).
Qed.

(** The runs of the chat handler of server.js: a throw before anything
    is done (the body is missing, or [history.map] throws), or one
    response, an input error without a call or the answer to the one
    call. *)
Lemma server_chat_runs (req : Request) :
  (exists e, run (ServerJs.chat key up req) = (Throw e, fresh))
  \/ exists cs r log,
       run (ServerJs.chat key up req) = (Ok tt, mkWorld cs [r] log)
       /\ ((cs = []
            /\ (r = ServerJsRuns.chat_config_error \/ r = history_required))
           \/ exists k turns,
               cs = [ServerJsRuns.chat_call k turns]
               /\ r = ServerJsRuns.chat_answer
                        (up (ServerJsRuns.chat_call k turns))).
Proof.
  destruct (nullish (req_body req)) eqn:Hb.
  { left. exists TypeError. unfold run, ServerJs.chat.
    rewrite bind_lift. unfold prop. rewrite Hb. reflexivity. }
  destruct (truthy (env_value key)) eqn:Hkey.
  - apply truthy_env_key in Hkey as (k & Hkey & Hk).
    destruct (truthy (member (req_body req) (lit "history"))) eqn:Hh.
    + destruct (call_map (member (req_body req) (lit "history"))
                  ServerJs.turn_of) as [turns|e] eqn:Hm.
      * right.
        destruct (ServerJsFacts.server_chat_forwarded key up req k turns
                    Hb Hkey Hk Hh Hm) as [l E].
        do 3 eexists. split; [exact E|]. right. do 2 eexists. split; reflexivity.
      * left. exists e.
        apply (ServerJsFacts.server_chat_map_throws
                 key up req k e Hb Hkey Hk Hh Hm).
    + right. do 3 eexists.
      split; [|left; split; [reflexivity | right; reflexivity]].
      apply (ServerJsFacts.server_chat_no_history key up req k Hb Hkey Hk Hh).
  - right. do 3 eexists. split; [|left; split; [|left]; reflexivity].
    apply (ServerJsFacts.server_chat_no_key key up req Hb Hkey).
Qed.

(** An answer to an upstream reply is the fixed failure or a success. *)
Lemma server_answer_cases (reply : AxiosReply) :
  ServerJsRuns.answer reply = recommendation_failure
  \/ status (ServerJsRuns.answer reply) = 200%Z.
Proof.
  unfold ServerJsRuns.answer. destruct reply as [data|f]; [|left; reflexivity].
  destruct (nullish data); [left; reflexivity|]. cbv zeta.
  destruct (truthy (first_candidate_text data)); [|left; reflexivity].
  destruct (JSON_parse (first_candidate_text data)); [right|left]; reflexivity.
Qed.

Lemma part_chat_answer_cases (reply : AxiosReply) :
  Part000Runs.chat_answer reply = Part000Runs.chat_failure
  \/ status (Part000Runs.chat_answer reply) = 200%Z.
Proof.
  unfold Part000Runs.chat_answer. destruct reply as [data|f]; [|left; reflexivity].
  destruct (strict_text data); [right|left]; reflexivity.
Qed.

End EveryRun.

(** C3, as stated, fails on src/unnamed/part_000: its recommendation
    handler calls the upstream without a timeout, where the one of
    src/server.js passes 15000. *)
Lemma C3_counterexample :
  let up := replying (reply_with (JString (quoted "{~careers~:[],~hobbies~:[]}"))) in
  let req := interest_request (JString (lit "music")) in
  List.map timeout
    (outbound (Part000.recommendations (rt := reference_runtime)
                 (Some (lit "secret")) up req)) = [None]
  /\ List.map timeout
    (outbound (ServerJs.recommendations (rt := reference_runtime)
                 (Some (lit "secret")) up req)) = [Some 15000%Z].
Proof. split; reflexivity. Qed.

(** C3, amended.  Every call the recommendation handler of src/server.js
    makes to the upstream carries the timeout 15000; every call of the
    recommendation handler of src/unnamed/part_000 and of the chat
    handler of either revision carries none. *)
Theorem C3_timeouts {rt : JsRuntime} (key : option jsstr)
    (up : UpstreamCall -> AxiosReply) (req : Request) :
  Forall (fun c => timeout c = Some 15000%Z)
    (outbound (ServerJs.recommendations key up req))
  /\ Forall (fun c => timeout c = None)
       (outbound (Part000.recommendations key up req))
  /\ Forall (fun c => timeout c = None) (outbound (ServerJs.chat key up req))
  /\ Forall (fun c => timeout c = None) (outbound (Part000.chat key up req)).
Proof.
  unfold outbound. repeat split.
  - destruct (server_recommendations_runs key up req)
      as [[_ E] | (cs & r & l & E & [[-> _] | (k & s & -> & _)])];
      rewrite E; cbn [snd calls fresh]; repeat constructor.
  - destruct (part_recommendations_runs key up req)
      as [[_ E] | (cs & r & l & E & [[-> _] | (k & s & -> & _)])];
      rewrite E; cbn [snd calls fresh]; repeat constructor.
  - destruct (server_chat_runs key up req)
      as [[e E] | (cs & r & l & E & [[-> _] | (k & s & -> & _)])];
      rewrite E; cbn [snd calls fresh]; repeat constructor.
  - destruct (part_chat_runs key up req)
      as [[_ E] | (cs & r & l & E & [[-> _] | (k & s & -> & _)])];
      rewrite E; cbn [snd calls fresh]; repeat constructor.
Qed.

(** The three handlers that keep every failure inside, on every request
    with a body and every behaviour of the upstream. *)
Lemma handlers_answer_once {rt : JsRuntime} (key : option jsstr)
    (up : UpstreamCall -> AxiosReply) (req : Request) :
  nullish (req_body req) = false ->
  answered_once (ServerJs.recommendations key up req)
  /\ answered_once (Part000.recommendations key up req)
  /\ answered_once (Part000.chat key up req).
Proof.
  intros Hb. unfold answered_once, returns, responses. split; [|split].
  - destruct (server_recommendations_runs key up req)
      as [[Hn _] | (cs & r & l & E & Hr)]; [congruence|].
    rewrite E. split; [reflexivity|]. exists r. split; [reflexivity|].
    destruct Hr as [[_ [-> | ->]] | (k & s & _ & ->)].
    + right. simpl. auto.
    + right. simpl. auto.
    + destruct (server_answer_cases (up (ServerJsRuns.call_for k s)))
        as [-> | H]; [right; simpl; auto 10 | left; exact H].
  - destruct (part_recommendations_runs key up req)
      as [[Hn _] | (cs & r & l & E & Hr)]; [congruence|].
    rewrite E. split; [reflexivity|]. exists r. split; [reflexivity|].
    destruct Hr as [[_ [-> | ->]] | (k & s & _ & ->)].
    + right. simpl. auto.
    + right. simpl. auto.
    + destruct (part_answer_shape (up (Part000Runs.call_for k s)))
        as [-> | [H _]]; [right; simpl; auto 10 | left; exact H].
  - destruct (part_chat_runs key up req)
      as [[Hn _] | (cs & r & l & E & Hr)]; [congruence|].
    rewrite E. split; [reflexivity|]. exists r. split; [reflexivity|].
    destruct Hr as [[_ [-> | ->]] | (k & s & _ & ->)].
    + right. simpl. auto.
    + right. simpl. auto.
    + destruct (part_chat_answer_cases (up (Part000Runs.chat_call k s)))
        as [-> | H]; [right; simpl; auto 10 | left; exact H].
Qed.

Lemma server_chat_answer_cases {rt : JsRuntime} (reply : AxiosReply) :
  ServerJsRuns.chat_answer reply = ServerJsRuns.chat_failure
  \/ status (ServerJsRuns.chat_answer reply) = 200%Z.
Proof.
  unfold ServerJsRuns.chat_answer. destruct reply as [data|f]; [|left; reflexivity].
  destruct (strict_text data); [right|left]; reflexivity.
Qed.

(** The chat handler of server.js keeps every failure inside when
    [history] is missing or [history.map] does not throw. *)
Lemma server_chat_answers_once {rt : JsRuntime} (key : option jsstr)
    (up : UpstreamCall -> AxiosReply) (req : Request) :
  nullish (req_body req) = false ->
  truthy (member (req_body req) (lit "history")) = false
  \/ (exists turns,
        call_map (member (req_body req) (lit "history")) ServerJs.turn_of
        = Ok turns) ->
  answered_once (ServerJs.chat key up req).
Proof.
  intros Hb Hh. unfold answered_once, returns, responses.
  destruct (truthy (env_value key)) eqn:Hkey.
  - apply truthy_env_key in Hkey as (k & Hkey & Hk).
    destruct (truthy (member (req_body req) (lit "history"))) eqn:Ht.
    + destruct Hh as [Hh | [turns Hm]]; [discriminate|].
      destruct (ServerJsFacts.server_chat_forwarded key up req k turns
                  Hb Hkey Hk Ht Hm) as [l E].
      rewrite E. split; [reflexivity|]. eexists. split; [reflexivity|].
      destruct (server_chat_answer_cases (up (ServerJsRuns.chat_call k turns)))
        as [-> | H]; [right; simpl; auto 10 | left; exact H].
    + rewrite (ServerJsFacts.server_chat_no_history key up req k Hb Hkey Hk Ht).
      split; [reflexivity|]. eexists. split; [reflexivity|].
      right. simpl. auto.
  - rewrite (ServerJsFacts.server_chat_no_key key up req Hb Hkey).
    split; [reflexivity|]. eexists. split; [reflexivity|].
    right. simpl. auto.
Qed.

(** C4 fails on the chat handler of src/server.js: [history.map(...)]
    (line 140) stands before the [try] block, so with a [history] that is
    truthy and not an array the [TypeError] leaves the handler, which has
    sent no response and made no call. *)
Theorem C4_chat_history_not_array {rt : JsRuntime} (key : option jsstr)
    (up : UpstreamCall -> AxiosReply) (req : Request) (k : jsstr) :
  nullish (req_body req) = false ->
  key = Some k -> k <> [] ->
  truthy (member (req_body req) (lit "history")) = true ->
  isArray (member (req_body req) (lit "history")) = false ->
  run (ServerJs.chat key up req) = (Throw TypeError, fresh).
Proof.
  intros Hb Hkey Hk Hh Ha.
  apply (ServerJsFacts.server_chat_map_throws key up req k TypeError Hb Hkey Hk Hh).
  destruct (member (req_body req) (lit "history")); try reflexivity.
  discriminate Ha.
Qed.

(** [{ history: "hello" }] *)
Lemma C4_witness :
  run (ServerJs.chat (rt := reference_runtime) (Some (lit "secret"))
         (replying (reply_with (JString (lit "Hi!"))))
         (chat_request (JString (lit "hello"))))
  = (Throw TypeError, fresh).
Proof.
  apply (@C4_chat_history_not_array reference_runtime (Some (lit "secret"))
           (replying (reply_with (JString (lit "Hi!"))))
           (chat_request (JString (lit "hello"))) (lit "secret"));
    try reflexivity; discriminate.
Defined.

(** The same with an array that holds a [null]: the callback of [map]
    reads [item.role] on it.  The handler of part_000, which passes
    [history] on as it is, answers. *)
Example chat_history_with_null :
  run (ServerJs.chat (rt := reference_runtime) (Some (lit "secret"))
         (replying (reply_with (JString (lit "Hi!"))))
         (chat_request (JArray [JNull])))
  = (Throw TypeError, fresh)
  /\ responses (Part000.chat (rt := reference_runtime) (Some (lit "secret"))
         (replying (reply_with (JString (lit "Hi!"))))
         (chat_request (JArray [JNull])))
    = [mkResponse 200 (JObject [(lit "message", JString (lit "Hi!"))])].
Proof. split; reflexivity. Qed.

(* ===================================================================== *)
(** ** Forwarding the conversation *)
(* ===================================================================== *)

Lemma same_turn_forwarded (item : JsValue) : same_turn item (forwarded_turn item).
Proof. split; reflexivity. Qed.

Lemma same_turn_refl (item : JsValue) : same_turn item item.
Proof. split; reflexivity. Qed.

Lemma is_turn_present (item : JsValue) : is_turn item = true -> nullish item = false.
Proof. destruct item; simpl; congruence. Qed.

Lemma map_turns (turns : list JsValue) :
  forallb is_turn turns = true ->
  map_result ServerJs.turn_of turns = Ok (List.map forwarded_turn turns).
Proof.
  induction turns as [|t turns IH]; [reflexivity|].
  intros H. simpl in H. apply andb_prop in H as [Ht Hts].
  cbn [map_result List.map]. rewrite (IH Hts).
  unfold ServerJs.turn_of, prop. rewrite (is_turn_present t Ht). reflexivity.
Qed.

Lemma Forall2_map_turns (turns : list JsValue) :
  Forall2 same_turn turns (List.map forwarded_turn turns).
Proof.
  induction turns; constructor; [apply same_turn_forwarded | assumption].
Qed.

Lemma Forall2_same_turns (turns : list JsValue) : Forall2 same_turn turns turns.
Proof. induction turns; constructor; [apply same_turn_refl | assumption]. Qed.

Lemma outbound_run (h : Js unit) (r : result unit)
    (c : list UpstreamCall) (s : list Response) (l : list (list LogArg)) :
  run h = (r, mkWorld c s l) -> outbound h = c.
Proof. intros H. unfold outbound. rewrite H. reflexivity. Qed.

(** C8. With the credential configured, the chat handler of both
    revisions (a) answers a request without [history] with 400 and calls
    nothing; (b) on a [history] that is an array of turns, the empty
    array included, makes one call, to the endpoint with the key and
    without timeout, whose payload is exactly [{ contents,
    systemInstruction }]: the system instruction holds the revision's
    persona text and [contents] is an array with one entry per turn, in
    order, each with the [role] and [parts] of its turn (and no entry
    for the empty history); (c) when the upstream replies with a first
    candidate text, answers with status 200 and [{ message: text }]. *)
Theorem C8_chat {rt : JsRuntime} (key : option jsstr)
    (up : UpstreamCall -> AxiosReply) (req : Request) (k : jsstr) :
  nullish (req_body req) = false ->
  key = Some k -> k <> [] ->
  let history := member (req_body req) (lit "history") in
  let sent_with (prompt : jsstr) (contents : list JsValue) (c : UpstreamCall) :=
    url c = lit endpoint ++ k
    /\ timeout c = None
    /\ payload c
       = JObject
           [ (lit "contents", JArray contents);
             (lit "systemInstruction",
               JObject [(lit "parts",
                 JArray [JObject [(lit "text", JString prompt)]])]) ] in
  (nullish history = true ->
     observe (ServerJs.chat key up req) = (Ok tt, [], [history_required])
     /\ observe (Part000.chat key up req) = (Ok tt, [], [history_required]))
  /\ (history = JArray [] ->
      (exists c,
          outbound (ServerJs.chat key up req) = [c]
          /\ sent_with ServerJs.chatPrompt [] c)
      /\ (exists c,
            outbound (Part000.chat key up req) = [c]
            /\ sent_with Part000.chatPrompt [] c))
  /\ (forall turns,
        history = JArray turns ->
        forallb is_turn turns = true ->
        (exists c contents,
            outbound (ServerJs.chat key up req) = [c]
            /\ sent_with ServerJs.chatPrompt contents c
            /\ Forall2 same_turn turns contents)
        /\ (exists c contents,
              outbound (Part000.chat key up req) = [c]
              /\ sent_with Part000.chatPrompt contents c
              /\ Forall2 same_turn turns contents)
        /\ (forall data text,
              (forall c, up c = Resolved data) ->
              first_candidate_text data = JString text ->
              let reply := mkResponse 200 (JObject [(lit "message", JString text)]) in
              (returns (ServerJs.chat key up req)
               /\ responses (ServerJs.chat key up req) = [reply])
              /\ (returns (Part000.chat key up req)
                  /\ responses (Part000.chat key up req) = [reply]))).
Proof.
  intros Hb Hkey Hk history sent_with.
  assert (Hall : forall turns,
             history = JArray turns ->
             forallb is_turn turns = true ->
             exists ls lp,
               run (ServerJs.chat key up req)
               = (Ok tt,
                  mkWorld
                    [ServerJsRuns.chat_call k (List.map forwarded_turn turns)]
                    [ServerJsRuns.chat_answer
                       (up (ServerJsRuns.chat_call k
                              (List.map forwarded_turn turns)))] ls)
               /\ run (Part000.chat key up req)
                  = (Ok tt,
                     mkWorld [Part000Runs.chat_call k (JArray turns)]
                       [Part000Runs.chat_answer
                          (up (Part000Runs.chat_call k (JArray turns)))] lp)).
  { intros turns Eh Hturns.
    assert (Hh : truthy history = true) by (rewrite Eh; reflexivity).
    assert (Hm : call_map history ServerJs.turn_of
                 = Ok (List.map forwarded_turn turns)).
    { rewrite Eh. apply map_turns, Hturns. }
    destruct (ServerJsFacts.server_chat_forwarded key up req k _ Hb Hkey Hk Hh Hm)
      as [ls Es].
    destruct (Part000Facts.part_chat_forwarded key up req k Hb Hkey Hk Hh)
      as [lp Ep].
    fold history in Ep. rewrite Eh in Ep.
    exists ls, lp. split; assumption. }
  split; [|split].
  - intros Hn.
    assert (Hh : truthy history = false) by (destruct history; auto; discriminate).
    split.
    + eapply observe_run, ServerJsFacts.server_chat_no_history; eassumption.
    + eapply observe_run, Part000Facts.part_chat_no_history; eassumption.
  - intros Eh. destruct (Hall [] Eh eq_refl) as (ls & lp & Es & Ep). split.
    + eexists. split; [exact (outbound_run _ _ _ _ _ Es)|].
      repeat split.
    + eexists. split; [exact (outbound_run _ _ _ _ _ Ep)|].
      repeat split.
  - intros turns Eh Hturns.
    destruct (Hall turns Eh Hturns) as (ls & lp & Es & Ep).
    split; [|split].
    + do 2 eexists. split; [exact (outbound_run _ _ _ _ _ Es)|].
      split; [repeat split|]. apply Forall2_map_turns.
    + do 2 eexists. split; [exact (outbound_run _ _ _ _ _ Ep)|].
      split; [repeat split|]. apply Forall2_same_turns.
    + intros data text Hup Ht reply.
      pose proof (first_strict_text data (JString text) Ht eq_refl) as Hst.
      unfold returns.
      rewrite (responses_run _ _ _ _ _ Es), (responses_run _ _ _ _ _ Ep).
      rewrite Es, Ep, !Hup.
      unfold ServerJsRuns.chat_answer, Part000Runs.chat_answer.
      rewrite Hst. repeat split.
Qed.

(** A conversation of two turns. *)
Lemma C8_witness :
  let key := Some (lit "secret") in
  let up := replying (reply_with (JString (lit "Try design."))) in
  let req :=
    chat_request (JArray [user_turn "I like drawing."; user_turn "What suits me?"]) in
  let history := member (req_body req) (lit "history") in
  let sent_with (prompt : jsstr) (contents : list JsValue) (c : UpstreamCall) :=
    url c = lit endpoint ++ lit "secret"
    /\ timeout c = None
    /\ payload c
       = JObject
           [ (lit "contents", JArray contents);
             (lit "systemInstruction",
               JObject [(lit "parts",
                 JArray [JObject [(lit "text", JString prompt)]])]) ] in
  (nullish history = true ->
     observe (ServerJs.chat (rt := reference_runtime) key up req)
       = (Ok tt, [], [history_required])
     /\ observe (Part000.chat (rt := reference_runtime) key up req)
       = (Ok tt, [], [history_required]))
  /\ (history = JArray [] ->
      (exists c,
          outbound (ServerJs.chat (rt := reference_runtime) key up req) = [c]
          /\ sent_with ServerJs.chatPrompt [] c)
      /\ (exists c,
            outbound (Part000.chat (rt := reference_runtime) key up req) = [c]
            /\ sent_with Part000.chatPrompt [] c))
  /\ (forall turns,
        history = JArray turns ->
        forallb is_turn turns = true ->
        (exists c contents,
            outbound (ServerJs.chat (rt := reference_runtime) key up req) = [c]
            /\ sent_with ServerJs.chatPrompt contents c
            /\ Forall2 same_turn turns contents)
        /\ (exists c contents,
              outbound (Part000.chat (rt := reference_runtime) key up req) = [c]
              /\ sent_with Part000.chatPrompt contents c
              /\ Forall2 same_turn turns contents)
        /\ (forall data text,
              (forall c, up c = Resolved data) ->
              first_candidate_text data = JString text ->
              let reply := mkResponse 200 (JObject [(lit "message", JString text)]) in
              (returns (ServerJs.chat (rt := reference_runtime) key up req)
               /\ responses (ServerJs.chat (rt := reference_runtime) key up req)
                  = [reply])
              /\ (returns (Part000.chat (rt := reference_runtime) key up req)
                  /\ responses (Part000.chat (rt := reference_runtime) key up req)
                     = [reply]))).
Proof.
  intros key up req.
  apply (@C8_chat reference_runtime key up req (lit "secret"));
    try reflexivity; discriminate.
Defined.

(** On [history = []] the call holds the persona instruction and no turn,
    and the reply text comes back as the message. *)
Example chat_empty_history :
  let up := replying (reply_with (JString (lit "Hello, I am Eva."))) in
  observe (ServerJs.chat (rt := reference_runtime) (Some (lit "secret")) up
             (chat_request (JArray [])))
  = (Ok tt,
     [mkCall (lit endpoint ++ lit "secret") (ServerJs.chatPayload (JArray [])) None],
     [mkResponse 200 (JObject [(lit "message", JString (lit "Hello, I am Eva."))])])
  /\ observe (Part000.chat (rt := reference_runtime) (Some (lit "secret")) up
             (chat_request (JArray [])))
  = (Ok tt,
     [mkCall (lit endpoint ++ lit "secret") (Part000.chatPayload (JArray [])) None],
     [mkResponse 200 (JObject [(lit "message", JString (lit "Hello, I am Eva."))])]).
Proof. split; reflexivity. Qed.

(* ===================================================================== *)
(** * Further properties of the handlers *)
(* ===================================================================== *)

(** ** Every run, case by case *)

Section Cases.
Context {rt : JsRuntime}.
Variable key : option jsstr.
Variable up : UpstreamCall -> AxiosReply.

(** The four ways a run of the recommendation handler of server.js goes. *)
Lemma server_recommendations_cases (req : Request) :
  let h := ServerJs.recommendations key up req in
  let interests := member (req_body req) (lit "interests") in
  (nullish (req_body req) = true /\ run h = (Throw TypeError, fresh))
  \/ (truthy (env_value key) = false
      /\ exists log, run h = (Ok tt, mkWorld [] [ServerJsRuns.config_error] log))
  \/ (exists k,
        key = Some k /\ k <> [] /\ accepted interests = false
        /\ run h = (Ok tt, mkWorld [] [interests_required] []))
  \/ (exists k s log,
        key = Some k /\ k <> [] /\ interests = JString s /\ trim s <> []
        /\ run h
           = (Ok tt,
              mkWorld [ServerJsRuns.call_for k s]
                [ServerJsRuns.answer (up (ServerJsRuns.call_for k s))] log)).
Proof.
  intros h interests. subst h interests.
  destruct (nullish (req_body req)) eqn:Hb.
  { left. split; [reflexivity|]. unfold run, ServerJs.recommendations.
    rewrite bind_lift. unfold prop. rewrite Hb. reflexivity. }
  right. destruct (truthy (env_value key)) eqn:Hkey.
  - right. apply truthy_env_key in Hkey as (k & Hkey & Hk).
    destruct (accepted (member (req_body req) (lit "interests"))) eqn:Ha.
    + right. apply accepted_is_string in Ha as (s & Hi & Hs).
      destruct (ServerJsFacts.server_recommendations_accepted key up req k s
                  Hb Hkey Hk Hi Hs) as [l E].
      exists k, s, l. repeat split; assumption.
    + left. exists k. repeat split; try assumption.
      apply (ServerJsFacts.server_recommendations_rejected
               key up req k Hb Hkey Hk Ha).
  - left. split; [reflexivity|].
    apply (ServerJsFacts.server_recommendations_no_key key up req Hb Hkey).
Qed.

Lemma part_recommendations_cases (req : Request) :
  let h := Part000.recommendations key up req in
  let interests := member (req_body req) (lit "interests") in
  (nullish (req_body req) = true /\ run h = (Throw TypeError, fresh))
  \/ (truthy (env_value key) = false
      /\ exists log, run h = (Ok tt, mkWorld [] [Part000Runs.config_error] log))
  \/ (exists k,
        key = Some k /\ k <> [] /\ accepted interests = false
        /\ run h = (Ok tt, mkWorld [] [interests_required] []))
  \/ (exists k s log,
        key = Some k /\ k <> [] /\ interests = JString s /\ trim s <> []
        /\ run h
           = (Ok tt,
              mkWorld [Part000Runs.call_for k s]
                [Part000Runs.answer (up (Part000Runs.call_for k s))] log)).
Proof.
  intros h interests. subst h interests.
  destruct (nullish (req_body req)) eqn:Hb.
  { left. split; [reflexivity|]. unfold run, Part000.recommendations.
    rewrite bind_lift. unfold prop. rewrite Hb. reflexivity. }
  right. destruct (truthy (env_value key)) eqn:Hkey.
  - right. apply truthy_env_key in Hkey as (k & Hkey & Hk).
    destruct (accepted (member (req_body req) (lit "interests"))) eqn:Ha.
    + right. apply accepted_is_string in Ha as (s & Hi & Hs).
      destruct (Part000Facts.part_recommendations_accepted key up req k s
                  Hb Hkey Hk Hi Hs) as [l E].
      exists k, s, l. repeat split; assumption.
    + left. exists k. repeat split; try assumption.
      apply (Part000Facts.part_recommendations_rejected
               key up req k Hb Hkey Hk Ha).
  - left. split; [reflexivity|].
    apply (Part000Facts.part_recommendations_no_key key up req Hb Hkey).
Qed.

(** The ways a run of the chat handler of part_000 goes. *)
Lemma part_chat_cases (req : Request) :
  let h := Part000.chat key up req in
  let history := member (req_body req) (lit "history") in
  (nullish (req_body req) = true /\ run h = (Throw TypeError, fresh))
  \/ (truthy (env_value key) = false
      /\ run h = (Ok tt, mkWorld [] [Part000Runs.chat_config_error] []))
  \/ (exists k,
        key = Some k /\ k <> [] /\ truthy history = false
        /\ run h = (Ok tt, mkWorld [] [history_required] []))
  \/ (exists k log,
        key = Some k /\ k <> [] /\ truthy history = true
        /\ run h
           = (Ok tt,
              mkWorld [Part000Runs.chat_call k history]
                [Part000Runs.chat_answer (up (Part000Runs.chat_call k history))]
                log)).
Proof.
  intros h history. subst h history.
  destruct (nullish (req_body req)) eqn:Hb.
  { left. split; [reflexivity|]. unfold run, Part000.chat.
    rewrite bind_lift. unfold prop. rewrite Hb. reflexivity. }
  right. destruct (truthy (env_value key)) eqn:Hkey.
  - right. apply truthy_env_key in Hkey as (k & Hkey & Hk).
    destruct (truthy (member (req_body req) (lit "history"))) eqn:Hh.
    + right.
      destruct (Part000Facts.part_chat_forwarded key up req k Hb Hkey Hk Hh)
        as [l E].
      exists k, l. repeat split; assumption.
    + left. exists k. repeat split; try assumption.
      apply (Part000Facts.part_chat_no_history key up req k Hb Hkey Hk Hh).
  - left. split; [reflexivity|].
    apply (Part000Facts.part_chat_no_key key up req Hb Hkey).
Qed.

End Cases.

(** [history.map] on the entries of an array: it throws at the first
    [undefined] or [null] entry and maps every other entry. *)
Lemma map_turn_of (items : list JsValue) :
  map_result ServerJs.turn_of items
  = if existsb nullish items then Throw TypeError
    else Ok (List.map forwarded_turn items).
Proof.
  induction items as [|x items IH]; [reflexivity|].
  cbn [map_result existsb List.map]. rewrite IH.
  unfold ServerJs.turn_of, prop.
  destruct (nullish x); cbn [rbind orb]; [reflexivity|].
  destruct (existsb nullish items); reflexivity.
Qed.

Lemma call_map_turn_of (history : JsValue) :
  call_map history ServerJs.turn_of
  = if unmappable history then Throw TypeError
    else match history with
         | JArray items => Ok (List.map forwarded_turn items)
         | _ => Throw TypeError
         end.
Proof.
  destruct history; try reflexivity.
  cbn [call_map unmappable]. rewrite map_turn_of.
  destruct (existsb nullish items); reflexivity.
Qed.

Lemma unmappable_array (history : JsValue) :
  unmappable history = false ->
  exists items, history = JArray items /\ existsb nullish items = false.
Proof.
  destruct history; try discriminate. intros H. eexists. split; [reflexivity|].
  exact H.
Qed.

Section ChatCases.
Context {rt : JsRuntime}.
Variable key : option jsstr.
Variable up : UpstreamCall -> AxiosReply.

(** The ways a run of the chat handler of server.js goes. *)
Lemma server_chat_cases (req : Request) :
  let h := ServerJs.chat key up req in
  let history := member (req_body req) (lit "history") in
  (nullish (req_body req) = true /\ run h = (Throw TypeError, fresh))
  \/ (truthy (env_value key) = false
      /\ run h = (Ok tt, mkWorld [] [ServerJsRuns.chat_config_error] []))
  \/ (exists k,
        key = Some k /\ k <> [] /\ truthy history = false
        /\ run h = (Ok tt, mkWorld [] [history_required] []))
  \/ (exists k,
        key = Some k /\ k <> [] /\ truthy history = true
        /\ unmappable history = true
        /\ run h = (Throw TypeError, fresh))
  \/ (exists k items log,
        key = Some k /\ k <> [] /\ history = JArray items
        /\ existsb nullish items = false
        /\ run h
           = (Ok tt,
              mkWorld
                [ServerJsRuns.chat_call k (List.map forwarded_turn items)]
                [ServerJsRuns.chat_answer
                   (up (ServerJsRuns.chat_call k (List.map forwarded_turn items)))]
                log)).
Proof.
  intros h history. subst h history.
  destruct (nullish (req_body req)) eqn:Hb.
  { left. split; [reflexivity|]. unfold run, ServerJs.chat.
    rewrite bind_lift. unfold prop. rewrite Hb. reflexivity. }
  right. destruct (truthy (env_value key)) eqn:Hkey.
  - right. apply truthy_env_key in Hkey as (k & Hkey & Hk).
    destruct (truthy (member (req_body req) (lit "history"))) eqn:Hh.
    + right.
      pose proof (call_map_turn_of (member (req_body req) (lit "history")))
        as Hm.
      destruct (unmappable (member (req_body req) (lit "history"))) eqn:Hu.
      * left. exists k. repeat split; try assumption.
        apply (ServerJsFacts.server_chat_map_throws
                 key up req k TypeError Hb Hkey Hk Hh Hm).
      * right. destruct (unmappable_array _ Hu) as (items & Ei & Hn).
        rewrite Ei in Hm at 2.
        destruct (ServerJsFacts.server_chat_forwarded key up req k _
                    Hb Hkey Hk Hh Hm) as [l E].
        exists k, items, l. repeat split; assumption.
    + left. exists k. repeat split; try assumption.
      apply (ServerJsFacts.server_chat_no_history key up req k Hb Hkey Hk Hh).
  - left. split; [reflexivity|].
    apply (ServerJsFacts.server_chat_no_key key up req Hb Hkey).
Qed.

End ChatCases.

Lemma single_shot_thrown (h : Js unit) :
  run h = (Throw TypeError, fresh) -> single_shot h.
Proof.
  intros E. unfold single_shot, outbound. rewrite E. split; [simpl; lia|].
  right. reflexivity.
Qed.

Lemma single_shot_answered (h : Js unit) (cs : list UpstreamCall)
    (r : Response) (l : list (list LogArg)) :
  List.length cs <= 1 -> run h = (Ok tt, mkWorld cs [r] l) -> single_shot h.
Proof.
  intros Hc E. unfold single_shot, outbound, returns, responses. rewrite E.
  split; [exact Hc|]. left. split; reflexivity.
Qed.

(** X1. No handler retries or answers twice: every run of each of the
    four handlers, on every request and every behaviour of the upstream,
    calls the upstream at most once, and either returns with exactly one
    response sent or throws a [TypeError] before it has called or sent
    anything. *)
Theorem X1_single_call_single_response {rt : JsRuntime} (key : option jsstr)
    (up : UpstreamCall -> AxiosReply) (req : Request) :
  single_shot (ServerJs.recommendations key up req)
  /\ single_shot (ServerJs.chat key up req)
  /\ single_shot (Part000.recommendations key up req)
  /\ single_shot (Part000.chat key up req).
Proof.
  split; [|split; [|split]].
  - destruct (server_recommendations_cases key up req)
      as [[_ E] | [[_ [l E]] | [(k & _ & _ & _ & E)
         | (k & s & l & _ & _ & _ & _ & E)]]];
      [ apply single_shot_thrown, E
      | eapply single_shot_answered; [|exact E]; simpl; lia .. ].
  - destruct (server_chat_cases key up req)
      as [[_ E] | [[_ E] | [(k & _ & _ & _ & E) | [(k & _ & _ & _ & _ & E)
         | (k & items & l & _ & _ & _ & _ & E)]]]];
      [ apply single_shot_thrown, E
      | eapply single_shot_answered; [|exact E]; simpl; lia
      | eapply single_shot_answered; [|exact E]; simpl; lia
      | apply single_shot_thrown, E
      | eapply single_shot_answered; [|exact E]; simpl; lia ].
  - destruct (part_recommendations_cases key up req)
      as [[_ E] | [[_ [l E]] | [(k & _ & _ & _ & E)
         | (k & s & l & _ & _ & _ & _ & E)]]];
      [ apply single_shot_thrown, E
      | eapply single_shot_answered; [|exact E]; simpl; lia .. ].
  - destruct (part_chat_cases key up req)
      as [[_ E] | [[_ E] | [(k & _ & _ & _ & E)
         | (k & l & _ & _ & _ & E)]]];
      [ apply single_shot_thrown, E
      | eapply single_shot_answered; [|exact E]; simpl; lia .. ].
Qed.

Lemma plain_fixed (r : Response) : In r fixed_errors -> plain_response r.
Proof. intros H. right. exact H. Qed.

Lemma plain_responses_run (h : Js unit) (res : result unit)
    (cs : list UpstreamCall) (r : Response) (l : list (list LogArg)) :
  run h = (res, mkWorld cs [r] l) -> plain_response r ->
  Forall plain_response (responses h).
Proof.
  intros E Hr. rewrite (responses_run h res cs [r] l E).
  constructor; [exact Hr | constructor].
Qed.

Lemma plain_responses_thrown (h : Js unit) (e : JsError) :
  run h = (Throw e, fresh) -> Forall plain_response (responses h).
Proof. intros E. unfold responses. rewrite E. constructor. Qed.

(** X2. Whatever the request, the upstream's behaviour or the error, a
    response of any of the four handlers is a 200 or one of seven fixed
    responses (status 400 or 500 with a constant [{ error }] text): no
    text of the upstream's reply, of the request or of the exception
    reaches an error body. *)
Theorem X2_error_bodies_are_fixed {rt : JsRuntime} (key : option jsstr)
    (up : UpstreamCall -> AxiosReply) (req : Request) :
  Forall plain_response (responses (ServerJs.recommendations key up req))
  /\ Forall plain_response (responses (ServerJs.chat key up req))
  /\ Forall plain_response (responses (Part000.recommendations key up req))
  /\ Forall plain_response (responses (Part000.chat key up req)).
Proof.
  split; [|split; [|split]].
  - destruct (server_recommendations_cases key up req)
      as [[_ E] | [[_ [l E]] | [(k & _ & _ & _ & E)
         | (k & s & l & _ & _ & _ & _ & E)]]].
    + eapply plain_responses_thrown, E.
    + eapply plain_responses_run; [exact E|]. apply plain_fixed. simpl. auto.
    + eapply plain_responses_run; [exact E|]. apply plain_fixed. simpl. auto.
    + eapply plain_responses_run; [exact E|].
      destruct (server_answer_cases (up (ServerJsRuns.call_for k s)))
        as [-> | H]; [apply plain_fixed; simpl; auto 10 | left; exact H].
  - destruct (server_chat_cases key up req)
      as [[_ E] | [[_ E] | [(k & _ & _ & _ & E) | [(k & _ & _ & _ & _ & E)
         | (k & items & l & _ & _ & _ & _ & E)]]]].
    + eapply plain_responses_thrown, E.
    + eapply plain_responses_run; [exact E|]. apply plain_fixed. simpl. auto.
    + eapply plain_responses_run; [exact E|]. apply plain_fixed. simpl. auto.
    + eapply plain_responses_thrown, E.
    + eapply plain_responses_run; [exact E|].
      match goal with
      | |- plain_response (ServerJsRuns.chat_answer ?reply) =>
          destruct (server_chat_answer_cases reply) as [-> | H]
      end; [apply plain_fixed; simpl; auto 10 | left; exact H].
  - destruct (part_recommendations_cases key up req)
      as [[_ E] | [[_ [l E]] | [(k & _ & _ & _ & E)
         | (k & s & l & _ & _ & _ & _ & E)]]].
    + eapply plain_responses_thrown, E.
    + eapply plain_responses_run; [exact E|]. apply plain_fixed. simpl. auto.
    + eapply plain_responses_run; [exact E|]. apply plain_fixed. simpl. auto.
    + eapply plain_responses_run; [exact E|].
      destruct (part_answer_shape (up (Part000Runs.call_for k s)))
        as [-> | [H _]]; [apply plain_fixed; simpl; auto 10 | left; exact H].
  - destruct (part_chat_cases key up req)
      as [[_ E] | [[_ E] | [(k & _ & _ & _ & E)
         | (k & l & _ & _ & _ & E)]]].
    + eapply plain_responses_thrown, E.
    + eapply plain_responses_run; [exact E|]. apply plain_fixed. simpl. auto.
    + eapply plain_responses_run; [exact E|]. apply plain_fixed. simpl. auto.
    + eapply plain_responses_run; [exact E|].
      match goal with
      | |- plain_response (Part000Runs.chat_answer ?reply) =>
          destruct (part_chat_answer_cases reply) as [-> | H]
      end; [apply plain_fixed; simpl; auto 10 | left; exact H].
Qed.

Lemma outbound_nil (h : Js unit) (res : result unit)
    (s : list Response) (l : list (list LogArg)) (P : UpstreamCall -> Prop) :
  run h = (res, mkWorld [] s l) -> Forall P (outbound h).
Proof. intros E. rewrite (outbound_run h res [] s l E). constructor. Qed.

Lemma outbound_one (h : Js unit) (res : result unit) (c : UpstreamCall)
    (s : list Response) (l : list (list LogArg)) (P : UpstreamCall -> Prop) :
  run h = (res, mkWorld [c] s l) -> P c -> Forall P (outbound h).
Proof.
  intros E Hc. rewrite (outbound_run h res [c] s l E).
  constructor; [exact Hc | constructor].
Qed.

(** X3. A handler calls the upstream only with the credential
    configured, and only at the one endpoint: the URL of every call, of
    each of the four handlers, is the fixed [generateContent] address
    followed by the (non-empty) value of [GEMINI_API_KEY]. *)
Theorem X3_calls_carry_the_key {rt : JsRuntime} (key : option jsstr)
    (up : UpstreamCall -> AxiosReply) (req : Request) :
  let keyed (c : UpstreamCall) :=
    exists k, key = Some k /\ k <> [] /\ url c = lit endpoint ++ k in
  Forall keyed (outbound (ServerJs.recommendations key up req))
  /\ Forall keyed (outbound (ServerJs.chat key up req))
  /\ Forall keyed (outbound (Part000.recommendations key up req))
  /\ Forall keyed (outbound (Part000.chat key up req)).
Proof.
  intros keyed. split; [|split; [|split]].
  - destruct (server_recommendations_cases key up req)
      as [[_ E] | [[_ [l E]] | [(k & _ & _ & _ & E)
         | (k & s & l & Hkey & Hk & _ & _ & E)]]];
      try (eapply outbound_nil, E).
    eapply outbound_one; [exact E|]. exists k. repeat split; assumption.
  - destruct (server_chat_cases key up req)
      as [[_ E] | [[_ E] | [(k & _ & _ & _ & E) | [(k & _ & _ & _ & _ & E)
         | (k & items & l & Hkey & Hk & _ & _ & E)]]]];
      try (eapply outbound_nil, E).
    eapply outbound_one; [exact E|]. exists k. repeat split; assumption.
  - destruct (part_recommendations_cases key up req)
      as [[_ E] | [[_ [l E]] | [(k & _ & _ & _ & E)
         | (k & s & l & Hkey & Hk & _ & _ & E)]]];
      try (eapply outbound_nil, E).
    eapply outbound_one; [exact E|]. exists k. repeat split; assumption.
  - destruct (part_chat_cases key up req)
      as [[_ E] | [[_ E] | [(k & _ & _ & _ & E)
         | (k & l & Hkey & Hk & _ & E)]]];
      try (eapply outbound_nil, E).
    eapply outbound_one; [exact E|]. exists k. repeat split; assumption.
Qed.

(** ** The test on [interests] *)

Lemma trim_end_blank (s : jsstr) :
  existsb (fun c => negb (is_js_space c)) s = false -> trim_end s = [].
Proof.
  induction s as [|c s IH]; [reflexivity|].
  simpl. intros H. apply orb_false_elim in H as [Hc Hs].
  rewrite (IH Hs). apply negb_false_iff in Hc. rewrite Hc. reflexivity.
Qed.

Lemma trim_end_keeps_visible (s : jsstr) :
  existsb (fun c => negb (is_js_space c)) s = true ->
  existsb (fun c => negb (is_js_space c)) (trim_end s) = true.
Proof.
  induction s as [|c s IH]; [discriminate|].
  intros H. cbn [trim_end].
  destruct (existsb (fun c => negb (is_js_space c)) s) eqn:Hs.
  - specialize (IH eq_refl).
    destruct (trim_end s) as [|x r]; [discriminate IH|].
    cbn [existsb]. cbn [existsb] in IH. rewrite IH. apply orb_true_r.
  - rewrite (trim_end_blank s Hs).
    simpl in H. rewrite Hs, orb_false_r in H.
    apply negb_true_iff in H. rewrite H. simpl. rewrite H. reflexivity.
Qed.

Lemma trim_start_keeps_visible (s : jsstr) :
  existsb (fun c => negb (is_js_space c)) s = true -> trim_start s <> [].
Proof.
  induction s as [|c s IH]; [discriminate|].
  intros H. simpl. destruct (is_js_space c) eqn:Hc; [|discriminate].
  apply IH. simpl in H. rewrite Hc in H. exact H.
Qed.

(** The test lets through the strings with a code unit that [trim] does
    not strip, and nothing else. *)
Lemma accepted_visible (v : JsValue) : accepted v = visible v.
Proof.
  destruct v as [| |b|x|s|l|f]; try reflexivity.
  cbn [accepted visible].
  destruct (existsb (fun c => negb (is_js_space c)) s) eqn:H.
  - apply negb_true_iff, jsstr_nonempty.
    apply trim_start_keeps_visible, trim_end_keeps_visible, H.
  - unfold trim. rewrite (trim_end_blank s H). reflexivity.
Qed.

(** X4. With the credential configured, the recommendation handler of
    either revision calls the upstream exactly when [interests] is a
    string that holds a code unit other than white space (as
    [String.prototype.trim] counts it: tabs, line breaks, no-break and
    other Unicode spaces included); in every other case it answers 400
    and calls nothing. *)
Theorem X4_call_iff_visible_interests {rt : JsRuntime} (key : option jsstr)
    (up : UpstreamCall -> AxiosReply) (req : Request) (k : jsstr) :
  nullish (req_body req) = false ->
  key = Some k -> k <> [] ->
  let interests := member (req_body req) (lit "interests") in
  (visible interests = true ->
     List.length (outbound (ServerJs.recommendations key up req)) = 1
     /\ List.length (outbound (Part000.recommendations key up req)) = 1)
  /\ (visible interests = false ->
      observe (ServerJs.recommendations key up req)
        = (Ok tt, [], [interests_required])
      /\ observe (Part000.recommendations key up req)
        = (Ok tt, [], [interests_required])).
Proof.
  intros Hb Hkey Hk interests. subst interests. split; intros Hv.
  - rewrite <- accepted_visible in Hv.
    apply accepted_is_string in Hv as (s & Hi & Hs).
    destruct (ServerJsFacts.server_recommendations_accepted key up req k s
                Hb Hkey Hk Hi Hs) as [l E].
    destruct (Part000Facts.part_recommendations_accepted key up req k s
                Hb Hkey Hk Hi Hs) as [l' E'].
    rewrite (outbound_run _ _ _ _ _ E), (outbound_run _ _ _ _ _ E').
    split; reflexivity.
  - rewrite <- accepted_visible in Hv. split.
    + eapply observe_run, ServerJsFacts.server_recommendations_rejected;
        eassumption.
    + eapply observe_run, Part000Facts.part_recommendations_rejected;
        eassumption.
Qed.

(** Interests between a no-break space (U+00A0) and an ideographic space
    (U+3000). *)
Lemma X4_witness :
  let key := Some (lit "secret") in
  let up := replying JNull in
  let req := interest_request (JString (160%N :: lit "go" ++ [12288%N])) in
  let interests := member (req_body req) (lit "interests") in
  (visible interests = true ->
     List.length (outbound (ServerJs.recommendations (rt := reference_runtime)
                              key up req)) = 1
     /\ List.length (outbound (Part000.recommendations (rt := reference_runtime)
                                 key up req)) = 1)
  /\ (visible interests = false ->
      observe (ServerJs.recommendations (rt := reference_runtime) key up req)
        = (Ok tt, [], [interests_required])
      /\ observe (Part000.recommendations (rt := reference_runtime) key up req)
        = (Ok tt, [], [interests_required])).
Proof.
  intros key up req.
  apply (@X4_call_iff_visible_interests reference_runtime key up req
           (lit "secret"));
    try reflexivity; discriminate.
Defined.

(** ** What is sent to the upstream *)

(** X5. The recommendation handler sends the interests as the caller
    wrote them: for an accepted request the one call's payload has, as
    its only user part, the prefix ["User interests: "] (src/server.js;
    ["User's interests: "] in src/unnamed/part_000) followed by the
    [interests] string unchanged, the white space around it included
    (the handler trims only to test for emptiness); its system
    instruction is the revision's instruction block and it asks for
    [application/json]. *)
Theorem X5_interests_sent_verbatim {rt : JsRuntime} (key : option jsstr)
    (up : UpstreamCall -> AxiosReply) (req : Request) (k s : jsstr) :
  nullish (req_body req) = false ->
  key = Some k -> k <> [] ->
  member (req_body req) (lit "interests") = JString s ->
  trim s <> [] ->
  let mime (p : JsValue) :=
    member (member p (lit "generationConfig")) (lit "responseMimeType") in
  (exists c,
      outbound (ServerJs.recommendations key up req) = [c]
      /\ user_text (payload c) = JString (lit "User interests: " ++ s)
      /\ instruction_text (payload c) = JString ServerJs.recommendationPrompt
      /\ mime (payload c) = JString (lit "application/json"))
  /\ (exists c,
        outbound (Part000.recommendations key up req) = [c]
        /\ user_text (payload c) = JString (lit "User's interests: " ++ s)
        /\ instruction_text (payload c) = JString Part000.recommendationPrompt
        /\ mime (payload c) = JString (lit "application/json")).
Proof.
  intros Hb Hkey Hk Hi Hs mime.
  destruct (ServerJsFacts.server_recommendations_accepted key up req k s
              Hb Hkey Hk Hi Hs) as [l E].
  destruct (Part000Facts.part_recommendations_accepted key up req k s
              Hb Hkey Hk Hi Hs) as [l' E'].
  split.
  - eexists. split; [exact (outbound_run _ _ _ _ _ E)|].
    repeat split; reflexivity.
  - eexists. split; [exact (outbound_run _ _ _ _ _ E')|].
    repeat split; reflexivity.
Qed.

Lemma X5_witness :
  let key := Some (lit "secret") in
  let up := replying JNull in
  let s := lit "  chess and maths " in
  let req := interest_request (JString s) in
  let mime (p : JsValue) :=
    member (member p (lit "generationConfig")) (lit "responseMimeType") in
  (exists c,
      outbound (ServerJs.recommendations (rt := reference_runtime) key up req)
      = [c]
      /\ user_text (payload c) = JString (lit "User interests: " ++ s)
      /\ instruction_text (payload c) = JString ServerJs.recommendationPrompt
      /\ mime (payload c) = JString (lit "application/json"))
  /\ (exists c,
        outbound (Part000.recommendations (rt := reference_runtime) key up req)
        = [c]
        /\ user_text (payload c) = JString (lit "User's interests: " ++ s)
        /\ instruction_text (payload c) = JString Part000.recommendationPrompt
        /\ mime (payload c) = JString (lit "application/json")).
Proof.
  intros key up s req.
  apply (@X5_interests_sent_verbatim reference_runtime key up req
           (lit "secret") s);
    try reflexivity; discriminate.
Defined.

Lemma forwarded_turn_members (item : JsValue) (n : jsstr) :
  n <> lit "role" -> n <> lit "parts" ->
  member (forwarded_turn item) n = JUndefined.
Proof.
  intros Hr Hp. unfold forwarded_turn. cbn [member own].
  destruct (jsstr_eqb (lit "role") n) eqn:E1.
  { apply jsstr_eqb_eq in E1. congruence. }
  destruct (jsstr_eqb (lit "parts") n) eqn:E2.
  { apply jsstr_eqb_eq in E2. congruence. }
  reflexivity.
Qed.

(** X6. The chat handler of src/server.js forwards of each turn its
    [role] and [parts] and nothing else: for a [history] array without
    [undefined] or [null] entries it makes one call, to the endpoint
    with the key and without timeout, whose payload is exactly
    [{ contents, systemInstruction }] with the persona text as the
    system instruction; [contents] has one entry per turn, in order,
    with the turn's [role] and [parts], and every other property of an
    entry is [undefined] (whatever else the caller put into a turn is
    dropped). *)
Theorem X6_server_chat_forwards_role_and_parts {rt : JsRuntime}
    (key : option jsstr) (up : UpstreamCall -> AxiosReply) (req : Request)
    (k : jsstr) (items : list JsValue) :
  nullish (req_body req) = false ->
  key = Some k -> k <> [] ->
  member (req_body req) (lit "history") = JArray items ->
  existsb nullish items = false ->
  exists c contents,
    outbound (ServerJs.chat key up req) = [c]
    /\ url c = lit endpoint ++ k
    /\ timeout c = None
    /\ payload c
       = JObject
           [ (lit "contents", JArray contents);
             (lit "systemInstruction",
               JObject [(lit "parts",
                 JArray [JObject [(lit "text", JString ServerJs.chatPrompt)]])]) ]
    /\ List.length contents = List.length items
    /\ Forall2 same_turn items contents
    /\ Forall
         (fun entry =>
            forall n, n <> lit "role" -> n <> lit "parts" ->
                      member entry n = JUndefined)
         contents.
Proof.
  intros Hb Hkey Hk Hh Hn.
  assert (Ht : truthy (member (req_body req) (lit "history")) = true)
    by (rewrite Hh; reflexivity).
  assert (Hm : call_map (member (req_body req) (lit "history")) ServerJs.turn_of
               = Ok (List.map forwarded_turn items)).
  { rewrite Hh. cbn [call_map]. rewrite map_turn_of, Hn. reflexivity. }
  destruct (ServerJsFacts.server_chat_forwarded key up req k _ Hb Hkey Hk Ht Hm)
    as [l E].
  exists (ServerJsRuns.chat_call k (List.map forwarded_turn items)).
  exists (List.map forwarded_turn items).
  split; [exact (outbound_run _ _ _ _ _ E)|].
  split; [reflexivity|]. split; [reflexivity|]. split; [reflexivity|].
  split; [apply List.length_map|]. split.
  - apply Forall2_map_turns.
  - apply Forall_forall. intros entry Hin.
    apply in_map_iff in Hin as (item & <- & _).
    apply forwarded_turn_members.
Qed.

(** A turn with a property [id] besides [role] and [parts], and a turn
    that is a number. *)
Lemma X6_witness :
  let key := Some (lit "secret") in
  let up := replying JNull in
  let items :=
    [ JObject [ (lit "id", JString (lit "t1"));
                (lit "role", JString (lit "user"));
                (lit "parts", JArray [JObject [(lit "text", JString (lit "Hi"))]]) ];
      JNumber (Reference.number_of_Z false 7) ] in
  let req := chat_request (JArray items) in
  exists c contents,
    outbound (ServerJs.chat (rt := reference_runtime) key up req) = [c]
    /\ url c = lit endpoint ++ lit "secret"
    /\ timeout c = None
    /\ payload c
       = JObject
           [ (lit "contents", JArray contents);
             (lit "systemInstruction",
               JObject [(lit "parts",
                 JArray [JObject [(lit "text", JString ServerJs.chatPrompt)]])]) ]
    /\ List.length contents = List.length items
    /\ Forall2 same_turn items contents
    /\ Forall
         (fun entry =>
            forall n, n <> lit "role" -> n <> lit "parts" ->
                      member entry n = JUndefined)
         contents.
Proof.
  intros key up items req.
  apply (@X6_server_chat_forwards_role_and_parts reference_runtime key up req
           (lit "secret") items);
    try reflexivity; discriminate.
Defined.

(** X7. The chat handler of src/unnamed/part_000 does not look at what
    [history] is: any truthy value (an array, but also a string, a number
    or an object) is sent on as the [contents] of the one call, next to
    the persona instruction, and the handler returns with one response
    sent. *)
Theorem X7_part_chat_forwards_any_history {rt : JsRuntime}
    (key : option jsstr) (up : UpstreamCall -> AxiosReply) (req : Request)
    (k : jsstr) :
  nullish (req_body req) = false ->
  key = Some k -> k <> [] ->
  truthy (member (req_body req) (lit "history")) = true ->
  returns (Part000.chat key up req)
  /\ List.length (responses (Part000.chat key up req)) = 1
  /\ exists c,
      outbound (Part000.chat key up req) = [c]
      /\ member (payload c) (lit "contents")
         = member (req_body req) (lit "history")
      /\ instruction_text (payload c) = JString Part000.chatPrompt.
Proof.
  intros Hb Hkey Hk Hh.
  destruct (Part000Facts.part_chat_forwarded key up req k Hb Hkey Hk Hh)
    as [l E].
  unfold returns. rewrite (responses_run _ _ _ _ _ E), (outbound_run _ _ _ _ _ E), E.
  repeat split. eexists. repeat split.
Qed.

(** [{ history: "hello" }] *)
Lemma X7_witness :
  let key := Some (lit "secret") in
  let up := replying (reply_with (JString (lit "Hi!"))) in
  let req := chat_request (JString (lit "hello")) in
  returns (Part000.chat (rt := reference_runtime) key up req)
  /\ List.length (responses (Part000.chat (rt := reference_runtime) key up req)) = 1
  /\ exists c,
      outbound (Part000.chat (rt := reference_runtime) key up req) = [c]
      /\ member (payload c) (lit "contents")
         = member (req_body req) (lit "history")
      /\ instruction_text (payload c) = JString Part000.chatPrompt.
Proof.
  intros key up req.
  apply (@X7_part_chat_forwards_any_history reference_runtime key up req
           (lit "secret"));
    try reflexivity; discriminate.
Defined.

(** ** When the chat handler of server.js throws *)

(** X8. With the credential configured and a truthy [history], the chat
    handler of src/server.js throws past its boundary exactly when
    [history] is not an array or is an array that holds an [undefined]
    or [null] entry; it then throws a [TypeError] before calling or
    sending anything.  With any other [history] it returns normally with
    one response sent, a success or one of the fixed failures. *)
Theorem X8_server_chat_throws_iff {rt : JsRuntime} (key : option jsstr)
    (up : UpstreamCall -> AxiosReply) (req : Request) (k : jsstr) :
  nullish (req_body req) = false ->
  key = Some k -> k <> [] ->
  truthy (member (req_body req) (lit "history")) = true ->
  let history := member (req_body req) (lit "history") in
  (run (ServerJs.chat key up req) = (Throw TypeError, fresh)
   <-> unmappable history = true)
  /\ (unmappable history = false -> answered_once (ServerJs.chat key up req)).
Proof.
  intros Hb Hkey Hk Hh history. subst history.
  pose proof (call_map_turn_of (member (req_body req) (lit "history"))) as Hm.
  destruct (unmappable (member (req_body req) (lit "history"))) eqn:Hu.
  - split; [|discriminate]. split; [reflexivity|]. intros _.
    apply (ServerJsFacts.server_chat_map_throws
             key up req k TypeError Hb Hkey Hk Hh Hm).
  - destruct (unmappable_array _ Hu) as (items & Ei & Hn).
    rewrite Ei in Hm at 2.
    assert (Ha : answered_once (ServerJs.chat key up req)).
    { apply server_chat_answers_once; [exact Hb|]. right. eexists. exact Hm. }
    split; [|intros _; exact Ha]. split; [|discriminate].
    intros E. destruct Ha as [Hr _]. unfold returns in Hr.
    rewrite E in Hr. discriminate Hr.
Qed.

(** A history whose second entry is [null]. *)
Lemma X8_witness :
  let key := Some (lit "secret") in
  let up := replying (reply_with (JString (lit "Hi!"))) in
  let req := chat_request (JArray [user_turn "Hello"; JNull]) in
  let history := member (req_body req) (lit "history") in
  (run (ServerJs.chat (rt := reference_runtime) key up req)
   = (Throw TypeError, fresh)
   <-> unmappable history = true)
  /\ (unmappable history = false ->
      answered_once (ServerJs.chat (rt := reference_runtime) key up req)).
Proof.
  intros key up req.
  apply (@X8_server_chat_throws_iff reference_runtime key up req (lit "secret"));
    try reflexivity; discriminate.
Defined.

(** ** What the handlers answer *)

(** X9. The chat handler does not test the reply text.  When the
    upstream answers 2xx and the path [candidates[0].content.parts[0]]
    leads to a value, the handler of either revision answers 200 with
    [{ message: t }], [t] being that value's [text] whatever it is (the
    empty string and [undefined] included); when a step of the path is
    [undefined] or [null] it answers its fixed 500. *)
Theorem X9_chat_answers_with_any_text {rt : JsRuntime} (key : option jsstr)
    (up : UpstreamCall -> AxiosReply) (req : Request) (k : jsstr)
    (items : list JsValue) (data : JsValue) :
  nullish (req_body req) = false ->
  key = Some k -> k <> [] ->
  member (req_body req) (lit "history") = JArray items ->
  existsb nullish items = false ->
  (forall c, up c = Resolved data) ->
  (forall t,
      strict_text data = Ok t ->
      responses (ServerJs.chat key up req)
        = [mkResponse 200 (JObject [(lit "message", t)])]
      /\ responses (Part000.chat key up req)
        = [mkResponse 200 (JObject [(lit "message", t)])])
  /\ (forall e,
        strict_text data = Throw e ->
        responses (ServerJs.chat key up req) = [ServerJsRuns.chat_failure]
        /\ responses (Part000.chat key up req) = [Part000Runs.chat_failure]).
Proof.
  intros Hb Hkey Hk Hh Hn Hup.
  assert (Ht : truthy (member (req_body req) (lit "history")) = true)
    by (rewrite Hh; reflexivity).
  assert (Hm : call_map (member (req_body req) (lit "history")) ServerJs.turn_of
               = Ok (List.map forwarded_turn items)).
  { rewrite Hh. cbn [call_map]. rewrite map_turn_of, Hn. reflexivity. }
  destruct (ServerJsFacts.server_chat_forwarded key up req k _ Hb Hkey Hk Ht Hm)
    as [l E].
  destruct (Part000Facts.part_chat_forwarded key up req k Hb Hkey Hk Ht)
    as [l' E'].
  rewrite (responses_run _ _ _ _ _ E), (responses_run _ _ _ _ _ E'), !Hup.
  unfold ServerJsRuns.chat_answer, Part000Runs.chat_answer.
  split.
  - intros t Hs. rewrite Hs. split; reflexivity.
  - intros e Hs. rewrite Hs. split; reflexivity.
Qed.

(** A reply whose text is the empty string. *)
Lemma X9_witness :
  let key := Some (lit "secret") in
  let data := reply_with (JString []) in
  let up := replying data in
  let req := chat_request (JArray [user_turn "Hello"]) in
  (forall t,
      strict_text data = Ok t ->
      responses (ServerJs.chat (rt := reference_runtime) key up req)
        = [mkResponse 200 (JObject [(lit "message", t)])]
      /\ responses (Part000.chat (rt := reference_runtime) key up req)
        = [mkResponse 200 (JObject [(lit "message", t)])])
  /\ (forall e,
        strict_text data = Throw e ->
        responses (ServerJs.chat (rt := reference_runtime) key up req)
          = [ServerJsRuns.chat_failure]
        /\ responses (Part000.chat (rt := reference_runtime) key up req)
          = [Part000Runs.chat_failure]).
Proof.
  intros key data up req.
  apply (@X9_chat_answers_with_any_text reference_runtime key up req
           (lit "secret") [user_turn "Hello"] data);
    try reflexivity; discriminate.
Defined.

(** The empty text comes back as an empty message, with status 200. *)
Example chat_empty_text :
  responses (ServerJs.chat (rt := reference_runtime) (Some (lit "secret"))
               (replying (reply_with (JString [])))
               (chat_request (JArray [user_turn "Hello"])))
  = [mkResponse 200 (JObject [(lit "message", JString [])])].
Proof. reflexivity. Qed.

(** X10. A failed upstream call is answered with the handler's fixed 500
    and nothing else: when axios rejects, be it for a status outside
    2xx, for no response (timeout, connection reset) or for a request
    that could not be set up, each handler returns normally having made
    its one call and sent its fixed failure, the same for every cause
    and every error payload. *)
Theorem X10_upstream_failure_is_uniform {rt : JsRuntime} (key : option jsstr)
    (up : UpstreamCall -> AxiosReply) (req creq : Request) (k s : jsstr)
    (items : list JsValue) (f : AxiosFailure) :
  nullish (req_body req) = false ->
  nullish (req_body creq) = false ->
  key = Some k -> k <> [] ->
  member (req_body req) (lit "interests") = JString s ->
  trim s <> [] ->
  member (req_body creq) (lit "history") = JArray items ->
  existsb nullish items = false ->
  (forall c, up c = Rejected f) ->
  observe (ServerJs.recommendations key up req)
    = (Ok tt, [ServerJsRuns.call_for k s], [recommendation_failure])
  /\ observe (Part000.recommendations key up req)
    = (Ok tt, [Part000Runs.call_for k s], [recommendation_failure])
  /\ observe (ServerJs.chat key up creq)
    = (Ok tt, [ServerJsRuns.chat_call k (List.map forwarded_turn items)],
       [ServerJsRuns.chat_failure])
  /\ observe (Part000.chat key up creq)
    = (Ok tt, [Part000Runs.chat_call k (JArray items)],
       [Part000Runs.chat_failure]).
Proof.
  intros Hb Hcb Hkey Hk Hi Hs Hh Hn Hup.
  assert (Ht : truthy (member (req_body creq) (lit "history")) = true)
    by (rewrite Hh; reflexivity).
  assert (Hm : call_map (member (req_body creq) (lit "history")) ServerJs.turn_of
               = Ok (List.map forwarded_turn items)).
  { rewrite Hh. cbn [call_map]. rewrite map_turn_of, Hn. reflexivity. }
  destruct (ServerJsFacts.server_recommendations_accepted key up req k s
              Hb Hkey Hk Hi Hs) as [l1 E1].
  destruct (Part000Facts.part_recommendations_accepted key up req k s
              Hb Hkey Hk Hi Hs) as [l2 E2].
  destruct (ServerJsFacts.server_chat_forwarded key up creq k _
              Hcb Hkey Hk Ht Hm) as [l3 E3].
  destruct (Part000Facts.part_chat_forwarded key up creq k Hcb Hkey Hk Ht)
    as [l4 E4].
  rewrite Hh in E4. rewrite Hup in E1, E2, E3, E4.
  split; [|split; [|split]]; eapply observe_run; eassumption.
Qed.

(** The upstream answers 429 with an error payload. *)
Lemma X10_witness :
  let key := Some (lit "secret") in
  let f := BadStatus 429 (JObject [(lit "error", JString (lit "quota"))]) in
  let up := fun _ : UpstreamCall => Rejected f in
  let req := interest_request (JString (lit "music")) in
  let creq := chat_request (JArray [user_turn "Hello"]) in
  observe (ServerJs.recommendations (rt := reference_runtime) key up req)
    = (Ok tt, [ServerJsRuns.call_for (lit "secret") (lit "music")],
       [recommendation_failure])
  /\ observe (Part000.recommendations (rt := reference_runtime) key up req)
    = (Ok tt, [Part000Runs.call_for (lit "secret") (lit "music")],
       [recommendation_failure])
  /\ observe (ServerJs.chat (rt := reference_runtime) key up creq)
    = (Ok tt,
       [ServerJsRuns.chat_call (lit "secret")
          (List.map forwarded_turn [user_turn "Hello"])],
       [ServerJsRuns.chat_failure])
  /\ observe (Part000.chat (rt := reference_runtime) key up creq)
    = (Ok tt, [Part000Runs.chat_call (lit "secret") (JArray [user_turn "Hello"])],
       [Part000Runs.chat_failure]).
Proof.
  intros key f up req creq.
  apply (@X10_upstream_failure_is_uniform reference_runtime key up req creq
           (lit "secret") (lit "music") [user_turn "Hello"] f);
    try reflexivity; discriminate.
Defined.

Lemma failure_is_no_success (v : JsValue) :
  [recommendation_failure] <> [mkResponse 200 v].
Proof. unfold recommendation_failure. intros H. discriminate H. Qed.

(** X11. The recommendation handler of src/unnamed/part_000 answers 200
    exactly when the reply's first text part is a string whose cleaned
    form (fence markers removed, trimmed) parses to a value with
    array-typed [careers] and [hobbies], and the body is then that
    value; every other 2xx reply, a text part that is not a string
    included, gets the uniform 500. *)
Theorem X11_part_success_iff {rt : JsRuntime} (key : option jsstr)
    (up : UpstreamCall -> AxiosReply) (req : Request) (k s : jsstr)
    (data : JsValue) :
  nullish (req_body req) = false ->
  key = Some k -> k <> [] ->
  member (req_body req) (lit "interests") = JString s ->
  trim s <> [] ->
  (forall c, up c = Resolved data) ->
  (forall v,
      responses (Part000.recommendations key up req) = [mkResponse 200 v]
      <-> exists text,
            first_candidate_text data = JString text
            /\ JSON_parse_text (cleaned text) = Some v
            /\ has_both_arrays v = true)
  /\ ((forall v,
         responses (Part000.recommendations key up req) <> [mkResponse 200 v]) ->
      responses (Part000.recommendations key up req) = [recommendation_failure]).
Proof.
  intros Hb Hkey Hk Hi Hs Hup.
  destruct (Part000Facts.part_recommendations_accepted key up req k s
              Hb Hkey Hk Hi Hs) as [l E].
  rewrite (responses_run _ _ _ _ _ E), Hup. split.
  - intros v. split.
    + unfold Part000Runs.answer.
      destruct (strict_text data) as [t|e] eqn:Ht;
        [|intros H; destruct (failure_is_no_success v H)].
      apply strict_text_first in Ht.
      destruct t as [| |b|x|text|a|f];
        try (intros H; destruct (failure_is_no_success v H)).
      rewrite Part000Facts.clean_string. fold (cleaned text).
      destruct (JSON_parse_text (cleaned text)) as [w|] eqn:Hp;
        [|intros H; destruct (failure_is_no_success v H)].
      destruct (has_both_arrays w) eqn:Hw;
        [|intros H; destruct (failure_is_no_success v H)].
      intros H. injection H as <-. exists text. repeat split; assumption.
    + intros (text & Ht & Hp & Hv).
      rewrite (part_answer_text data text Ht), Hp, Hv. reflexivity.
  - intros Hno.
    destruct (part_answer_shape (Resolved data)) as [-> | [H200 _]];
      [reflexivity|].
    exfalso. apply (Hno (body (Part000Runs.answer (Resolved data)))).
    destruct (Part000Runs.answer (Resolved data)) as [st b]. simpl in *.
    rewrite H200. reflexivity.
Qed.

(** A reply whose text part is a number: src/unnamed/part_000 answers
    500, for a number has no [replace]. *)
Lemma X11_witness :
  let key := Some (lit "secret") in
  let data := reply_with (JNumber (Reference.number_of_Z false 7)) in
  let up := replying data in
  let req := interest_request (JString (lit "music")) in
  (forall v,
      responses (Part000.recommendations (rt := reference_runtime) key up req)
      = [mkResponse 200 v]
      <-> exists text,
            first_candidate_text data = JString text
            /\ JSON_parse_text (JsRuntime := reference_runtime) (cleaned text)
               = Some v
            /\ has_both_arrays v = true)
  /\ ((forall v,
         responses (Part000.recommendations (rt := reference_runtime) key up req)
         <> [mkResponse 200 v]) ->
      responses (Part000.recommendations (rt := reference_runtime) key up req)
      = [recommendation_failure]).
Proof.
  intros key data up req.
  apply (@X11_part_success_iff reference_runtime key up req
           (lit "secret") (lit "music") data);
    try reflexivity; discriminate.
Defined.

(** X12. The recommendation handler of src/server.js answers 200 exactly
    when the reply's first text part is truthy and [JSON.parse] of it
    succeeds, and the body is then the parsed value; every other 2xx
    reply gets the uniform 500.  The text part need not be a string:
    [JSON.parse] converts it first. *)
Theorem X12_server_success_iff {rt : JsRuntime} (key : option jsstr)
    (up : UpstreamCall -> AxiosReply) (req : Request) (k s : jsstr)
    (data : JsValue) :
  nullish (req_body req) = false ->
  key = Some k -> k <> [] ->
  member (req_body req) (lit "interests") = JString s ->
  trim s <> [] ->
  (forall c, up c = Resolved data) ->
  let rawText := first_candidate_text data in
  (forall v,
      responses (ServerJs.recommendations key up req) = [mkResponse 200 v]
      <-> truthy rawText = true /\ JSON_parse rawText = Ok v)
  /\ ((truthy rawText = false \/ exists e, JSON_parse rawText = Throw e) ->
      responses (ServerJs.recommendations key up req) = [recommendation_failure]).
Proof.
  intros Hb Hkey Hk Hi Hs Hup rawText. subst rawText.
  destruct (ServerJsFacts.server_recommendations_accepted key up req k s
              Hb Hkey Hk Hi Hs) as [l E].
  rewrite (responses_run _ _ _ _ _ E), Hup.
  unfold ServerJsRuns.answer.
  destruct (nullish data) eqn:Hd.
  - rewrite (first_text_of_nullish data Hd). split.
    + intros v. split.
      * intros H. destruct (failure_is_no_success v H).
      * intros [H _]. discriminate H.
    + reflexivity.
  - cbv zeta. destruct (truthy (first_candidate_text data)) eqn:Ht.
    + destruct (JSON_parse (first_candidate_text data)) as [w|e] eqn:Hp.
      * split.
        -- intros v. split.
           ++ intros H. injection H as <-. split; reflexivity.
           ++ intros [_ H]. injection H as <-. reflexivity.
        -- intros [H | [e H]]; discriminate H.
      * split; [|reflexivity].
        intros v. split.
        -- intros H. destruct (failure_is_no_success v H).
        -- intros [_ H]. discriminate H.
    + split; [|reflexivity].
      intros v. split.
      * intros H. destruct (failure_is_no_success v H).
      * intros [H _]. discriminate H.
Qed.

(** A reply whose text is not JSON. *)
Lemma X12_witness :
  let key := Some (lit "secret") in
  let data := reply_with (JString (lit "Sure! Here are some ideas.")) in
  let up := replying data in
  let req := interest_request (JString (lit "music")) in
  let rawText := first_candidate_text data in
  (forall v,
      responses (ServerJs.recommendations (rt := reference_runtime) key up req)
      = [mkResponse 200 v]
      <-> truthy rawText = true
          /\ JSON_parse (rt := reference_runtime) rawText = Ok v)
  /\ ((truthy rawText = false
       \/ exists e, JSON_parse (rt := reference_runtime) rawText = Throw e) ->
      responses (ServerJs.recommendations (rt := reference_runtime) key up req)
      = [recommendation_failure]).
Proof.
  intros key data up req.
  apply (@X12_server_success_iff reference_runtime key up req
           (lit "secret") (lit "music") data);
    try reflexivity; discriminate.
Defined.

(** Text that is not JSON is answered with the 500 by both revisions. *)
Example not_json_text :
  let up := replying (reply_with (JString (lit "Sure! Here are some ideas."))) in
  let req := interest_request (JString (lit "music")) in
  responses (ServerJs.recommendations (rt := reference_runtime)
               (Some (lit "secret")) up req) = [recommendation_failure]
  /\ responses (Part000.recommendations (rt := reference_runtime)
               (Some (lit "secret")) up req) = [recommendation_failure].
Proof. split; reflexivity. Qed.

(** ** The cleaning of part_000 *)

Lemma starts_with_split (p s : jsstr) :
  starts_with p s = true -> s = p ++ skipn (List.length p) s.
Proof.
  revert s. induction p as [|x p IH]; intros s H; [reflexivity|].
  destruct s as [|y s]; [discriminate|]. simpl in H.
  apply andb_prop in H as [Hx Hp]. apply N.eqb_eq in Hx. subst y.
  simpl. f_equal. apply IH, Hp.
Qed.

Lemma remove_from_no_match (p s : jsstr) (a : code_unit) :
  starts_with p (a :: s) = false ->
  remove_from p 0 (a :: s) = a :: remove_from p 0 s.
Proof. intros H. cbn [remove_from]. rewrite H. reflexivity. Qed.

Lemma fence_ahead (s : jsstr) :
  starts_with (lit "```") s = true <-> 3 <= backticks_ahead s.
Proof.
  change (lit "```") with [96%N; 96%N; 96%N].
  destruct s as [|a [|b [|c r]]]; cbn [starts_with backticks_ahead];
    rewrite ?(N.eqb_sym 96);
    repeat match goal with
           | |- context [N.eqb ?x 96] => destruct (N.eqb x 96)
           end;
    cbn [andb]; split; intros H; try discriminate H; try reflexivity; lia.
Qed.

Lemma fence_not_ahead (s : jsstr) :
  backticks_ahead s < 3 -> starts_with (lit "```") s = false.
Proof.
  intros H. destruct (starts_with (lit "```") s) eqn:E; [|reflexivity].
  apply fence_ahead in E. lia.
Qed.

(** After the removal no three backticks stand together. *)
Lemma remove_fence_bounded (n : nat) (s : jsstr) :
  List.length s <= n ->
  backticks_ahead (remove_from (lit "```") 0 s) < 3
  /\ (backticks_ahead s < 3 ->
      backticks_ahead (remove_from (lit "```") 0 s) = backticks_ahead s)
  /\ occurs (lit "```") (remove_from (lit "```") 0 s) = false.
Proof.
  revert s. induction n as [|n IH]; intros s Hn.
  { destruct s; [|simpl in Hn; lia]. repeat split; simpl; lia. }
  destruct s as [|a s]; [repeat split; simpl; lia|].
  destruct (starts_with (lit "```") (a :: s)) eqn:E.
  - pose proof (starts_with_split _ _ E) as Hs.
    pose proof (proj1 (fence_ahead _) E) as Ha.
    set (r := skipn (List.length (lit "```")) (a :: s)) in *.
    assert (Hr : List.length r <= n).
    { apply (f_equal (@List.length N)) in Hs.
      rewrite length_app in Hs. simpl in Hs, Hn. simpl. lia. }
    rewrite Hs, remove_from_match by discriminate.
    destruct (IH r Hr) as (H1 & _ & H3).
    rewrite <- Hs. repeat split; [exact H1 | lia | exact H3].
  - rewrite (remove_from_no_match _ _ _ E).
    assert (Hs : List.length s <= n) by (simpl in Hn; lia).
    destruct (IH s Hs) as (H1 & H2 & H3).
    assert (Hlt : backticks_ahead (a :: s) < 3).
    { destruct (Nat.lt_ge_cases (backticks_ahead (a :: s)) 3) as [H|H];
        [exact H|]. apply fence_ahead in H. congruence. }
    assert (Heq : backticks_ahead (a :: remove_from (lit "```") 0 s)
                  = backticks_ahead (a :: s)).
    { cbn [backticks_ahead] in *. destruct (N.eqb a 96); [|reflexivity].
      rewrite H2 by lia. reflexivity. }
    repeat split.
    + rewrite Heq. exact Hlt.
    + intros _. exact Heq.
    + cbn [occurs]. rewrite H3, orb_false_r.
      apply fence_not_ahead. rewrite Heq. exact Hlt.
Qed.

Lemma starts_with_longer (p s r : jsstr) :
  starts_with p s = true -> starts_with p (s ++ r) = true.
Proof.
  revert s. induction p as [|x p IH]; intros s H; [reflexivity|].
  destruct s as [|y s]; [discriminate|]. simpl in *.
  apply andb_prop in H as [Hx Hp]. rewrite Hx. simpl. apply IH, Hp.
Qed.

Lemma occurs_prefix (p s r : jsstr) :
  occurs p (s ++ r) = false -> occurs p s = false.
Proof.
  induction s as [|y s IH]; intros H.
  - simpl. rewrite orb_false_r.
    destruct (starts_with p []) eqn:E; [|reflexivity].
    apply (starts_with_longer p [] r) in E.
    destruct r; simpl in H; apply orb_false_elim in H as [H _];
      simpl in E; congruence.
  - change ((y :: s) ++ r) with (y :: (s ++ r)) in H.
    cbn [occurs] in *. apply orb_false_elim in H as [H1 H2].
    rewrite (IH H2), orb_false_r.
    destruct (starts_with p (y :: s)) eqn:E; [|reflexivity].
    apply (starts_with_longer p (y :: s) r) in E. simpl in E, H1. congruence.
Qed.

Lemma trim_end_prefix (s : jsstr) : exists r, s = trim_end s ++ r.
Proof.
  induction s as [|c s [r IH]]; [exists []; reflexivity|].
  cbn [trim_end]. destruct (trim_end s) as [|x q] eqn:E.
  - destruct (is_js_space c).
    + exists (c :: s). reflexivity.
    + exists s. reflexivity.
  - exists r. simpl. rewrite IH at 1. reflexivity.
Qed.

Lemma occurs_trim_start (p s : jsstr) :
  occurs p s = false -> occurs p (trim_start s) = false.
Proof.
  induction s as [|c s IH]; intros H; [exact H|].
  cbn [trim_start]. destruct (is_js_space c); [|exact H].
  apply IH. cbn [occurs] in H. apply orb_false_elim in H as [_ H]. exact H.
Qed.

Lemma occurs_trim (p s : jsstr) : occurs p s = false -> occurs p (trim s) = false.
Proof.
  intros H. unfold trim. apply occurs_trim_start.
  destruct (trim_end_prefix s) as [r Hr]. rewrite Hr in H.
  apply (occurs_prefix _ _ _ H).
Qed.

Lemma trim_start_twice (s : jsstr) : trim_start (trim_start s) = trim_start s.
Proof.
  induction s as [|c s IH]; [reflexivity|].
  cbn [trim_start]. destruct (is_js_space c) eqn:E; [exact IH|].
  cbn [trim_start]. rewrite E. reflexivity.
Qed.

Lemma trim_end_twice (s : jsstr) : trim_end (trim_end s) = trim_end s.
Proof.
  induction s as [|c s IH]; [reflexivity|].
  cbn [trim_end]. destruct (trim_end s) as [|x q] eqn:E.
  - destruct (is_js_space c) eqn:Ec; [reflexivity|].
    cbn [trim_end]. rewrite Ec. reflexivity.
  - cbn [trim_end] in *. rewrite IH. reflexivity.
Qed.

Lemma trim_end_of_trim_start (s : jsstr) :
  trim_end s = s -> trim_end (trim_start s) = trim_start s.
Proof.
  induction s as [|c s IH]; [reflexivity|].
  intros H. cbn [trim_start]. destruct (is_js_space c) eqn:Ec; [|exact H].
  apply IH. cbn [trim_end] in H.
  destruct (trim_end s) as [|x q] eqn:E.
  - rewrite Ec in H. discriminate H.
  - injection H as H. exact H.
Qed.

Lemma trim_twice (s : jsstr) : trim (trim s) = trim s.
Proof.
  unfold trim.
  rewrite (trim_end_of_trim_start (trim_end s) (trim_end_twice s)).
  apply trim_start_twice.
Qed.

(** X13. The cleaning of src/unnamed/part_000 (line 100) leaves no code
    fence behind and is idempotent: for every reply text the cleaned
    string contains no [```], and cleaning it again changes nothing. *)
Theorem X13_cleaning_leaves_no_fence (s : jsstr) :
  exists c,
    Part000.clean (JString s) = Ok c
    /\ occurs (lit "```") c = false
    /\ Part000.clean (JString c) = Ok c.
Proof.
  exists (cleaned s). split; [apply Part000Facts.clean_string|].
  assert (H : occurs (lit "```") (cleaned s) = false).
  { unfold cleaned. apply occurs_trim.
    change (remove_all (lit "```")) with (remove_from (lit "```") 0).
    apply (remove_fence_bounded _ _ (Nat.le_refl _)). }
  split; [exact H|].
  rewrite Part000Facts.clean_string. fold (cleaned (cleaned s)).
  rewrite (cleaned_fence_free _ H). unfold cleaned. rewrite trim_twice.
  reflexivity.
Qed.

Lemma outside_fence_json (c : code_unit) :
  outside_fence c = true -> ~ In c (lit "```json").
Proof.
  unfold outside_fence. intros H Hin. apply negb_true_iff in H.
  assert (E : existsb (N.eqb c) (lit "```json") = true).
  { apply existsb_exists. exists c. split; [exact Hin | apply N.eqb_refl]. }
  congruence.
Qed.

Lemma outside_fence_plain (c : code_unit) :
  outside_fence c = true -> ~ In c (lit "```").
Proof.
  intros H Hin. apply (outside_fence_json c H).
  change (lit "```json") with (lit "```" ++ lit "json").
  apply in_or_app. left. exact Hin.
Qed.

(** A scan of a text that starts and ends outside of the pattern, with
    the pattern's own remainder [tail] after it. *)
Lemma remove_from_enclosed (p m tail : jsstr) (b1 b2 : code_unit) :
  ~ In b1 p -> ~ In b2 p -> p <> [] ->
  remove_from p 0 (b1 :: m ++ b2 :: tail)
  = b1 :: remove_from p 0 m ++ b2 :: remove_from p 0 tail.
Proof.
  intros H1 H2 Hp.
  rewrite (remove_from_barrier_head p _ b1 H1 Hp).
  rewrite (remove_from_barrier p m tail b2 0 H2 Hp) by lia.
  rewrite (remove_from_barrier_head p _ b2 H2 Hp). reflexivity.
Qed.

(** X14. The cleaning of src/unnamed/part_000 also undoes fences that
    stand on the same line as the text, with or without the [json] tag:
    for a text that starts and ends with a code unit other than a
    backtick and the letters of [json] (every JSON object or array
    text), [```json] + text + [```] and [```] + text + [```] clean to
    what the bare text cleans to. *)
Theorem X14_inline_fences_are_removed (m : jsstr) (b1 b2 : code_unit) :
  outside_fence b1 = true ->
  outside_fence b2 = true ->
  let text := b1 :: m ++ [b2] in
  Part000.clean (JString (fenced_inline text)) = Part000.clean (JString text)
  /\ Part000.clean (JString (fenced_plain text)) = Part000.clean (JString text).
Proof.
  intros H1 H2 text. subst text.
  pose proof (outside_fence_json b1 H1) as A1.
  pose proof (outside_fence_json b2 H2) as A2.
  pose proof (outside_fence_plain b1 H1) as B1.
  pose proof (outside_fence_plain b2 H2) as B2.
  assert (PA : lit "```json" <> []) by discriminate.
  assert (PB : lit "```" <> []) by discriminate.
  rewrite !Part000Facts.clean_string.
  change (remove_all (lit "```json")) with (remove_from (lit "```json") 0).
  change (remove_all (lit "```")) with (remove_from (lit "```") 0).
  assert (Ebare :
    remove_from (lit "```") 0 (remove_from (lit "```json") 0 (b1 :: m ++ [b2]))
    = b1 :: remove_from (lit "```") 0 (remove_from (lit "```json") 0 m) ++ [b2]).
  { rewrite (remove_from_enclosed _ m [] b1 b2 A1 A2 PA).
    rewrite (remove_from_enclosed _ _ [] b1 b2 B1 B2 PB). reflexivity. }
  assert (Etail : (b1 :: m ++ [b2]) ++ lit "```" = b1 :: m ++ b2 :: lit "```").
  { simpl. rewrite <- app_assoc. reflexivity. }
  rewrite Ebare. unfold fenced_inline, fenced_plain. rewrite Etail. split.
  - rewrite (remove_from_match _ _ PA).
    rewrite (remove_from_enclosed _ m _ b1 b2 A1 A2 PA).
    change (remove_from (lit "```json") 0 (lit "```")) with (lit "```").
    rewrite (remove_from_enclosed _ _ _ b1 b2 B1 B2 PB). reflexivity.
  - rewrite (remove_from_barrier (lit "```json") (lit "```") _ b1 0 A1 PA)
      by (simpl; lia).
    change (remove_from (lit "```json") 0 (lit "```")) with (lit "```").
    rewrite (remove_from_barrier_head _ _ b1 A1 PA).
    rewrite (remove_from_barrier _ m _ b2 0 A2 PA) by lia.
    rewrite (remove_from_barrier_head _ _ b2 A2 PA).
    change (remove_from (lit "```json") 0 (lit "```")) with (lit "```").
    rewrite (remove_from_match _ _ PB).
    rewrite (remove_from_enclosed _ _ _ b1 b2 B1 B2 PB). reflexivity.
Qed.

(** The object [{"careers":[],"hobbies":[]}], between its braces. *)
Lemma X14_witness :
  let m := quoted "~careers~:[],~hobbies~:[]" in
  let text := 123%N :: m ++ [125%N] in
  Part000.clean (JString (fenced_inline text)) = Part000.clean (JString text)
  /\ Part000.clean (JString (fenced_plain text)) = Part000.clean (JString text).
Proof.
  intros m.
  apply (X14_inline_fences_are_removed m 123%N 125%N); reflexivity.
Defined.

(** With it the handler answers an inline-fenced reply as the bare one. *)
Example inline_fence_answered :
  let text := quoted "{~careers~:[],~hobbies~:[]}" in
  let req := interest_request (JString (lit "music")) in
  responses (Part000.recommendations (rt := reference_runtime)
               (Some (lit "secret"))
               (replying (reply_with (JString (fenced_inline text)))) req)
  = [mkResponse 200
       (JObject [(lit "careers", JArray []); (lit "hobbies", JArray [])])].
Proof. reflexivity. Qed.

(** ** The test on [history] *)

(** X15. The chat handler rejects every falsy [history], not only an
    absent one: with the credential configured, a [history] that is
    [undefined], [null], [false], [0], [NaN] or the empty string is
    answered with 400 [{ error: 'Chat history is required.' }] by both
    revisions, and no call is made. *)
Theorem X15_falsy_history_is_rejected {rt : JsRuntime} (key : option jsstr)
    (up : UpstreamCall -> AxiosReply) (req : Request) (k : jsstr) :
  nullish (req_body req) = false ->
  key = Some k -> k <> [] ->
  truthy (member (req_body req) (lit "history")) = false ->
  observe (ServerJs.chat key up req) = (Ok tt, [], [history_required])
  /\ observe (Part000.chat key up req) = (Ok tt, [], [history_required]).
Proof.
  intros Hb Hkey Hk Hh. split.
  - eapply observe_run, ServerJsFacts.server_chat_no_history; eassumption.
  - eapply observe_run, Part000Facts.part_chat_no_history; eassumption.
Qed.

(** [{ history: 0 }] *)
Lemma X15_witness :
  let key := Some (lit "secret") in
  let up := replying (reply_with (JString (lit "Hi!"))) in
  let req := chat_request (JNumber (S754_zero false)) in
  observe (ServerJs.chat (rt := reference_runtime) key up req)
    = (Ok tt, [], [history_required])
  /\ observe (Part000.chat (rt := reference_runtime) key up req)
    = (Ok tt, [], [history_required]).
Proof.
  intros key up req.
  apply (@X15_falsy_history_is_rejected reference_runtime key up req
           (lit "secret"));
    try reflexivity; discriminate.
Defined.

(** ** Startup *)

(** X16. At startup src/server.js prints only whether the key is set:
    its line is the same for any two non-empty keys.  src/unnamed/part_000
    prints the key itself: from its line the key can be read off. *)
Theorem X16_startup_line (k1 k2 : jsstr) :
  k1 <> [] -> k2 <> [] ->
  server_startup_line (Some k1) = server_startup_line (Some k2)
  /\ server_startup_line (Some k1) <> server_startup_line None
  /\ (part_startup_line (Some k1) = part_startup_line (Some k2) -> k1 = k2).
Proof.
  intros H1 H2. unfold server_startup_line, part_startup_line.
  rewrite (truthy_key k1 H1), (truthy_key k2 H2). repeat split.
  - simpl. discriminate.
  - intros H. injection H as H. exact H.
Qed.

Lemma X16_witness :
  server_startup_line (Some (lit "secret")) = server_startup_line (Some (lit "other"))
  /\ server_startup_line (Some (lit "secret")) <> server_startup_line None
  /\ (part_startup_line (Some (lit "secret")) = part_startup_line (Some (lit "other"))
      -> lit "secret" = lit "other").
Proof.
  apply (X16_startup_line (lit "secret") (lit "other")); discriminate.
Defined.

(** ** What is logged *)

(** X17. Diagnostic detail goes to the console, not to the caller.  When
    the upstream call is rejected, the recommendation handler of
    src/server.js prints a headline and then, for a status outside 2xx,
    the status and the error payload, for a missing response the
    request, and otherwise the error's message; the one of
    src/unnamed/part_000 prints one line with the payload or the
    message.  The response is the fixed 500 in each case. *)
Theorem X17_failure_is_logged {rt : JsRuntime} (key : option jsstr)
    (up : UpstreamCall -> AxiosReply) (req : Request) (k s : jsstr)
    (f : AxiosFailure) :
  nullish (req_body req) = false ->
  key = Some k -> k <> [] ->
  member (req_body req) (lit "interests") = JString s ->
  trim s <> [] ->
  (forall c, up c = Rejected f) ->
  (logged (ServerJs.recommendations key up req) = server_failure_log f
   /\ responses (ServerJs.recommendations key up req) = [recommendation_failure])
  /\ (logged (Part000.recommendations key up req) = part_failure_log f
      /\ responses (Part000.recommendations key up req)
         = [recommendation_failure]).
Proof.
  intros Hb Hkey Hk Hi Hs Hup. subst key.
  assert (Es : run (ServerJs.recommendations (Some k) up req)
               = (Ok tt,
                  mkWorld [ServerJsRuns.call_for k s] [recommendation_failure]
                    (server_failure_log f))).
  { unfold run, ServerJs.recommendations.
    rewrite bind_lift. unfold prop. rewrite Hb, (truthy_key k Hk). cbn [negb].
    rewrite bind_run, rejected_spec, Hi. cbn [accepted].
    rewrite (jsstr_nonempty (trim s) Hs). cbn [negb env_value to_string].
    rewrite !bind_lift. unfold try_catch. rewrite bind_run.
    unfold axios_post at 1. rewrite Hup.
    destruct f; reflexivity. }
  assert (Ep : run (Part000.recommendations (Some k) up req)
               = (Ok tt,
                  mkWorld [Part000Runs.call_for k s] [recommendation_failure]
                    (part_failure_log f))).
  { unfold run, Part000.recommendations.
    rewrite bind_lift. unfold prop at 1. rewrite Hb, (truthy_key k Hk).
    cbn [negb].
    rewrite bind_run, rejected_spec, Hi. cbn [accepted].
    rewrite (jsstr_nonempty (trim s) Hs). cbn [negb env_value to_string].
    rewrite !bind_lift. unfold try_catch. rewrite bind_run.
    unfold axios_post at 1. rewrite Hup.
    destruct f; reflexivity. }
  unfold logged, responses. rewrite Es, Ep. repeat split.
Qed.

(** The upstream answers 503 with a payload. *)
Lemma X17_witness :
  let key := Some (lit "secret") in
  let f := BadStatus 503 (JObject [(lit "error", JString (lit "overloaded"))]) in
  let up := fun _ : UpstreamCall => Rejected f in
  let req := interest_request (JString (lit "music")) in
  (logged (ServerJs.recommendations (rt := reference_runtime) key up req)
   = server_failure_log f
   /\ responses (ServerJs.recommendations (rt := reference_runtime) key up req)
      = [recommendation_failure])
  /\ (logged (Part000.recommendations (rt := reference_runtime) key up req)
      = part_failure_log f
      /\ responses (Part000.recommendations (rt := reference_runtime) key up req)
         = [recommendation_failure]).
Proof.
  intros key f up req.
  apply (@X17_failure_is_logged reference_runtime key up req
           (lit "secret") (lit "music") f);
    try reflexivity; discriminate.
Defined.

(** X18. What the recommendation handler of src/server.js prints on a
    2xx reply.  It prints nothing when it answers 200.  A reply whose
    data is an object without a text is printed whole before the failure
    is reported: the line "Gemini API returned an empty or invalid
    response structure:" with the reply's data, then the headline of the
    [catch] block and the message of the error thrown at line 97.  A
    reply whose data is [undefined] or [null] is not printed: reading
    [candidates] at line 92 throws before line 96, and only the headline
    and the message of that [TypeError] are printed.  In both cases the
    caller gets the fixed 500. *)
Theorem X18_empty_reply_is_logged {rt : JsRuntime} (key : option jsstr)
    (up : UpstreamCall -> AxiosReply) (req : Request) (k s : jsstr)
    (data : JsValue) :
  nullish (req_body req) = false ->
  key = Some k -> k <> [] ->
  member (req_body req) (lit "interests") = JString s ->
  trim s <> [] ->
  (forall c, up c = Resolved data) ->
  let h := ServerJs.recommendations key up req in
  (nullish data = false ->
   truthy (first_candidate_text data) = false ->
     logged h
     = [ [ LText "Gemini API returned an empty or invalid response structure:";
           LValue data ];
         [ LText "Error calling Gemini API or parsing response:" ];
         [ LText "General Error:";
           LMessage (Error (lit "The AI returned an empty response.")) ] ]
     /\ responses h = [recommendation_failure])
  /\ (nullish data = true ->
        logged h
        = [ [ LText "Error calling Gemini API or parsing response:" ];
            [ LText "General Error:"; LMessage TypeError ] ]
        /\ responses h = [recommendation_failure])
  /\ (forall v, responses h = [mkResponse 200 v] -> logged h = []).
Proof.
  intros Hb Hkey Hk Hi Hs Hup h. subst h key.
  assert (E : run (ServerJs.recommendations (Some k) up req)
              = (let t := first_candidate_text data in
                 let w := mkWorld [ServerJsRuns.call_for k s] [] [] in
                 if nullish data then
                   (Ok tt,
                    mkWorld (calls w) [recommendation_failure]
                      [ [ LText "Error calling Gemini API or parsing response:" ];
                        [ LText "General Error:"; LMessage TypeError ] ])
                 else if truthy t then
                   match JSON_parse t with
                   | Ok v => (Ok tt, mkWorld (calls w) [mkResponse 200 v] [])
                   | Throw e =>
                       (Ok tt,
                        mkWorld (calls w) [recommendation_failure]
                          ([ LText "Error calling Gemini API or parsing response:" ]
                           :: match e with
                              | AxiosError f => List.tl (server_failure_log f)
                              | _ => [ [ LText "General Error:"; LMessage e ] ]
                              end))
                   end
                 else
                   (Ok tt,
                    mkWorld (calls w) [recommendation_failure]
                      [ [ LText "Gemini API returned an empty or invalid response structure:";
                          LValue data ];
                        [ LText "Error calling Gemini API or parsing response:" ];
                        [ LText "General Error:";
                          LMessage (Error (lit "The AI returned an empty response.")) ] ]))).
  { unfold run, ServerJs.recommendations.
    rewrite bind_lift. unfold prop at 1. rewrite Hb, (truthy_key k Hk).
    cbn [negb].
    rewrite bind_run, rejected_spec, Hi. cbn [accepted].
    rewrite (jsstr_nonempty (trim s) Hs). cbn [negb env_value to_string].
    rewrite !bind_lift. unfold try_catch. rewrite bind_run.
    unfold axios_post at 1. rewrite Hup.
    rewrite bind_lift. unfold prop.
    destruct (nullish data) eqn:Hd; [reflexivity|].
    unfold first_candidate_text. rewrite (opt_member_present data _ Hd).
    cbv zeta.
    match goal with
    | |- context [truthy ?t] => destruct (truthy t) eqn:Ht
    end; cbn [negb]; [|reflexivity].
    rewrite bind_lift.
    match goal with
    | |- context [JSON_parse ?t] => destruct (JSON_parse t) as [v|e]
    end; [reflexivity|].
    destruct e as [| | |[]]; reflexivity. }
  unfold logged, responses. rewrite E. cbv zeta. split; [|split].
  - intros Hd Ht. rewrite Hd, Ht. split; reflexivity.
  - intros Hd. rewrite Hd. split; reflexivity.
  - intros v. destruct (nullish data).
    + intros H. destruct (failure_is_no_success v H).
    + destruct (truthy (first_candidate_text data)).
      * destruct (JSON_parse (first_candidate_text data)); [reflexivity|].
        intros H. destruct (failure_is_no_success v H).
      * intros H. destruct (failure_is_no_success v H).
Qed.

(** A 2xx reply with an empty list of candidates. *)
Lemma X18_witness :
  let key := Some (lit "secret") in
  let data := JObject [(lit "candidates", JArray [])] in
  let up := replying data in
  let req := interest_request (JString (lit "music")) in
  let h := ServerJs.recommendations (rt := reference_runtime) key up req in
  (nullish data = false ->
   truthy (first_candidate_text data) = false ->
     logged h
     = [ [ LText "Gemini API returned an empty or invalid response structure:";
           LValue data ];
         [ LText "Error calling Gemini API or parsing response:" ];
         [ LText "General Error:";
           LMessage (Error (lit "The AI returned an empty response.")) ] ]
     /\ responses h = [recommendation_failure])
  /\ (nullish data = true ->
        logged h
        = [ [ LText "Error calling Gemini API or parsing response:" ];
            [ LText "General Error:"; LMessage TypeError ] ]
        /\ responses h = [recommendation_failure])
  /\ (forall v, responses h = [mkResponse 200 v] -> logged h = []).
Proof.
  intros key data up req.
  apply (@X18_empty_reply_is_logged reference_runtime key up req
           (lit "secret") (lit "music") data);
    try reflexivity; discriminate.
Defined.
